(** * GC9A01-XIAO-RP2040-Cpp: the SD-card block driver and the FAT32 layer

    A shallow embedding of [SDCard.cpp] (the SPI command protocol of
    [SDCard::write_block], and [SDCard::format_fat32] over the block
    device) and of [FAT32.cpp] (mount, FAT cache, allocator, directory
    engine, file handles and directory compaction), followed by the
    properties of the specification that were checked against them and by
    further properties of the code.

    Conventions.
    - A [uintN_t] is a [Z] in [0, 2^N); every assignment to a narrower
      variable is written out with [to_u8], [to_u16] or [to_u32].
    - A byte buffer is a [list Z]; a sector is a buffer of 512 bytes.
    - A C string is a buffer read up to its first NUL ([cstr]).
    - Stateful code passes the object explicitly: [FAT32] is the C++ object,
      whose [sd_card] field is the block device behind it. *)

From Stdlib Require Import String Ascii.
From Stdlib Require Import ZArith List Bool Lia.
Import ListNotations.
Local Open Scope Z_scope.

(* ------------------------------------------------------------------ *)
(** ** Machine integers and byte buffers *)

Definition to_u8 (x : Z) : Z := x mod 256.
Definition to_u16 (x : Z) : Z := x mod 65536.
Definition to_u32 (x : Z) : Z := x mod 4294967296.

(** [buf[i]]; reading outside the buffer (undefined in C) yields 0. *)
Definition byte_at (buf : list Z) (i : Z) : Z := nth (Z.to_nat i) buf 0.

Fixpoint upd_nth (n : nat) (x : Z) (l : list Z) : list Z :=
  match l, n with
  | [], _ => []
  | _ :: t, O => x :: t
  | h :: t, S n' => h :: upd_nth n' x t
  end.

(** [buf[i] = v]; writing outside the buffer (undefined in C) does nothing. *)
Definition set_byte (buf : list Z) (i : Z) (v : Z) : list Z :=
  if i <? 0 then buf else upd_nth (Z.to_nat i) v buf.

(** [memcpy(buf + off, src, |src|)]. *)
Fixpoint blit (buf : list Z) (off : Z) (src : list Z) : list Z :=
  match src with
  | [] => buf
  | b :: src' => blit (set_byte buf off b) (off + 1) src'
  end.

(** [buf[off .. off+len)]. *)
Definition slice (buf : list Z) (off : Z) (len : nat) : list Z :=
  firstn len (skipn (Z.to_nat off) buf).

(** The device transfers exactly 512 bytes per block. *)
Definition BLOCK_SIZE : Z := 512.
Definition sector512 (l : list Z) : list Z := firstn 512 (l ++ repeat 0 512).
Definition zero_sector : list Z := repeat 0 512.

(** Little-endian fields, decoded byte by byte as the code does. *)
Definition le16 (buf : list Z) (off : Z) : Z :=
  Z.lor (byte_at buf off) (Z.shiftl (byte_at buf (off + 1)) 8).

Definition le32 (buf : list Z) (off : Z) : Z :=
  Z.lor (Z.lor (Z.lor (byte_at buf off)
                      (Z.shiftl (byte_at buf (off + 1)) 8))
               (Z.shiftl (byte_at buf (off + 2)) 16))
        (Z.shiftl (byte_at buf (off + 3)) 24).

Definition put_le16 (buf : list Z) (off v : Z) : list Z :=
  set_byte (set_byte buf off (Z.land v 255))
           (off + 1) (Z.land (Z.shiftr v 8) 255).

Definition put_le32 (buf : list Z) (off v : Z) : list Z :=
  set_byte (set_byte (set_byte (set_byte buf
    off (Z.land v 255))
    (off + 1) (Z.land (Z.shiftr v 8) 255))
    (off + 2) (Z.land (Z.shiftr v 16) 255))
    (off + 3) (Z.land (Z.shiftr v 24) 255).

(** A C string: the characters before the first NUL. *)
Fixpoint cstr (l : list Z) : list Z :=
  match l with
  | [] => []
  | c :: t => if c =? 0 then [] else c :: cstr t
  end.

(** [std::toupper] on an [unsigned char] in the C locale. *)
Definition toupper (c : Z) : Z :=
  if (97 <=? c) && (c <=? 122) then c - 32 else c.

Fixpoint mem_char (c : Z) (l : list Z) : bool :=
  match l with
  | [] => false
  | x :: t => (x =? c) || mem_char c t
  end.

(* ------------------------------------------------------------------ *)
(** ** SDCard.cpp: the SPI command protocol *)

Module SDCard.

Inductive SDCard_Status : Set :=
| SD_OK | SD_NO_CARD | SD_INIT_FAILS | SD_FILE_NOT_FOUND | SD_BAD_FILE_FORMAT
| SD_INCOMPLETE_BUFFER_READ | SD_UNSUPPORTED_COMPRESSION
| SD_WRITE_COMMAND_FAILS | SD_WRITE_DATA_FAILS | SD_READ_COMMAND_FAILS
| SD_READ_TIMEOUT_TOKEN | SD_READ_BAD_TOKEN | SD_WRITE_TIMEOUT_BUSY
| SD_WRITE_STATUS_ERROR | SD_ERASE_ERROR | SD_UNKNOWN_ERROR
| SD_INIT_TIMEOUT_ACMD41.

Definition CARD_TYPE_SD_V1 : Z := 0.
Definition CARD_TYPE_SD_V2 : Z := 1.
Definition CARD_TYPE_SDHC : Z := 2.

Definition CMD0 : Z := 0.
Definition CMD8 : Z := 8.
Definition CMD13 : Z := 13.
Definition CMD24 : Z := 24.
Definition DATA_TOKEN : Z := 0xFE.
Definition WRITE_TIMEOUT_MS : Z := 600.
Definition WAIT_READY_DEFAULT_MS : Z := 500.

(** The SPI bus as the driver sees it.  [miso] holds the bytes the card
    will shift out, one for each byte clocked (an idle line reads 0xFF);
    [mosi] is the log of the bytes sent; [clock] holds the successive
    readings of [to_ms_since_boot(get_absolute_time())].  When [clock] runs
    out, time has run out: the polling loop gives up. *)
Record Bus : Type := mkBus {
  miso : list Z;
  mosi : list Z;
  clock : list Z;
  cs_low : bool
}.

Record SDCard : Type := mkSD {
  initialized : bool;
  card_type : Z;
  last_status : SDCard_Status;
  bus : Bus
}.

Definition set_status (s : SDCard_Status) (b : Bus) (sd : SDCard) : SDCard :=
  mkSD (initialized sd) (card_type sd) s b.

Definition spi_cs_select (b : Bus) : Bus :=
  mkBus (miso b) (mosi b) (clock b) true.

Definition spi_cs_deselect (b : Bus) : Bus :=
  mkBus (miso b) (mosi b) (clock b) false.

Definition spi_write_read (data : Z) (b : Bus) : Z * Bus :=
  match miso b with
  | [] => (0xFF, mkBus [] (mosi b ++ [data]) (clock b) (cs_low b))
  | r :: rest => (r, mkBus rest (mosi b ++ [data]) (clock b) (cs_low b))
  end.

Fixpoint spi_write_blocking (src : list Z) (b : Bus) : Bus :=
  match src with
  | [] => b
  | x :: src' => spi_write_blocking src' (snd (spi_write_read x b))
  end.

Definition set_clock (ts : list Z) (b : Bus) : Bus :=
  mkBus (miso b) (mosi b) ts (cs_low b).

(** The body of the loop of [wait_ready] and [wait_not_busy]:
    [while ((now() - start) < timeout_ms) if (spi_write_read(0xFF) == 0xFF)
    return true;] by recursion on the clock readings still to come. *)
Fixpoint poll_idle (timeout_ms start : Z) (ts : list Z) (b : Bus)
  : bool * Bus :=
  match ts with
  | [] => (false, set_clock [] b)
  | t :: ts' =>
      if to_u32 (t - start) <? timeout_ms then
        let (r, b1) := spi_write_read 0xFF b in
        if r =? 0xFF then (true, set_clock ts' b1)
        else poll_idle timeout_ms start ts' b1
      else (false, set_clock ts' b)
  end.

Definition wait_not_busy (timeout_ms : Z) (b : Bus) : bool * Bus :=
  match clock b with
  | [] => (false, b)
  | start :: ts => poll_idle timeout_ms start ts b
  end.

Definition wait_ready (timeout_ms : Z) (b : Bus) : bool * Bus :=
  wait_not_busy timeout_ms b.

(** [for (i = 0; i < 20; i++) { r1 = spi_write_read(0xFF);
    if (!(r1 & 0x80)) break; }] *)
Fixpoint read_r1 (n : nat) (r1 : Z) (b : Bus) : Z * Bus :=
  match n with
  | O => (r1, b)
  | S n' =>
      let (r, b1) := spi_write_read 0xFF b in
      if Z.land r 0x80 =? 0 then (r, b1) else read_r1 n' r b1
  end.

Definition command_packet (cmd arg : Z) : list Z :=
  [ Z.lor 0x40 cmd;
    Z.land (Z.shiftr arg 24) 0xFF;
    Z.land (Z.shiftr arg 16) 0xFF;
    Z.land (Z.shiftr arg 8) 0xFF;
    Z.land arg 0xFF;
    if cmd =? CMD0 then 0x95 else if cmd =? CMD8 then 0x87 else 0x01 ].

(** [send_command_core(cmd, arg, nullptr, 0, keep_cs)]: the only form
    [write_block] uses (no R3/R7 bytes requested). *)
Definition send_command_core (cmd arg : Z) (keep_cs : bool) (b : Bus)
  : Z * Bus :=
  let b0 := spi_cs_select b in
  let '(ready, b1) :=
    if cmd =? CMD0 then (true, b0) else wait_ready WAIT_READY_DEFAULT_MS b0 in
  if negb ready then (0xFF, spi_cs_deselect b1)
  else
    let b2 := spi_write_blocking (command_packet cmd arg) b1 in
    let '(r1, b3) := read_r1 20 0xFF b2 in
    if keep_cs then (r1, b3)
    else (r1, snd (spi_write_read 0xFF (spi_cs_deselect b3))).

Definition send_command_keep_cs (cmd arg : Z) (b : Bus) : Z * Bus :=
  send_command_core cmd arg true b.

(** The address put in CMD17/CMD24: blocks for SDHC, bytes otherwise
    ([uint32_t] product). *)
Definition block_address (sd : SDCard) (block_num : Z) : Z :=
  if card_type sd =? CARD_TYPE_SDHC then block_num
  else to_u32 (block_num * BLOCK_SIZE).

(** The data phase of [write_block]: [spi_write_read(DATA_TOKEN);
    spi_write_blocking(buffer, 512); spi_write_read(0xFF);
    spi_write_read(0xFF);] (token, block, dummy CRC). *)
Definition data_phase (buffer : list Z) (b : Bus) : Bus :=
  let b2 := snd (spi_write_read DATA_TOKEN b) in
  let b3 := spi_write_blocking (sector512 buffer) b2 in
  let b4 := snd (spi_write_read 0xFF b3) in
  snd (spi_write_read 0xFF b4).

(** The status check that ends [write_block]: [spi_cs_deselect();
    spi_write_read(0xFF); spi_cs_select(); r1 = send_command_keep_cs(CMD13,
    0); r2 = spi_write_read(0xFF); spi_cs_deselect(); spi_write_read(0xFF);] *)
Definition status_check (b : Bus) : Z * Z * Bus :=
  let b8 := snd (spi_write_read 0xFF (spi_cs_deselect b)) in
  let '(r1, b9) := send_command_keep_cs CMD13 0 (spi_cs_select b8) in
  let '(r2, b10) := spi_write_read 0xFF b9 in
  (r1, r2, snd (spi_write_read 0xFF (spi_cs_deselect b10))).

Definition write_block (block_num : Z) (buffer : list Z) (sd : SDCard)
  : bool * SDCard :=
  if negb (initialized sd) then (false, set_status SD_INIT_FAILS (bus sd) sd)
  else
    let address := block_address sd block_num in
    let '(r1, b1) := send_command_keep_cs CMD24 address (bus sd) in
    if negb (r1 =? 0x00) then
      (false, set_status SD_WRITE_COMMAND_FAILS (spi_cs_deselect b1) sd)
    else
      let '(resp, b6) := spi_write_read 0xFF (data_phase buffer b1) in
      if negb (Z.land resp 0x1F =? 0x05) then
        (false, set_status SD_WRITE_DATA_FAILS (spi_cs_deselect b6) sd)
      else
        let '(idle, b7) := wait_not_busy WRITE_TIMEOUT_MS b6 in
        if negb idle then
          (false, set_status SD_WRITE_TIMEOUT_BUSY (spi_cs_deselect b7) sd)
        else
          let '(r1', r2, b11) := status_check b7 in
          if negb (r1' =? 0x00) || negb (r2 =? 0x00) then
            (false, set_status SD_WRITE_STATUS_ERROR b11 sd)
          else (true, set_status SD_OK b11 sd).

(** The four outcomes the specification lists for a write. *)
Definition listed_outcome (r : bool * SDCard) : Prop :=
  (fst r = false /\ last_status (snd r) = SD_WRITE_DATA_FAILS) \/
  (fst r = false /\ last_status (snd r) = SD_WRITE_TIMEOUT_BUSY) \/
  (fst r = false /\ last_status (snd r) = SD_WRITE_STATUS_ERROR) \/
  (fst r = true /\ last_status (snd r) = SD_OK).

(** An initialised SDHC card that answers CMD24 with R1 = 0x04
    (illegal command); the line is idle (0xFF) before the answer. *)
Definition rejecting_card : SDCard :=
  mkSD true CARD_TYPE_SDHC SD_OK
       (mkBus ([0xFF] ++ repeat 0xFF 6 ++ [0x04]) [] [0; 0; 1; 2] false).

(** The value of the four argument bytes of a command packet, most
    significant first. *)
Definition be32 (a3 a2 a1 a0 : Z) : Z :=
  a3 * 16777216 + a2 * 65536 + a1 * 256 + a0.

Definition is_byte (x : Z) : Prop := 0 <= x < 256.

(** [n] filler bytes: what the driver sends while it reads. *)
Definition fill (n : nat) : list Z := repeat 0xFF n.

(** The card answers the next [n] bytes clocked with something other than
    0xFF: it holds the line busy for [n] polls. *)
Definition busy_for (n : nat) (b : Bus) : Prop :=
  (n <= length (miso b))%nat /\
  Forall (fun y => y <> 0xFF) (firstn n (miso b)).

(** Every reading of [ts] is less than [T] milliseconds after [start]
    ([uint32_t] difference). *)
Definition within (T start : Z) (ts : list Z) : Prop :=
  Forall (fun t => to_u32 (t - start) < T) ts.

(** The bytes a call of [write_block] adds to the wire [wire0], by the
    status it records.  [k], [m] and [k'] count the filler bytes of the
    three polls (ready, not busy, ready again), [j] and [j'] those sent
    while R1 is read; [a3 .. a0] are the argument bytes of the CMD24
    packet (0x58), which hold [addr]; 0x4D is the CMD13 packet. *)
Definition write_trace (wire0 : list Z) (addr : Z) (buf : list Z)
  (st : SDCard_Status) (wire : list Z) : Prop :=
  exists (k : nat) (a3 a2 a1 a0 : Z),
    is_byte a3 /\ is_byte a2 /\ is_byte a1 /\ is_byte a0 /\
    be32 a3 a2 a1 a0 = addr /\
    let poll := wire0 ++ fill k in
    let cmd24 j := poll ++ [0x58; a3; a2; a1; a0; 0x01] ++ fill j in
    let data j :=
      cmd24 j ++ [0xFE] ++ sector512 buf ++ [0xFF; 0xFF; 0xFF] in
    (st = SD_WRITE_COMMAND_FAILS /\ wire = poll) \/
    exists j, (1 <= j <= 20)%nat /\
      ((st = SD_WRITE_COMMAND_FAILS /\ wire = cmd24 j) \/
       (st = SD_WRITE_DATA_FAILS /\ wire = data j) \/
       exists m,
         (st = SD_WRITE_TIMEOUT_BUSY /\ wire = data j ++ fill m) \/
         exists k',
           (st = SD_WRITE_STATUS_ERROR /\
            wire = data j ++ fill m ++ [0xFF] ++ fill k' ++ [0xFF; 0xFF]) \/
           exists j', (1 <= j' <= 20)%nat /\
             (st = SD_WRITE_STATUS_ERROR \/ st = SD_OK) /\
             wire = data j ++ fill m ++ [0xFF] ++ fill k'
                      ++ [0x4D; 0; 0; 0; 0; 0x01] ++ fill j' ++ [0xFF; 0xFF]).

(** An initialised byte-addressed card that takes the command and the
    data (data response 0xE5) and then holds the line busy: the polls at
    100, 300 and 599 ms read 0x00, the next reading of the clock is
    600 ms after the start of the poll. *)
Definition busy_card : SDCard :=
  mkSD true CARD_TYPE_SD_V2 SD_OK
       (mkBus ([0xFF] ++ repeat 0xFF 6 ++ [0x00] ++ repeat 0xFF 515
                 ++ [0xE5] ++ [0x00; 0x00; 0x00; 0x00])
              [] [0; 0; 1000; 1100; 1300; 1599; 1600; 1601] false).

(** The same card releasing the line at the poll made 599 ms after the
    start. *)
Definition slow_card : SDCard :=
  mkSD true CARD_TYPE_SD_V2 SD_OK
       (mkBus ([0xFF] ++ repeat 0xFF 6 ++ [0x00] ++ repeat 0xFF 515
                 ++ [0xE5] ++ [0x00; 0x00; 0xFF]
                 ++ [0xFF; 0xFF] ++ repeat 0xFF 6 ++ [0x00; 0x00])
              [] [0; 0; 1000; 1100; 1300; 1599; 1600; 1600; 1601] false).

End SDCard.

(* ------------------------------------------------------------------ *)
(** ** FAT32.h: constants, on-disk layouts and the filesystem object *)

Definition SECTOR_SIZE : Z := 512.
Definition MAX_LFN_CHARACTERS : Z := 255.
Definition MAX_PATH_LENGTH : nat := 260.
Definition FILE_CLEAR : Z := 0x00.
Definition FILE_ERASED : Z := 0xE5.
Definition AT_VOLUME_ID : Z := 0x08.
Definition AT_DIRECTORY : Z := 0x10.
Definition AT_ARCHIVE : Z := 0x20.
Definition AT_LFN : Z := 0x0F.
Definition CLUSTER_FREE : Z := 0x00000000.
Definition EOC_MIN : Z := 0x0FFFFFF8.
Definition INVALID_CLUSTER : Z := 0xFFFFFFFF.
Definition LFN_CHAR_POSITIONS : list Z :=
  [1; 3; 5; 7; 9; 14; 16; 18; 20; 22; 24; 28; 30].

Inductive FileEntryType : Set :=
| _File | _Directory | _LongFileNameOK | _LongFileNameNOK | _Error.

Inductive FileFunction : Set := READ | CREATE | MODIFY | DELETE | OVERWRITE.

Inductive FAT_ErrorCode : Set :=
| ERROR_IDLE | FILE_FOUND | FILE_NOT_FOUND | FILE_CREATE_OK
| NO_FILE_ENTRY_AVAILABLE | NO_FAT_ENTRY_AVAILABLE | NO_MORE_FREE_CLUSTER
| ERROR_READ_FAIL.

(** The block-device boundary the filesystem consumes:
    [read_block(lba, out)] and [write_block(lba, data)], each of which may
    fail.  [blocks] is the medium; [fault] says which of the successive
    transfers (counted by [ticks]) fail.  A failed transfer leaves the
    medium and the caller's buffer as they were. *)
Record BlockDev : Type := mkDev {
  blocks : Z -> list Z;
  ticks : nat;
  fault : nat -> bool
}.

(** One more transfer has been attempted. *)
Definition tick (d : BlockDev) : BlockDev :=
  mkDev (blocks d) (S (ticks d)) (fault d).

(** The medium with the block [lba] replaced. *)
Definition with_block (lba : Z) (data : list Z) (d : BlockDev) : BlockDev :=
  mkDev (fun l => if l =? lba then sector512 data else blocks d l)
        (ticks d) (fault d).

Definition blk_read (lba : Z) (d : BlockDev) : option (list Z) * BlockDev :=
  if fault d (ticks d) then (None, tick d)
  else (Some (sector512 (blocks d lba)), tick d).

Definition blk_write (lba : Z) (data : list Z) (d : BlockDev)
  : bool * BlockDev :=
  if fault d (ticks d) then (false, tick d)
  else (true, tick (with_block lba data d)).

(** [root_Entries] (packed, 32 bytes) at byte offset [off] of a buffer. *)
Definition FileName (buf : list Z) (off k : Z) : Z := byte_at buf (off + k).
Definition Extension (buf : list Z) (off k : Z) : Z := byte_at buf (off + 8 + k).
Definition Attributes (buf : list Z) (off : Z) : Z := byte_at buf (off + 11).
Definition FirstClusterHigh (buf : list Z) (off : Z) : Z := le16 buf (off + 20).
Definition FirstClusterNumber (buf : list Z) (off : Z) : Z := le16 buf (off + 26).
Definition SizeofFile (buf : list Z) (off : Z) : Z := le32 buf (off + 28).

Definition ROOT_ENTRY_SIZE : Z := 32.

Record ReadHandler : Type := mkRH {
  rh_Dir_Entry : Z;
  rh_File_Size : Z;
  rh_FAT_Entry : Z;
  rh_SectorOffset : Z
}.

Record WriteHandler : Type := mkWH {
  wh_Dir_Entry : Z;
  wh_File_Size : Z;
  BaseFatEntry : Z;
  CurrentFatEntry : Z;
  ClusterIndex : Z;
  SectorIndex : Z
}.

(** [ReadHandler()] and [WriteHandler()]. *)
Definition ReadHandler0 : ReadHandler := mkRH 0 0 0 0.
Definition WriteHandler0 : WriteHandler := mkWH 0 0 0 0 0 0.

(** The [FAT32] object.  The geometry fields are [uint16_t] or [uint32_t]
    as declared in the class; [lfn_index] is the function-local [static] of
    [fat_filename_parser]. *)
Record FAT32 : Type := mkFAT {
  sd_card : BlockDev;
  initialized : bool;
  sectors_per_fat : Z;
  sectors_in_partition : Z;
  sector_size : Z;
  cluster_size : Z;
  fat_base : Z;
  data_base : Z;
  last_cluster : Z;
  root_dir_first_cluster : Z;
  first_data_sector : Z;
  current_dir_cluster_ : Z;
  read_buffer : list Z;
  fat_cache_sector : Z;
  fat_cache_valid : bool;
  fat_cache : list Z;
  read_handler : ReadHandler;
  write_handler : WriteHandler;
  lfn_index : Z
}.

Definition set_sd_card (d : BlockDev) (s : FAT32) : FAT32 :=
  mkFAT d (initialized s) (sectors_per_fat s) (sectors_in_partition s)
    (sector_size s) (cluster_size s) (fat_base s) (data_base s)
    (last_cluster s) (root_dir_first_cluster s) (first_data_sector s)
    (current_dir_cluster_ s) (read_buffer s) (fat_cache_sector s)
    (fat_cache_valid s) (fat_cache s) (read_handler s) (write_handler s)
    (lfn_index s).

Definition set_read_buffer (b : list Z) (s : FAT32) : FAT32 :=
  mkFAT (sd_card s) (initialized s) (sectors_per_fat s) (sectors_in_partition s)
    (sector_size s) (cluster_size s) (fat_base s) (data_base s)
    (last_cluster s) (root_dir_first_cluster s) (first_data_sector s)
    (current_dir_cluster_ s) b (fat_cache_sector s)
    (fat_cache_valid s) (fat_cache s) (read_handler s) (write_handler s)
    (lfn_index s).

Definition set_fat_cache (lba : Z) (valid : bool) (c : list Z) (s : FAT32)
  : FAT32 :=
  mkFAT (sd_card s) (initialized s) (sectors_per_fat s) (sectors_in_partition s)
    (sector_size s) (cluster_size s) (fat_base s) (data_base s)
    (last_cluster s) (root_dir_first_cluster s) (first_data_sector s)
    (current_dir_cluster_ s) (read_buffer s) lba valid c
    (read_handler s) (write_handler s) (lfn_index s).

Definition set_read_handler (h : ReadHandler) (s : FAT32) : FAT32 :=
  mkFAT (sd_card s) (initialized s) (sectors_per_fat s) (sectors_in_partition s)
    (sector_size s) (cluster_size s) (fat_base s) (data_base s)
    (last_cluster s) (root_dir_first_cluster s) (first_data_sector s)
    (current_dir_cluster_ s) (read_buffer s) (fat_cache_sector s)
    (fat_cache_valid s) (fat_cache s) h (write_handler s) (lfn_index s).

Definition set_write_handler (h : WriteHandler) (s : FAT32) : FAT32 :=
  mkFAT (sd_card s) (initialized s) (sectors_per_fat s) (sectors_in_partition s)
    (sector_size s) (cluster_size s) (fat_base s) (data_base s)
    (last_cluster s) (root_dir_first_cluster s) (first_data_sector s)
    (current_dir_cluster_ s) (read_buffer s) (fat_cache_sector s)
    (fat_cache_valid s) (fat_cache s) (read_handler s) h (lfn_index s).

Definition set_lfn_index (i : Z) (s : FAT32) : FAT32 :=
  mkFAT (sd_card s) (initialized s) (sectors_per_fat s) (sectors_in_partition s)
    (sector_size s) (cluster_size s) (fat_base s) (data_base s)
    (last_cluster s) (root_dir_first_cluster s) (first_data_sector s)
    (current_dir_cluster_ s) (read_buffer s) (fat_cache_sector s)
    (fat_cache_valid s) (fat_cache s) (read_handler s) (write_handler s) i.

(** [get_physical_block(block_num, read_buffer)]: on success the sector
    lands in [read_buffer]. *)
Definition get_physical_block (block_num : Z) (s : FAT32) : bool * FAT32 :=
  match blk_read block_num (sd_card s) with
  | (Some data, d) => (true, set_read_buffer data (set_sd_card d s))
  | (None, d) => (false, set_sd_card d s)
  end.

Definition store_physical_block (block_num : Z) (buffer : list Z) (s : FAT32)
  : bool * FAT32 :=
  let (ok, d) := blk_write block_num buffer (sd_card s) in
  (ok, set_sd_card d s).

(** [data_base + ((cluster - 2) * cluster_size) + sec] in [uint32_t]. *)
Definition cluster_lba (s : FAT32) (cluster sec : Z) : Z :=
  to_u32 (data_base s + (cluster - 2) * cluster_size s + sec).

(* ------------------------------------------------------------------ *)
(** ** FAT32.cpp: the FAT table *)

(** The FAT sector that owns a cluster's entry, and the entry's byte
    offset in it, as [fat_entry] computes them ([uint32_t] product). *)
Definition fat_lba_of (s : FAT32) (cluster_num : Z) : Z :=
  to_u32 (fat_base s + to_u32 (cluster_num * 4) / sector_size s).

Definition entry_offset_of (s : FAT32) (cluster_num : Z) : Z :=
  to_u32 (cluster_num * 4) mod sector_size s.

Definition fat_entry (cluster_num fat_value : Z) (write_entry : bool)
  (s : FAT32) : Z * FAT32 :=
  if negb (initialized s) || (cluster_num <? 2) then (INVALID_CLUSTER, s)
  else
    let fat_lba := fat_lba_of s cluster_num in
    let entry_offset := entry_offset_of s cluster_num in
    (* cache miss: read the sector into fat_cache *)
    let loaded :=
      if negb (fat_cache_valid s) || negb (fat_cache_sector s =? fat_lba) then
        match blk_read fat_lba (sd_card s) with
        | (Some data, d) =>
            (true, set_fat_cache fat_lba true data (set_sd_card d s))
        | (None, d) =>
            (false, set_fat_cache (fat_cache_sector s) false (fat_cache s)
                      (set_sd_card d s))
        end
      else (true, s) in
    let (ok, s1) := loaded in
    if negb ok then (INVALID_CLUSTER, s1)
    else
      let raw_value := le32 (fat_cache s1) entry_offset in
      let current_value := Z.land raw_value 0x0FFFFFFF in
      if write_entry then
        let masked_value :=
          Z.lor (Z.land raw_value 0xF0000000) (Z.land fat_value 0x0FFFFFFF) in
        let cache' := put_le32 (fat_cache s1) entry_offset masked_value in
        let s2 := set_fat_cache (fat_cache_sector s1) (fat_cache_valid s1)
                    cache' s1 in
        let (stored, s3) := store_physical_block fat_lba cache' s2 in
        if negb stored then
          (INVALID_CLUSTER,
           set_fat_cache (fat_cache_sector s3) false (fat_cache s3) s3)
        else (Z.land masked_value 0x0FFFFFFF, s3)
      else (current_value, s1).

(** [for (c = from; c < bound; ++c) if (fat_entry(c,0,false) == FREE)
    return c;] by recursion on the number of iterations left. *)
Fixpoint scan_free (n : nat) (c : Z) (s : FAT32) : option Z * FAT32 :=
  match n with
  | O => (None, s)
  | S n' =>
      let (v, s1) := fat_entry c 0 false s in
      if v =? CLUSTER_FREE then (Some c, s1) else scan_free n' (c + 1) s1
  end.

(** The two loops of [fat_search_available_cluster]; the result is the
    loop variable [c] (a [uint32_t]) at which a FREE entry was read. *)
Definition fat_search_scan (current_cluster : Z) (s : FAT32)
  : option Z * FAT32 :=
  let start := if 2 <=? current_cluster then current_cluster else 2 in
  match scan_free (Z.to_nat (last_cluster s - start)) start s with
  | (Some c, s1) => (Some c, s1)
  | (None, s1) => scan_free (Z.to_nat (start - 2)) 2 s1
  end.

(** [uint16_t fat_search_available_cluster(uint16_t current_cluster)]:
    the argument is converted to [uint16_t] at the call, the result by
    [return (uint16_t)c]. *)
Definition fat_search_available_cluster (current_cluster : Z) (s : FAT32)
  : Z * FAT32 :=
  match fat_search_scan (to_u16 current_cluster) s with
  | (Some c, s1) => (to_u16 c, s1)
  | (None, s1) => (0, s1)
  end.

(* ------------------------------------------------------------------ *)
(** ** FAT32.cpp: names *)

(** [n] bytes of a buffer from [off], each read as the code reads it. *)
Definition bytes_from (buf : list Z) (off : Z) (n : nat) : list Z :=
  map (fun k => byte_at buf (off + Z.of_nat k)) (seq 0 n).

(** The 32-byte directory entry with index [i] of a sector buffer. *)
Definition entry_at (buf : list Z) (i : Z) : list Z :=
  bytes_from buf (ROOT_ENTRY_SIZE * i) 32.

(** [for (c = 0; c < n && field[c] != ' '; ++c) out[k++] = field[c];] *)
Fixpoint until_space (field : list Z) : list Z :=
  match field with
  | [] => []
  | c :: t => if c =? 0x20 then [] else c :: until_space t
  end.

(** [FAT_Utils::iequals] on two C strings. *)
Fixpoint iequals_chars (a b : list Z) : bool :=
  match a, b with
  | [], [] => true
  | x :: a', y :: b' =>
      if toupper x =? toupper y then iequals_chars a' b' else false
  | _, _ => false
  end.

Definition iequals (a b : list Z) : bool := iequals_chars (cstr a) (cstr b).

Fixpoint list_eqb (a b : list Z) : bool :=
  match a, b with
  | [], [] => true
  | x :: a', y :: b' => (x =? y) && list_eqb a' b'
  | _, _ => false
  end.

(** The character codes [to_dos_8_3] refuses (its [invalid] string: the
    double quote, then * / : < > ? \ | + , . space ; = [ ]). *)
Definition invalid_chars : list Z :=
  [34; 42; 47; 58; 60; 62; 63; 92; 124; 43; 44; 46; 32; 59; 61; 91; 93].

(** One of the two copy loops of [to_dos_8_3]:
    [for (i = 0; i < len && bi < limit; ++i) { c = src[i];
       if (c == ' ') continue; if (strchr(invalid, c)) return false;
       dst[bi++] = toupper(c); }]; [None] is [return false]. *)
Fixpoint dos_copy (limit : nat) (src : list Z) (dst : list Z)
  : option (list Z) :=
  match src with
  | [] => Some dst
  | c :: src' =>
      if (length dst <? limit)%nat then
        if c =? 0x20 then dos_copy limit src' dst
        else if mem_char c invalid_chars then None
        else dos_copy limit src' (dst ++ [toupper c])
      else Some dst
  end.

(** [strchr(name, '.')]: the text before the first dot and, when there is
    a dot, the text after it. *)
Fixpoint split_dot (name : list Z) : list Z * option (list Z) :=
  match name with
  | [] => ([], None)
  | c :: t =>
      if c =? 46 then ([], Some t)
      else let (b, e) := split_dot t in (c :: b, e)
  end.

Definition pad_spaces (n : nat) (l : list Z) : list Z :=
  firstn n (l ++ repeat 0x20 n).

(** [FAT_Utils::to_dos_8_3(name, out11)]: [Some out11] for [true]. *)
Definition to_dos_8_3 (name : list Z) : option (list Z) :=
  let (base_src, ext_src) := split_dot (cstr name) in
  match dos_copy 8 base_src [] with
  | None => None
  | Some base =>
      match ext_src with
      | None => Some (pad_spaces 8 base ++ pad_spaces 3 [])
      | Some ext_chars =>
          match dos_copy 3 ext_chars [] with
          | None => None
          | Some ext => Some (pad_spaces 8 base ++ pad_spaces 3 ext)
          end
      end
  end.

(** The name built from a short entry: base, then a dot and the extension
    when the extension is not blank (as [file_open] does for files and
    [rename_file] for every entry). *)
Definition dos_name_ext (e : list Z) : list Z :=
  until_space (bytes_from e 0 8) ++
  (if negb (Extension e 0 0 =? 0x20)
   then 46 :: until_space (bytes_from e 8 3) else []).

(** The name [file_open] builds for a directory entry: base only. *)
Definition dos_name_dir (e : list Z) : list Z :=
  until_space (bytes_from e 0 8).

(** The character loop of the LFN branch of [fat_filename_parser]. *)
Fixpoint lfn_chars (positions : list Z) (i : Z) (e : list Z) (idx : Z)
  (out : list Z) : list Z :=
  match positions with
  | [] => out
  | pos :: rest =>
      let lo := byte_at e pos in
      let hi := byte_at e (pos + 1) in
      if (lo =? 0x00) && (hi =? 0x00) then set_byte out (idx + i) 0
      else if (lo =? 0xFF) && (hi =? 0xFF) then out
      else lfn_chars rest (i + 1) e idx (set_byte out (idx + i) lo)
  end.

(** [fat_filename_parser(dir_entry, filename_out)] on the 32 bytes [e] of
    the entry; the static [lfn_index] is passed in and returned. *)
Definition fat_filename_parser (e : list Z) (filename_out : list Z)
  (idx : Z) : FileEntryType * list Z * Z :=
  let out0 := set_byte filename_out 0 0 in
  if negb (FileName e 0 0 =? FILE_CLEAR) then
    if negb (FileName e 0 0 =? FILE_ERASED) &&
       (Z.land (Attributes e 0) AT_VOLUME_ID =? 0) then
      if Attributes e 0 =? AT_LFN then
        let Ordinal := byte_at e 0 in
        let '(idx1, out1) :=
          if 0x40 <? Ordinal then
            let j := to_u8 ((Ordinal - 0x41) * 13) in
            (j, set_byte out0 (j + 13) 0)
          else (to_u8 (idx - 13), out0) in
        let out2 := lfn_chars LFN_CHAR_POSITIONS 0 e idx1 out1 in
        if negb (idx1 =? 0) then (_LongFileNameNOK, out2, idx1)
        else (_LongFileNameOK, out2, idx1)
      else
        let base := until_space (bytes_from e 0 8) in
        let i := Z.of_nat (length base) in
        let out1 := blit out0 0 base in
        if negb (Z.land (Attributes e 0) AT_DIRECTORY =? 0) then
          (_Directory, set_byte (set_byte out1 i 92) (i + 1) 0, idx)
        else
          (_File,
           set_byte (blit (set_byte out1 i 46) (i + 1) (bytes_from e 8 3))
                    (i + 4) 0,
           idx)
    else (_Error, out0, idx)
  else (_Error, out0, idx).

(** [strtok_r(path, "/", &ctx)] called to exhaustion: the non-empty
    pieces between slashes. *)
Fixpoint tokens_from (s : list Z) (cur : list Z) : list (list Z) :=
  match s with
  | [] => match cur with [] => [] | _ => [cur] end
  | c :: t =>
      if c =? 47 then
        match cur with [] => tokens_from t [] | _ => cur :: tokens_from t [] end
      else tokens_from t (cur ++ [c])
  end.

Definition tokenize (s : list Z) : list (list Z) := tokens_from s [].

Definition dot : list Z := [46].
Definition dotdot : list Z := [46; 46].

(** The first loop of [file_open]: leading "." tokens are skipped, and a
    ".." met there makes the call fail; any other token leaves the loop. *)
Fixpoint leading_dotdot (toks : list (list Z)) : bool :=
  match toks with
  | [] => false
  | t :: rest =>
      if list_eqb t dot then leading_dotdot rest
      else list_eqb t dotdot
  end.

(** The second parse: every token that is not "." becomes a part. *)
Definition path_parts (p : list Z) : list (list Z) :=
  filter (fun t => negb (list_eqb t dot))
         (tokenize (firstn MAX_PATH_LENGTH p)).

(* ------------------------------------------------------------------ *)
(** ** FAT32.cpp: file_open *)

Definition valid_cluster (c : Z) : bool := (2 <=? c) && (c <? EOC_MIN).

(** [((uint32_t)e->FirstClusterHigh << 16) | e->FirstClusterNumber] *)
Definition first_cluster_of (e : list Z) : Z :=
  Z.lor (Z.shiftl (FirstClusterHigh e 0) 16) (FirstClusterNumber e 0).

Definition is_directory (e : list Z) : bool :=
  negb (Z.land (Attributes e 0) AT_DIRECTORY =? 0).

(** [while (c >= 2 && c < EOC_MIN) { next = fat_entry(c, 0, false);
    (void)fat_entry(c, CLUSTER_FREE, true); c = next; }]
    The loop has no bound of its own; [None] is the model out of fuel. *)
Fixpoint free_chain (fuel : nat) (c : Z) (s : FAT32) : option FAT32 :=
  match fuel with
  | O => None
  | S fuel' =>
      if valid_cluster c then
        let (next, s1) := fat_entry c 0 false s in
        let (_, s2) := fat_entry c CLUSTER_FREE true s1 in
        free_chain fuel' next s2
      else Some s
  end.

(** [ee[i].FirstClusterHigh = 0; ee[i].FirstClusterNumber = 0;
    ee[i].SizeofFile = 0;] on the entry [i] of a sector buffer. *)
Definition truncate_entry (buf : list Z) (i : Z) : list Z :=
  put_le32 (put_le16 (put_le16 buf (ROOT_ENTRY_SIZE * i + 20) 0)
                     (ROOT_ENTRY_SIZE * i + 26) 0)
           (ROOT_ENTRY_SIZE * i + 28) 0.

(** What [file_open] does once the last path component has matched the
    entry [i] (bytes [e]) of the directory sector [lba] held in
    [read_buffer]; every branch returns. *)
Definition open_match (fuel : nat) (function : FileFunction) (i lba : Z)
  (e : list Z) (s : FAT32) : option (FAT_ErrorCode * FAT32) :=
  let first_cluster := first_cluster_of e in
  match function with
  | READ =>
      if negb (is_directory e) then
        Some (FILE_FOUND,
              set_read_handler (mkRH 0 (SizeofFile e 0) first_cluster 0) s)
      else Some (FILE_NOT_FOUND, s)
  | DELETE =>
      if is_directory e then Some (FILE_NOT_FOUND, s)
      else
        match free_chain fuel first_cluster s with
        | None => None
        | Some s1 =>
            let buf := set_byte (read_buffer s1) (ROOT_ENTRY_SIZE * i)
                                FILE_ERASED in
            let (ok, s2) := store_physical_block lba buf
                              (set_read_buffer buf s1) in
            if negb ok then Some (FILE_NOT_FOUND, s2)
            else Some (FILE_FOUND, s2)
        end
  | OVERWRITE =>
      if is_directory e then Some (FILE_NOT_FOUND, s)
      else
        match free_chain fuel first_cluster s with
        | None => None
        | Some s1 =>
            let buf := truncate_entry (read_buffer s1) i in
            let (ok, s2) := store_physical_block lba buf
                              (set_read_buffer buf s1) in
            if negb ok then Some (FILE_NOT_FOUND, s2)
            else
              Some (FILE_FOUND,
                    set_write_handler
                      (mkWH lba (SizeofFile (entry_at (read_buffer s2) i) 0)
                            0 0 0 0) s2)
        end
  | MODIFY =>
      if is_directory e then Some (FILE_NOT_FOUND, s)
      else
        Some (FILE_FOUND,
              set_write_handler
                (mkWH lba (SizeofFile (entry_at (read_buffer s) i) 0)
                      first_cluster first_cluster 0 0) s)
  | CREATE =>
      if is_directory e then Some (FILE_NOT_FOUND, s)
      else
        match free_chain fuel first_cluster s with
        | None => None
        | Some s1 =>
            let buf := truncate_entry (read_buffer s1) i in
            let (ok, s2) := store_physical_block lba buf
                              (set_read_buffer buf s1) in
            if negb ok then Some (FILE_NOT_FOUND, s2)
            else Some (FILE_CREATE_OK,
                       set_write_handler (mkWH lba 0 0 0 0 0) s2)
        end
  end.

(** How a scan loop of [file_open] ends: the function has returned
    ([None]: out of fuel), the component was found to be a directory to
    descend into, or the loop ran on without a match. *)
Inductive scan_res : Type :=
| Returned (r : option (FAT_ErrorCode * FAT32))
| Found (dir_cluster : Z) (s : FAT32)
| Pending (lfn_flag : bool) (lfn_name : list Z) (s : FAT32).

(** [char parsed_name[MAX_LFN_CHARACTERS]]: an uninitialised stack buffer,
    taken to hold zeros. *)
Definition parsed_name0 : list Z := repeat 0 255.

(** [for (i = ...; i < ents; ++i)] over the entries of [read_buffer]. *)
Fixpoint scan_entries (n : nat) (i : Z) (fuel : nat)
  (function : FileFunction) (name : list Z) (is_last : bool) (lba : Z)
  (lfn_flag : bool) (lfn_name : list Z) (s : FAT32) : scan_res :=
  match n with
  | O => Pending lfn_flag lfn_name s
  | S n' =>
      let e := entry_at (read_buffer s) i in
      if FileName e 0 0 =? FILE_CLEAR then Pending lfn_flag lfn_name s
      else if FileName e 0 0 =? FILE_ERASED then
        scan_entries n' (i + 1) fuel function name is_last lba
                     lfn_flag lfn_name s
      else
        let '(type, parsed_name, idx) :=
          fat_filename_parser e parsed_name0 (lfn_index s) in
        let s1 := set_lfn_index idx s in
        match type with
        | _LongFileNameOK =>
            scan_entries n' (i + 1) fuel function name is_last lba
                         true (cstr (firstn 254 parsed_name)) s1
        | _LongFileNameNOK | _Error =>
            scan_entries n' (i + 1) fuel function name is_last lba
                         lfn_flag lfn_name s1
        | _ =>
            let comp_name :=
              if lfn_flag && negb (byte_at lfn_name 0 =? 0) then lfn_name
              else match type with
                   | _Directory => dos_name_dir e
                   | _ => dos_name_ext e
                   end in
            if iequals comp_name name then
              if is_last then Returned (open_match fuel function i lba e s1)
              else if is_directory e && valid_cluster (first_cluster_of e)
              then Found (first_cluster_of e) s1
              else scan_entries n' (i + 1) fuel function name is_last lba
                                false [] s1
            else scan_entries n' (i + 1) fuel function name is_last lba
                              false [] s1
        end
  end.

Definition ents_per_sector (s : FAT32) : nat :=
  Z.to_nat (to_u16 (sector_size s / ROOT_ENTRY_SIZE)).

(** [for (sec = ...; sec < cluster_size && !found; ++sec)] *)
Fixpoint scan_sectors (n : nat) (sec : Z) (fuel : nat)
  (function : FileFunction) (name : list Z) (is_last : bool) (cluster : Z)
  (lfn_flag : bool) (lfn_name : list Z) (s : FAT32) : scan_res :=
  match n with
  | O => Pending lfn_flag lfn_name s
  | S n' =>
      let lba := cluster_lba s cluster sec in
      match get_physical_block lba s with
      | (false, s1) => Returned (Some (FILE_NOT_FOUND, s1))
      | (true, s1) =>
          match scan_entries (ents_per_sector s1) 0 fuel function name
                             is_last lba lfn_flag lfn_name s1 with
          | Pending lf ln s2 =>
              scan_sectors n' (sec + 1) fuel function name is_last cluster
                           lf ln s2
          | r => r
          end
      end
  end.

(** [while (cluster >= 2 && cluster < EOC_MIN && !found)] *)
Fixpoint scan_chain (fuel : nat) (function : FileFunction) (name : list Z)
  (is_last : bool) (cluster : Z) (lfn_flag : bool) (lfn_name : list Z)
  (s : FAT32) : scan_res :=
  match fuel with
  | O => Returned None
  | S fuel' =>
      if valid_cluster cluster then
        match scan_sectors (Z.to_nat (cluster_size s)) 0 fuel' function name
                           is_last cluster lfn_flag lfn_name s with
        | Pending lf ln s1 =>
            let (next, s2) := fat_entry cluster 0 false s1 in
            if (EOC_MIN <=? next) || (next =? 0) then Pending lf ln s2
            else scan_chain fuel' function name is_last next lf ln s2
        | r => r
        end
      else Pending lfn_flag lfn_name s
  end.

(** A fresh short entry: [memset(&entries[i], 0, 32)], the 11 name bytes,
    [Attributes = AT_ARCHIVE], cluster and size 0. *)
Definition new_entry (dos11 : list Z) : list Z :=
  firstn 11 (dos11 ++ repeat 0 11) ++ [AT_ARCHIVE] ++ repeat 0 20.

(** The handle every creation path installs. *)
Definition fresh_write_handler (lba : Z) : WriteHandler := mkWH lba 0 0 0 0 0.

(** [for (i = ...; i < ents; ++i) if (entries[i].FileName[0] is FILE_CLEAR
    or FILE_ERASED) { write the entry; return; }]: [None] when the sector
    has no such slot. *)
Fixpoint place_entries (n : nat) (i : Z) (dos11 : list Z) (lba : Z)
  (s : FAT32) : option (FAT_ErrorCode * FAT32) :=
  match n with
  | O => None
  | S n' =>
      let first := FileName (entry_at (read_buffer s) i) 0 0 in
      if (first =? FILE_CLEAR) || (first =? FILE_ERASED) then
        let buf := blit (read_buffer s) (ROOT_ENTRY_SIZE * i)
                        (new_entry dos11) in
        let (ok, s1) := store_physical_block lba buf (set_read_buffer buf s) in
        if negb ok then Some (FILE_NOT_FOUND, s1)
        else Some (FILE_CREATE_OK,
                   set_write_handler (fresh_write_handler lba) s1)
      else place_entries n' (i + 1) dos11 lba s
  end.

(** [for (sec = ...; sec < cluster_size && !placed; ++sec)] of the
    creation path; [inl] is a return, [inr] the state after a cluster
    without a free slot. *)
Fixpoint place_sectors (n : nat) (sec : Z) (dos11 : list Z) (cluster2 : Z)
  (s : FAT32) : (FAT_ErrorCode * FAT32) + FAT32 :=
  match n with
  | O => inr s
  | S n' =>
      let lba := cluster_lba s cluster2 sec in
      match get_physical_block lba s with
      | (false, s1) => inl (FILE_NOT_FOUND, s1)
      | (true, s1) =>
          match place_entries (ents_per_sector s1) 0 dos11 lba s1 with
          | Some r => inl r
          | None => place_sectors n' (sec + 1) dos11 cluster2 s1
          end
      end
  end.

(** [for (s = 0; s < cluster_size; ++s) if (!store_physical_block(zlba, z))
    return ...;] with [z] a zeroed sector. *)
Fixpoint zero_cluster (n : nat) (sec : Z) (c : Z) (s : FAT32) : bool * FAT32 :=
  match n with
  | O => (true, s)
  | S n' =>
      let (ok, s1) := store_physical_block (cluster_lba s c sec) zero_sector s in
      if negb ok then (false, s1) else zero_cluster n' (sec + 1) c s1
  end.

(** [while (cluster2 >= 2 && cluster2 < EOC_MIN && !placed)]: look for a
    slot, and extend the directory by one cluster when its chain ends. *)
Fixpoint create_chain (fuel : nat) (dos11 : list Z) (cluster2 : Z)
  (s : FAT32) : option (FAT_ErrorCode * FAT32) :=
  match fuel with
  | O => None
  | S fuel' =>
      if valid_cluster cluster2 then
        match place_sectors (Z.to_nat (cluster_size s)) 0 dos11 cluster2 s with
        | inl r => Some r
        | inr s1 =>
            let (next, s2) := fat_entry cluster2 0 false s1 in
            if (EOC_MIN <=? next) || (next =? 0) then
              let (freec, s3) := fat_search_available_cluster cluster2 s2 in
              if freec <? 2 then Some (NO_MORE_FREE_CLUSTER, s3)
              else
                let (_, s4) := fat_entry cluster2 freec true s3 in
                let (_, s5) := fat_entry freec EOC_MIN true s4 in
                let (zeroed, s6) :=
                  zero_cluster (Z.to_nat (cluster_size s5)) 0 freec s5 in
                if negb zeroed then Some (FILE_NOT_FOUND, s6)
                else
                  let lba := cluster_lba s6 freec 0 in
                  match get_physical_block lba s6 with
                  | (false, s7) => Some (FILE_NOT_FOUND, s7)
                  | (true, s7) =>
                      let buf :=
                        blit (blit (read_buffer s7) 0
                                (repeat 0 (Z.to_nat (sector_size s7))))
                             0 (new_entry dos11) in
                      let (ok, s8) :=
                        store_physical_block lba buf (set_read_buffer buf s7) in
                      if negb ok then Some (FILE_NOT_FOUND, s8)
                      else Some (FILE_CREATE_OK,
                                 set_write_handler (fresh_write_handler lba) s8)
                  end
            else create_chain fuel' dos11 next s2
        end
      else Some (FILE_NOT_FOUND, s)
  end.

(** The part of the loop body after the scan, for the last component:
    nothing matched, so READ, DELETE and MODIFY fail and CREATE and
    OVERWRITE make a new entry. *)
Definition open_missing (fuel : nat) (function : FileFunction)
  (name : list Z) (dir_cluster : Z) (s : FAT32)
  : option (FAT_ErrorCode * FAT32) :=
  match function with
  | READ | DELETE | MODIFY => Some (FILE_NOT_FOUND, s)
  | CREATE | OVERWRITE =>
      match to_dos_8_3 name with
      | None => Some (FILE_NOT_FOUND, s)
      | Some dos11 => create_chain fuel dos11 dir_cluster s
      end
  end.

(** [for (idx = 0; idx < parts.size(); ++idx)]; [is_last] is
    [idx == parts.size() - 1], which is also what the comparisons of
    [&name] with [&parts.back()] decide. *)
Fixpoint walk_parts (fuel : nat) (function : FileFunction)
  (parts : list (list Z)) (dir_cluster : Z) (s : FAT32)
  : option (FAT_ErrorCode * FAT32) :=
  match parts with
  | [] => Some (FILE_NOT_FOUND, s)
  | name :: rest =>
      let is_last := match rest with [] => true | _ => false end in
      match scan_chain fuel function name is_last dir_cluster false [] s with
      | Returned r => r
      | Found dir_cluster' s1 =>
          if is_last then open_missing fuel function name dir_cluster' s1
          else walk_parts fuel function rest dir_cluster' s1
      | Pending _ _ s1 =>
          if is_last then open_missing fuel function name dir_cluster s1
          else Some (FILE_NOT_FOUND, s1)
      end
  end.

(** [FAT32::file_open(filename, function)]; [filename] is a C string.
    [fuel] bounds the cluster-chain loops, which the code leaves
    unbounded; [None] is the model out of fuel. *)
Definition file_open (fuel : nat) (filename : list Z)
  (function : FileFunction) (s : FAT32) : option (FAT_ErrorCode * FAT32) :=
  match cstr filename with
  | [] => Some (FILE_NOT_FOUND, s)
  | c0 :: rest =>
      if negb (initialized s) then Some (FILE_NOT_FOUND, s)
      else
        let p := if c0 =? 47 then rest else c0 :: rest in
        let dir_cluster :=
          if c0 =? 47 then root_dir_first_cluster s
          else if 2 <=? current_dir_cluster_ s then current_dir_cluster_ s
          else root_dir_first_cluster s in
        let toks := tokenize (firstn MAX_PATH_LENGTH p) in
        match toks with
        | [] => Some (FILE_NOT_FOUND, s)
        | _ =>
            if leading_dotdot toks then Some (FILE_NOT_FOUND, s)
            else
              match path_parts p with
              | [] => Some (FILE_NOT_FOUND, s)
              | parts => walk_parts fuel function parts dir_cluster s
              end
        end
  end.

(* ------------------------------------------------------------------ *)
(** ** FAT32.cpp: file handles *)

(** The scan of [update_directory_entry_size]: the first live short entry
    whose first cluster is [base]. *)
Fixpoint find_by_cluster (n : nat) (i : Z) (buf : list Z) (base : Z)
  : option Z :=
  match n with
  | O => None
  | S n' =>
      let e := entry_at buf i in
      if FileName e 0 0 =? FILE_CLEAR then None
      else if FileName e 0 0 =? FILE_ERASED then
        find_by_cluster n' (i + 1) buf base
      else if Z.land (Attributes e 0) AT_LFN =? AT_LFN then
        find_by_cluster n' (i + 1) buf base
      else if negb (base =? 0) && (first_cluster_of e =? base) then Some i
      else find_by_cluster n' (i + 1) buf base
  end.

Definition update_directory_entry_size (s : FAT32) : FAT32 :=
  let wh := write_handler s in
  if wh_Dir_Entry wh =? 0 then s
  else
    let dir_lba := wh_Dir_Entry wh in
    match get_physical_block dir_lba s with
    | (false, s1) => s1
    | (true, s1) =>
        match find_by_cluster (ents_per_sector s1) 0 (read_buffer s1)
                              (BaseFatEntry wh) with
        | None => s1
        | Some i =>
            let buf := put_le32 (read_buffer s1) (ROOT_ENTRY_SIZE * i + 28)
                                (wh_File_Size wh) in
            snd (store_physical_block dir_lba buf (set_read_buffer buf s1))
        end
    end.

(** [FAT32::file_close()]; [flush_fat_cache] only prints. *)
Definition file_close (s : FAT32) : FAT32 :=
  let s1 :=
    if negb (wh_Dir_Entry (write_handler s) =? 0) then
      set_write_handler WriteHandler0 (update_directory_entry_size s)
    else s in
  if negb (rh_Dir_Entry (read_handler s1) =? 0) then
    set_read_handler ReadHandler0 s1
  else s1.

(** The handle [file_read] works on: the internal one for a null
    pointer; for a caller's handle that handle itself, unless it looks
    uninitialised (no bytes left and cluster 0) while the internal one has
    bytes left, in which case the internal state is copied into it. *)
Definition effective_handle (handler : option ReadHandler) (s : FAT32)
  : ReadHandler :=
  match handler with
  | None => read_handler s
  | Some h0 =>
      if (rh_File_Size h0 =? 0) && (rh_FAT_Entry h0 =? 0)
         && negb (rh_File_Size (read_handler s) =? 0)
      then read_handler s else h0
  end.

(** Where the updated handle goes: back to the caller, or into the
    object. *)
Definition store_handle (handler : option ReadHandler) (h' : ReadHandler)
  (s : FAT32) : option ReadHandler * FAT32 :=
  match handler with
  | None => (None, set_read_handler h' s)
  | Some _ => (Some h', s)
  end.

(** [FAT32::file_read(buffer, handler)].  [handler] is [None] for a null
    pointer and [Some h] for a caller's handle, which is returned updated.
    The result is the byte count and the bytes copied to [buffer]. *)
Definition file_read (handler : option ReadHandler) (s : FAT32)
  : Z * list Z * option ReadHandler * FAT32 :=
  if negb (initialized s) then (0, [], handler, s)
  else
    let h := effective_handle handler s in
    if rh_File_Size h =? 0 then
      let (ho, s') := store_handle handler h s in (0, [], ho, s')
    else
      let bytes_to_read :=
        if rh_File_Size h <? SECTOR_SIZE then to_u16 (rh_File_Size h)
        else SECTOR_SIZE in
      let cluster_sector := cluster_lba s (rh_FAT_Entry h) (rh_SectorOffset h) in
      match get_physical_block cluster_sector s with
      | (false, s1) =>
          let (ho, s') := store_handle handler h s1 in (0, [], ho, s')
      | (true, s1) =>
          let data := firstn (Z.to_nat bytes_to_read) (read_buffer s1) in
          let size1 := to_u32 (rh_File_Size h - bytes_to_read) in
          let off1 := to_u16 (rh_SectorOffset h + 1) in
          if cluster_size s1 <=? off1 then
            let (next_cluster, s2) := fat_entry (rh_FAT_Entry h) 0 false s1 in
            let size2 :=
              if (EOC_MIN <=? next_cluster) || (next_cluster <? 2) then 0
              else size1 in
            let (ho, s') :=
              store_handle handler
                (mkRH (rh_Dir_Entry h) size2 next_cluster 0) s2 in
            (bytes_to_read, data, ho, s')
          else
            let (ho, s') :=
              store_handle handler
                (mkRH (rh_Dir_Entry h) size1 (rh_FAT_Entry h) off1) s1 in
            (bytes_to_read, data, ho, s')
      end.

(** The directory scan of [file_write] after the first cluster has been
    allocated: the first live short entry whose size is [size] and whose
    first cluster is zero. *)
Fixpoint find_unlinked (n : nat) (i : Z) (buf : list Z) (size : Z)
  : option Z :=
  match n with
  | O => None
  | S n' =>
      let e := entry_at buf i in
      if FileName e 0 0 =? FILE_CLEAR then None
      else if FileName e 0 0 =? FILE_ERASED then
        find_unlinked n' (i + 1) buf size
      else if Z.land (Attributes e 0) AT_LFN =? AT_LFN then
        find_unlinked n' (i + 1) buf size
      else if (SizeofFile e 0 =? size) && (FirstClusterHigh e 0 =? 0)
              && (FirstClusterNumber e 0 =? 0) then Some i
      else find_unlinked n' (i + 1) buf size
  end.

(** The directory scan that ends [file_write]: the first live short entry
    whose first cluster is [base], or any non-zero one when [base] is 0. *)
Fixpoint find_for_size (n : nat) (i : Z) (buf : list Z) (base : Z)
  : option Z :=
  match n with
  | O => None
  | S n' =>
      let e := entry_at buf i in
      if FileName e 0 0 =? FILE_CLEAR then None
      else if FileName e 0 0 =? FILE_ERASED then
        find_for_size n' (i + 1) buf base
      else if Z.land (Attributes e 0) AT_LFN =? AT_LFN then
        find_for_size n' (i + 1) buf base
      else
        let fc := first_cluster_of e in
        if (negb (base =? 0) && (fc =? base))
           || ((base =? 0) && negb (fc =? 0)) then Some i
        else find_for_size n' (i + 1) buf base
  end.

(** The block [if (write_handler.CurrentFatEntry < 2) {...}] of
    [file_write]; [false] is an early [return]. *)
Definition ensure_first_cluster (dir_lba : Z) (s : FAT32) : bool * FAT32 :=
  if CurrentFatEntry (write_handler s) <? 2 then
    let (newc, s1) := fat_search_available_cluster 2 s in
    if newc <? 2 then (false, s1)
    else
      let (_, s2) := fat_entry newc EOC_MIN true s1 in
      let (zeroed, s3) := zero_cluster (Z.to_nat (cluster_size s2)) 0 newc s2 in
      if negb zeroed then (false, s3)
      else
        let wh := write_handler s3 in
        let s4 := set_write_handler
                    (mkWH (wh_Dir_Entry wh) (wh_File_Size wh) newc newc 0 0) s3 in
        match get_physical_block dir_lba s4 with
        | (false, s5) => (true, s5)
        | (true, s5) =>
            match find_unlinked (ents_per_sector s5) 0 (read_buffer s5)
                                (wh_File_Size wh) with
            | None => (true, s5)
            | Some i =>
                let buf :=
                  put_le16
                    (put_le16 (read_buffer s5) (ROOT_ENTRY_SIZE * i + 20)
                              (Z.land (Z.shiftr newc 16) 0xFFFF))
                    (ROOT_ENTRY_SIZE * i + 26) (Z.land newc 0xFFFF) in
                (true, snd (store_physical_block dir_lba buf
                              (set_read_buffer buf s5)))
            end
        end
  else (true, s).

(** The block [if (write_handler.SectorIndex >= cluster_size) {...}] of
    the write loop, entered with [SectorIndex] already reset to 0. *)
Definition next_write_cluster (cur_cluster : Z) (s : FAT32) : bool * FAT32 :=
  let (next, s1) := fat_entry cur_cluster 0 false s in
  let set_current (c : Z) (t : FAT32) :=
    let wh := write_handler t in
    set_write_handler
      (mkWH (wh_Dir_Entry wh) (wh_File_Size wh) (BaseFatEntry wh) c
            (ClusterIndex wh) (SectorIndex wh)) t in
  if (next <? 2) || (EOC_MIN <=? next) then
    let (newc, s2) := fat_search_available_cluster cur_cluster s1 in
    if newc <? 2 then (false, s2)
    else
      let (_, s3) := fat_entry cur_cluster newc true s2 in
      let (_, s4) := fat_entry newc EOC_MIN true s3 in
      let (zeroed, s5) := zero_cluster (Z.to_nat (cluster_size s4)) 0 newc s4 in
      if negb zeroed then (false, s5) else (true, set_current newc s5)
  else (true, set_current next s1).

(** [while (remaining > 0) {...}]: [p] is what is left of the data.
    [Some (true, _)] is the loop run to its end, [Some (false, _)] an
    early [return], [None] the model out of fuel. *)
Fixpoint write_loop (fuel : nat) (p : list Z) (s : FAT32)
  : option (bool * FAT32) :=
  match p with
  | [] => Some (true, s)
  | _ :: _ =>
      match fuel with
      | O => None
      | S fuel' =>
          let wh := write_handler s in
          let cur_cluster := CurrentFatEntry wh in
          let lba := cluster_lba s cur_cluster (SectorIndex wh) in
          let chunk := Z.min (Z.of_nat (length p)) (sector_size s) in
          let written :=
            if negb (chunk =? sector_size s) then
              match get_physical_block lba s with
              | (false, s1) => (false, s1)
              | (true, s1) =>
                  let buf := blit (read_buffer s1) 0
                                  (firstn (Z.to_nat chunk) p) in
                  store_physical_block lba buf (set_read_buffer buf s1)
              end
            else store_physical_block lba p s in
          let (ok, s2) := written in
          if negb ok then Some (false, s2)
          else
            let wh2 := write_handler s2 in
            let idx := to_u16 (SectorIndex wh2 + 1) in
            let crossing := cluster_size s2 <=? idx in
            let s3 :=
              set_write_handler
                (mkWH (wh_Dir_Entry wh2) (to_u32 (wh_File_Size wh2 + chunk))
                      (BaseFatEntry wh2) (CurrentFatEntry wh2)
                      (ClusterIndex wh2) (if crossing then 0 else idx)) s2 in
            let (go, s4) :=
              if crossing then next_write_cluster cur_cluster s3
              else (true, s3) in
            if negb go then Some (false, s4)
            else write_loop fuel' (skipn (Z.to_nat chunk) p) s4
      end
  end.

(** [FAT32::file_write(data, size)] with [size = |data|]. *)
Definition file_write (data : list Z) (s : FAT32) : option FAT32 :=
  if negb (initialized s) || (Z.of_nat (length data) =? 0) then Some s
  else
    let dir_lba := wh_Dir_Entry (write_handler s) in
    if dir_lba =? 0 then Some s
    else
      let (go, s1) := ensure_first_cluster dir_lba s in
      if negb go then Some s1
      else
        match write_loop (length data) data s1 with
        | None => None
        | Some (false, s2) => Some s2
        | Some (true, s2) =>
            match get_physical_block dir_lba s2 with
            | (false, s3) => Some s3
            | (true, s3) =>
                match find_for_size (ents_per_sector s3) 0 (read_buffer s3)
                                    (BaseFatEntry (write_handler s3)) with
                | None => Some s3
                | Some i =>
                    let buf :=
                      put_le32 (read_buffer s3) (ROOT_ENTRY_SIZE * i + 28)
                               (wh_File_Size (write_handler s3)) in
                    Some (snd (store_physical_block dir_lba buf
                                 (set_read_buffer buf s3)))
                end
            end
        end.

(* ------------------------------------------------------------------ *)
(** ** FAT32.cpp: rename and space accounting *)

(** [strrchr(path, '/')]: the text after the last slash. *)
Fixpoint basename_from (path : list Z) (cur : list Z) : list Z :=
  match path with
  | [] => cur
  | c :: t => if c =? 47 then basename_from t [] else basename_from t (cur ++ [c])
  end.

Definition basename (path : list Z) : list Z := basename_from (cstr path) [].

(** The collision loop of [rename_file]: is there a live short entry in
    the sector whose name is [new_base]? *)
Fixpoint name_collides (n : nat) (i : Z) (buf : list Z) (new_base : list Z)
  : bool :=
  match n with
  | O => false
  | S n' =>
      let e := entry_at buf i in
      if FileName e 0 0 =? FILE_CLEAR then false
      else if FileName e 0 0 =? FILE_ERASED then
        name_collides n' (i + 1) buf new_base
      else if Attributes e 0 =? AT_LFN then name_collides n' (i + 1) buf new_base
      else if iequals (dos_name_ext e) new_base then true
      else name_collides n' (i + 1) buf new_base
  end.

(** The second loop of [rename_file]: the first live short entry in the
    sector whose name is [old_base]. *)
Fixpoint find_by_name (n : nat) (i : Z) (buf : list Z) (old_base : list Z)
  : option Z :=
  match n with
  | O => None
  | S n' =>
      let e := entry_at buf i in
      if FileName e 0 0 =? FILE_CLEAR then None
      else if FileName e 0 0 =? FILE_ERASED then
        find_by_name n' (i + 1) buf old_base
      else if Attributes e 0 =? AT_LFN then find_by_name n' (i + 1) buf old_base
      else if iequals (dos_name_ext e) old_base then Some i
      else find_by_name n' (i + 1) buf old_base
  end.

Definition rename_file (fuel : nat) (old_name new_name : list Z) (s : FAT32)
  : option (bool * FAT32) :=
  if negb (initialized s) then Some (false, s)
  else
    let old_base := basename old_name in
    let new_base := basename new_name in
    match to_dos_8_3 new_base with
    | None => Some (false, s)
    | Some dos11_new =>
        match file_open fuel old_name MODIFY s with
        | None => None
        | Some (fr, s1) =>
            match fr with
            | FILE_FOUND | FILE_CREATE_OK =>
                let dir_lba := wh_Dir_Entry (write_handler s1) in
                if dir_lba =? 0 then Some (false, s1)
                else
                  match get_physical_block dir_lba s1 with
                  | (false, s2) => Some (false, s2)
                  | (true, s2) =>
                      let ents := ents_per_sector s2 in
                      if name_collides ents 0 (read_buffer s2) new_base
                      then Some (false, s2)
                      else
                        match find_by_name ents 0 (read_buffer s2) old_base with
                        | None => Some (false, s2)
                        | Some i =>
                            let buf := blit (read_buffer s2)
                                            (ROOT_ENTRY_SIZE * i) dos11_new in
                            Some (store_physical_block dir_lba buf
                                    (set_read_buffer buf s2))
                        end
                  end
            | _ => Some (false, s1)
            end
        end
    end.

(** The inner loop of [count_free_clusters]: the zero entries (top four
    bits masked) among the first [n] 32-bit words of a sector. *)
Fixpoint count_zero_entries (n : nat) (entry : Z) (buf : list Z) : Z :=
  match n with
  | O => 0
  | S n' =>
      (if Z.land (le32 buf (4 * entry)) 0x0FFFFFFF =? CLUSTER_FREE then 1 else 0)
      + count_zero_entries n' (entry + 1) buf
  end.

(** The outer loop of [count_free_clusters] over the FAT sectors. *)
Fixpoint count_free_sectors (n : nat) (sector : Z) (free_count : Z)
  (s : FAT32) : Z * FAT32 :=
  match n with
  | O => (free_count, s)
  | S n' =>
      match get_physical_block sector s with
      | (false, s1) => count_free_sectors n' (sector + 1) free_count s1
      | (true, s1) =>
          let k := count_zero_entries (Z.to_nat (sector_size s1 / 4)) 0
                                      (read_buffer s1) in
          count_free_sectors n' (sector + 1) (to_u32 (free_count + k)) s1
      end
  end.

Definition count_free_clusters (s : FAT32) : Z * FAT32 :=
  if negb (initialized s) then (0, s)
  else
    count_free_sectors
      (Z.to_nat (to_u32 (fat_base s + sectors_per_fat s) - fat_base s))
      (fat_base s) 0 s.

(** [total_clusters] of [get_total_space]: the clusters of the data
    region. *)
Definition total_clusters (s : FAT32) : Z :=
  if negb (initialized s) || (cluster_size s =? 0) || (sector_size s =? 0)
  then 0
  else
    let data_sectors :=
      if first_data_sector s <? sectors_in_partition s
      then sectors_in_partition s - first_data_sector s else 0 in
    data_sectors / cluster_size s.

Definition get_total_space (s : FAT32) : Z :=
  to_u32 (to_u32 (total_clusters s * cluster_size s) * sector_size s).

(* ------------------------------------------------------------------ *)
(** ** FAT32.cpp: create_directory *)

(** A short entry as [create_directory] fills it: zeroed, then the name,
    the attribute byte, the two first-cluster words and the size. *)
Definition short_entry (name11 : list Z) (attr cluster size : Z) : list Z :=
  put_le32
    (put_le16
       (put_le16 (firstn 11 (name11 ++ repeat 0 11) ++ [attr] ++ repeat 0 20)
                 20 (Z.land (Z.shiftr cluster 16) 0xFFFF))
       26 (Z.land cluster 0xFFFF))
    28 size.

(** The slot search of [create_directory] in one sector of the parent. *)
Fixpoint link_entries (n : nat) (i : Z) (dos11 : list Z) (newc lba : Z)
  (s : FAT32) : option (bool * FAT32) :=
  match n with
  | O => None
  | S n' =>
      let first := FileName (entry_at (read_buffer s) i) 0 0 in
      if (first =? FILE_CLEAR) || (first =? FILE_ERASED) then
        let buf := blit (read_buffer s) (ROOT_ENTRY_SIZE * i)
                        (short_entry dos11 AT_DIRECTORY newc 0) in
        Some (store_physical_block lba buf (set_read_buffer buf s))
      else link_entries n' (i + 1) dos11 newc lba s
  end.

Fixpoint link_sectors (n : nat) (sec : Z) (dos11 : list Z) (newc cluster : Z)
  (s : FAT32) : (bool * FAT32) + FAT32 :=
  match n with
  | O => inr s
  | S n' =>
      let lba := cluster_lba s cluster sec in
      match get_physical_block lba s with
      | (false, s1) => inl (false, s1)
      | (true, s1) =>
          match link_entries (ents_per_sector s1) 0 dos11 newc lba s1 with
          | Some r => inl r
          | None => link_sectors n' (sec + 1) dos11 newc cluster s1
          end
      end
  end.

(** [while (cluster >= 2 && cluster < EOC_MIN)] of [create_directory]. *)
Fixpoint link_chain (fuel : nat) (dos11 : list Z) (newc cluster : Z)
  (s : FAT32) : option (bool * FAT32) :=
  match fuel with
  | O => None
  | S fuel' =>
      if valid_cluster cluster then
        match link_sectors (Z.to_nat (cluster_size s)) 0 dos11 newc cluster s with
        | inl r => Some r
        | inr s1 =>
            let (next, s2) := fat_entry cluster 0 false s1 in
            if (EOC_MIN <=? next) || (next =? 0) then
              let (freec, s3) := fat_search_available_cluster cluster s2 in
              if freec <? 2 then Some (false, s3)
              else
                let (_, s4) := fat_entry cluster freec true s3 in
                let (_, s5) := fat_entry freec EOC_MIN true s4 in
                let (zeroed, s6) :=
                  zero_cluster (Z.to_nat (cluster_size s5)) 0 freec s5 in
                if negb zeroed then Some (false, s6)
                else
                  let lba := cluster_lba s6 freec 0 in
                  match get_physical_block lba s6 with
                  | (false, s7) => Some (false, s7)
                  | (true, s7) =>
                      let buf :=
                        blit (blit (read_buffer s7) 0
                                (repeat 0 (Z.to_nat (sector_size s7))))
                             0 (short_entry dos11 AT_DIRECTORY newc 0) in
                      Some (store_physical_block lba buf (set_read_buffer buf s7))
                  end
            else link_chain fuel' dos11 newc next s2
        end
      else Some (false, s)
  end.

Definition create_directory (fuel : nat) (dir_name : list Z) (s : FAT32)
  : option (bool * FAT32) :=
  if negb (initialized s) then Some (false, s)
  else if mem_char 47 (cstr dir_name) then Some (false, s)
  else
    match to_dos_8_3 dir_name with
    | None => Some (false, s)
    | Some dos11 =>
        let parent :=
          if negb (current_dir_cluster_ s =? 0) then current_dir_cluster_ s
          else root_dir_first_cluster s in
        let (newc, s1) := fat_search_available_cluster parent s in
        if newc <? 2 then Some (false, s1)
        else
          let (_, s2) := fat_entry newc EOC_MIN true s1 in
          let (zeroed, s3) := zero_cluster (Z.to_nat (cluster_size s2)) 0 newc s2 in
          if negb zeroed then Some (false, s3)
          else
            let lba0 := cluster_lba s3 newc 0 in
            match get_physical_block lba0 s3 with
            | (false, s4) => Some (false, s4)
            | (true, s4) =>
                let zeroed_buf :=
                  blit (read_buffer s4) 0 (repeat 0 (Z.to_nat (sector_size s4))) in
                let buf :=
                  blit (blit zeroed_buf 0
                          (short_entry (46 :: repeat 0x20 10) AT_DIRECTORY newc 0))
                       32 (short_entry (46 :: 46 :: repeat 0x20 9)
                                       AT_DIRECTORY parent 0) in
                let (ok, s5) :=
                  store_physical_block lba0 buf (set_read_buffer buf s4) in
                if negb ok then Some (false, s5)
                else link_chain fuel dos11 newc parent s5
            end
    end.

(* ------------------------------------------------------------------ *)
(** ** Concrete volumes *)

(** The character codes of a literal. *)
Definition str (s : string) : list Z :=
  map (fun a => Z.of_N (N_of_ascii a)) (list_ascii_of_string s).

Definition disk_of (l : list (Z * list Z)) : Z -> list Z :=
  fun lba =>
    match find (fun p => fst p =? lba) l with
    | Some p => snd p
    | None => zero_sector
    end.

Definition no_fault : nat -> bool := fun _ => false.

(** The first FAT sector [SDCard::format_fat32] writes: entries 0 and 1
    reserved, entry 2 (the root directory) end-of-chain, the rest free. *)
Definition fat_sector0 : list Z :=
  [0xF8; 0xFF; 0xFF; 0x0F; 0xFF; 0xFF; 0xFF; 0xFF; 0xFF; 0xFF; 0xFF; 0x0F]
    ++ repeat 0 500.

(** A 2 MiB card (4096 sectors) as [format_fat32] lays it out and
    [FAT32::init] mounts it: partition at 2048, 32 reserved sectors, two
    FATs of 4 sectors, 8 sectors per cluster, root directory at cluster 2;
    hence [fat_base = 2080], [data_base = 2088], 2048 sectors in the
    partition, [first_data_sector = 40] and [last_cluster = 252]. *)
Definition fresh_volume : FAT32 :=
  mkFAT (mkDev (disk_of [(2080, fat_sector0); (2084, fat_sector0)]) 0 no_fault)
        true 4 2048 512 8 2080 2088 252 2 40 2
        zero_sector 0xFFFFFFFF false zero_sector
        ReadHandler0 WriteHandler0 0.

(* ------------------------------------------------------------------ *)
(** ** Notions used to state the properties *)

(** The single FAT cache line agrees with the medium whenever it is
    valid (the write-through invariant). *)
Definition cache_coherent (s : FAT32) : Prop :=
  fat_cache_valid s = true ->
  fat_cache s = sector512 (blocks (sd_card s) (fat_cache_sector s)).

(** The cache line holds the sector [lba]. *)
Definition cache_hit (s : FAT32) (lba : Z) : bool :=
  fat_cache_valid s && (fat_cache_sector s =? lba).

(** The next block transfer succeeds. *)
Definition next_transfer_ok (s : FAT32) : Prop :=
  fault (sd_card s) (ticks (sd_card s)) = false.

(** No block transfer fails from now on. *)
Definition no_faults (s : FAT32) : Prop :=
  forall n, (ticks (sd_card s) <= n)%nat -> fault (sd_card s) n = false.

(** A mounted volume whose sectors fit the 512-byte block of the device
    and hold whole FAT entries. *)
Definition mounted (s : FAT32) : Prop :=
  initialized s = true /\
  0 < sector_size s <= 512 /\ sector_size s mod 4 = 0 /\
  0 <= fat_base s < 65536.

(** The raw FAT entry of a cluster as the medium holds it. *)
Definition disk_fat_raw (s : FAT32) (c : Z) : Z :=
  le32 (sector512 (blocks (sd_card s) (fat_base s + (c * 4) / sector_size s)))
       ((c * 4) mod sector_size s).

(** A one-fragment long-name entry for the name "A": ordinal 0x41 (first
    and last fragment), the UTF-16 units 'A', 0x0000, then 0xFFFF padding,
    attribute byte 0x0F. *)
Definition lfn_entry_A : list Z :=
  [0x41; 65; 0; 0; 0; 0xFF; 0xFF; 0xFF; 0xFF; 0xFF; 0xFF; 0x0F; 0; 0x5A]
    ++ repeat 0xFF 12 ++ [0; 0] ++ repeat 0xFF 4.

(** The masked FAT entry of a cluster as the medium holds it. *)
Definition disk_fat (s : FAT32) (c : Z) : Z :=
  Z.land (disk_fat_raw s c) 0x0FFFFFFF.

(** The clusters of the data region (numbers 2 to [total_clusters + 1])
    whose FAT entry on the medium is not FREE. *)
Definition clusters_in_use (s : FAT32) : Z :=
  Z.of_nat
    (length
       (filter (fun c => negb (disk_fat s c =? CLUSTER_FREE))
               (map (fun k => 2 + Z.of_nat k)
                    (seq 0 (Z.to_nat (total_clusters s)))))).

(** Sequencing of calls that may run out of fuel. *)
Definition and_then {A B : Type} (o : option A) (k : A -> option B)
  : option B :=
  match o with
  | Some x => k x
  | None => None
  end.

(** Successive [file_read] calls until one returns 0 (at most [n]). *)
Fixpoint read_all (n : nat) (h : option ReadHandler) (s : FAT32) : list Z :=
  match n with
  | O => []
  | S n' =>
      let '(k, data, h', s') := file_read h s in
      if k =? 0 then [] else data ++ read_all n' h' s'
  end.

Fixpoint write_all (chunks : list (list Z)) (s : FAT32) : option FAT32 :=
  match chunks with
  | [] => Some s
  | d :: rest => and_then (file_write d s) (write_all rest)
  end.

(** Create [path], write the chunks, close, reopen for READ: the result
    codes of the two opens, the size found in the directory entry and the
    bytes read back with the filesystem's own handle. *)
Definition round_trip (fuel : nat) (path : list Z) (chunks : list (list Z))
  (s : FAT32) : option (FAT_ErrorCode * FAT_ErrorCode * Z * list Z) :=
  and_then (file_open fuel path CREATE s) (fun '(c1, s1) =>
  and_then (write_all chunks s1) (fun s2 =>
  and_then (file_open fuel path READ (file_close s2)) (fun '(c2, s3) =>
  Some (c1, c2, rh_File_Size (read_handler s3), read_all 16 None s3)))).

(** [fresh_volume] after an empty file [name] has been created and
    closed. *)
Definition with_empty_file (name : list Z) (s : FAT32) : option FAT32 :=
  and_then (file_open 16 name CREATE s) (fun '(_, s1) => Some (file_close s1)).

(** The 33 characters of the specification's test string followed by
    CR LF: 35 bytes. *)
Definition payload35 : list Z :=
  str "Hello FAT32 from an embedded core" ++ [13; 10].

(** [fresh_volume] after TEST.TXT has been created, written with
    [payload35], closed and reopened for READ. *)
Definition test_txt_open : option FAT32 :=
  and_then (file_open 16 (str "TEST.TXT") CREATE fresh_volume) (fun '(_, s1) =>
  and_then (file_write payload35 s1) (fun s2 =>
  and_then (file_open 16 (str "TEST.TXT") READ (file_close s2)) (fun '(_, s3) =>
  Some s3))).

(** [fresh_volume] after [create_directory("D")] and an empty F.TXT in
    the root. *)
Definition volume_with_dir : option FAT32 :=
  and_then (create_directory 16 (str "D") fresh_volume) (fun '(_, s1) =>
  with_empty_file (str "F.TXT") s1).





(** The fields fixed at mount. *)
Definition geometry (s : FAT32) :=
  (initialized s, sectors_per_fat s, sectors_in_partition s, sector_size s,
   cluster_size s, fat_base s, data_base s, last_cluster s,
   root_dir_first_cluster s, first_data_sector s, current_dir_cluster_ s).

(** The object once the FAT sector [lba] is in the cache line: as it was
    on a hit, after one successful transfer on a miss. *)
Definition after_load (s : FAT32) (lba : Z) : FAT32 :=
  if cache_hit s lba then s
  else set_fat_cache lba true (sector512 (blocks (sd_card s) lba))
         (set_sd_card (tick (sd_card s)) s).

(** The FAT sector of a cluster, in plain arithmetic. *)
Definition fat_sector (s : FAT32) (c : Z) : Z :=
  fat_base s + (c * 4) / sector_size s.

(** A mounted volume with a coherent cache line on a device that does not
    fail. *)
Definition healthy (s : FAT32) : Prop :=
  mounted s /\ cache_coherent s /\ no_faults s.


(** [read_buffer] holds the sector [lba] of the medium. *)
Definition holds_sector (lba : Z) (s : FAT32) : Prop :=
  read_buffer s = sector512 (blocks (sd_card s) lba).

(** The last component of a path as [file_open] parses it. *)
Definition last_component (filename : list Z) : list Z :=
  match cstr filename with
  | [] => []
  | c0 :: rest => last (path_parts (if c0 =? 47 then rest else c0 :: rest)) []
  end.

(** [r] is what [open_match] returned for an entry that matched [name]:
    the scan stood at entry [i] of the directory sector [lba], which
    [read_buffer] held, in a state satisfying [P]. *)
Definition matched (P : FAT32 -> Prop) (function : FileFunction)
  (name : list Z) (r : option (FAT_ErrorCode * FAT32)) : Prop :=
  exists fuel i lba s,
    P s /\ holds_sector lba s /\
    0 <= i < Z.of_nat (ents_per_sector s) /\
    (is_directory (entry_at (read_buffer s) i) = false ->
     iequals (dos_name_ext (entry_at (read_buffer s) i)) name = true) /\
    r = open_match fuel function i lba (entry_at (read_buffer s) i) s.

(** The ways a [file_open] call can end, for a scan invariant [P]: out of
    fuel; not found, in a state satisfying [P]; through [open_match] on an
    entry matching the last component; through [open_missing] (creation)
    from a state satisfying [P]. *)
Definition open_outcome (P : FAT32 -> Prop) (function : FileFunction)
  (name : list Z) (r : option (FAT_ErrorCode * FAT32)) : Prop :=
  r = None \/
  (exists s', P s' /\ r = Some (FILE_NOT_FOUND, s')) \/
  matched P function name r \/
  (exists fuel dir_cluster s',
     P s' /\ r = open_missing fuel function name dir_cluster s').


(** The state a call left behind ([d] when the model ran out of fuel). *)
Definition result_state (r : option (FAT_ErrorCode * FAT32)) (d : FAT32)
  : FAT32 :=
  match r with
  | Some (_, s) => s
  | None => d
  end.

(** [fresh_volume] with one file in the root directory, X.BIN of 5000
    bytes, whose chain is cluster 3 then cluster 4. *)
Definition chain_volume : FAT32 :=
  mkFAT (mkDev (disk_of
                  [(2080, [0xF8; 0xFF; 0xFF; 0x0F; 0xFF; 0xFF; 0xFF; 0xFF;
                           0xFF; 0xFF; 0xFF; 0x0F; 4; 0; 0; 0;
                           0xFF; 0xFF; 0xFF; 0x0F] ++ repeat 0 492);
                   (2088, short_entry (str "X       BIN") AT_ARCHIVE 3 5000
                            ++ repeat 0 480)])
               0 no_fault)
        true 4 2048 512 8 2080 2088 252 2 40 2
        zero_sector 0xFFFFFFFF false zero_sector
        ReadHandler0 WriteHandler0 0.



(** The object on a device whose transfer number [k] fails, and no
    other. *)
Definition failing_at (k : nat) (s : FAT32) : FAT32 :=
  set_sd_card (mkDev (blocks (sd_card s)) (ticks (sd_card s))
                     (fun n => Nat.eqb n k)) s.

(** [file_open("X.BIN", DELETE)] on [chain_volume] when transfer [k]
    fails: the result code, then, on the medium afterwards, the first name
    byte of the entry of X.BIN and the FAT entries of clusters 3 and 4. *)
Definition delete_with_failure (k : nat)
  : option (FAT_ErrorCode * Z * Z * Z) :=
  match file_open 16 (str "X.BIN") DELETE (failing_at k chain_volume) with
  | Some (code, s') =>
      Some (code, byte_at (blocks (sd_card s') 2088) 0,
            disk_fat s' 3, disk_fat s' 4)
  | None => None
  end.

(** [fresh_volume] after [create_directory("FOO.TXT")] and an empty file
    FOO.TXT created in the root: entry 0 of the root directory is the
    directory, entry 1 the file, with the same eleven name bytes. *)
Definition foo_volume : option FAT32 :=
  and_then (create_directory 16 (str "FOO.TXT") fresh_volume) (fun '(_, s1) =>
  with_empty_file (str "FOO.TXT") s1).

(** Name and attribute bytes of the first two entries of the root
    directory sector. *)
Definition root_names (s : FAT32) : list (list Z) :=
  map (fun i => firstn 12 (entry_at (blocks (sd_card s) 2088) i)) [0; 1].
(* ------------------------------------------------------------------ *)
(** ** Notions used to state the properties of the name utilities *)

(** A character [to_dos_8_3] copies: not NUL, not a space and not one of
    the characters it refuses. *)
Definition plain_char (c : Z) : bool :=
  negb (c =? 0) && negb (c =? 0x20) && negb (mem_char c invalid_chars).

(** A character of a stored 8.3 field: allowed by [to_dos_8_3] and not a
    lower-case letter. *)
Definition stored_char (c : Z) : bool :=
  plain_char c && negb ((97 <=? c) && (c <=? 122)).

(** A name as a caller writes it: the base, then a dot and the extension
    when there is one. *)
Definition dotted (base ext : list Z) : list Z :=
  base ++ match ext with [] => [] | _ => 46 :: ext end.

(* ------------------------------------------------------------------ *)
(** ** FAT32.cpp: the one-line wrappers around [file_open] *)

Definition file_exists (fuel : nat) (filename : list Z) (s : FAT32)
  : option (bool * FAT32) :=
  match file_open fuel filename READ s with
  | Some (FILE_FOUND, s') => Some (true, s')
  | Some (_, s') => Some (false, s')
  | None => None
  end.

(** [if (file_open(filename, READ) == FILE_FOUND) return
    read_handler.File_Size; return 0;] *)
Definition get_file_size (fuel : nat) (filename : list Z) (s : FAT32)
  : option (Z * FAT32) :=
  match file_open fuel filename READ s with
  | Some (FILE_FOUND, s') => Some (rh_File_Size (read_handler s'), s')
  | Some (_, s') => Some (0, s')
  | None => None
  end.

(** The invariant of a scan that only reads: the medium, the geometry and
    both handles are those of [s0]. *)
Definition untouched (s0 s : FAT32) : Prop :=
  blocks (sd_card s) = blocks (sd_card s0) /\
  geometry s = geometry s0 /\
  read_handler s = read_handler s0 /\
  write_handler s = write_handler s0.


(* ------------------------------------------------------------------ *)
(** ** FAT32.cpp: list_directory *)

(** [FileListEntry]; the character arrays are kept as the C strings they
    hold.  [FileListEntry()] zeroes every field. *)
Record FileListEntry : Type := mkFLE {
  longFileName : list Z;
  dosFileName : list Z;
  fle_type : FileEntryType;
  fle_size : Z;
  hasLongName : bool;
  attributes : Z;
  creationTime : Z;
  creationDate : Z;
  modificationTime : Z;
  modificationDate : Z;
  firstCluster : Z
}.

(** The locals of [list_directory] that live across loop iterations. *)
Record Listing : Type := mkListing {
  lfn_flag : bool;
  saved_lfn : list Z;
  filename_buf : list Z;
  file_list : list FileListEntry
}.

(** The [_File] and [_Directory] cases of the [switch]: they differ in the
    type tag and in the size.  [lfn_cap] is [sizeof(entry.longFileName) - 1],
    which FAT32.cpp leaves to the header. *)
Definition push_entry (lfn_cap : nat) (type : FileEntryType) (size : Z)
  (L : Listing) : Listing :=
  let dos := firstn 12 (cstr (filename_buf L)) in
  if lfn_flag L && negb (byte_at (saved_lfn L) 0 =? 0) then
    mkListing false [] (filename_buf L)
      (file_list L ++
       [mkFLE (firstn lfn_cap (saved_lfn L)) dos type size true 0 0 0 0 0 0])
  else
    mkListing (lfn_flag L) (saved_lfn L) (filename_buf L)
      (file_list L ++ [mkFLE [] dos type size false 0 0 0 0 0 0]).

(** [while (index < entries_per_sector && error_code == ERROR_IDLE)];
    [error_code] is never assigned.  The boolean is [done]. *)
Fixpoint list_entries (lfn_cap : nat) (n : nat) (index : Z) (L : Listing)
  (s : FAT32) : bool * Listing * FAT32 :=
  match n with
  | O => (false, L, s)
  | S n' =>
      let e := entry_at (read_buffer s) index in
      if FileName e 0 0 =? FILE_CLEAR then (true, L, s)
      else
        let '(type, buf, idx) :=
          fat_filename_parser e (filename_buf L) (lfn_index s) in
        let s1 := set_lfn_index idx s in
        let L1 := mkListing (lfn_flag L) (saved_lfn L) buf (file_list L) in
        let L2 :=
          match type with
          | _File => push_entry lfn_cap _File (SizeofFile e 0) L1
          | _Directory => push_entry lfn_cap _Directory 0 L1
          | _LongFileNameOK =>
              mkListing true (firstn 254 (cstr buf)) buf (file_list L1)
          | _LongFileNameNOK | _Error => L1
          end in
        list_entries lfn_cap n' (index + 1) L2 s1
  end.

(** How the sector loop of [list_directory] ends: a read failed and the
    function returned, the end marker was met, or the cluster is
    exhausted. *)
Inductive list_res : Set := ListReturned | ListDone | ListNext.

Fixpoint list_sectors (lfn_cap : nat) (n : nat) (sec cluster : Z)
  (L : Listing) (s : FAT32) : list_res * Listing * FAT32 :=
  match n with
  | O => (ListNext, L, s)
  | S n' =>
      match get_physical_block (cluster_lba s cluster sec) s with
      | (false, s1) => (ListReturned, L, s1)
      | (true, s1) =>
          match list_entries lfn_cap (ents_per_sector s1) 0 L s1 with
          | (true, L1, s2) => (ListDone, L1, s2)
          | (false, L1, s2) =>
              list_sectors lfn_cap n' (sec + 1) cluster L1 s2
          end
      end
  end.

(** [while (cluster < EOC_MIN && error_code == ERROR_IDLE && !done)] *)
Fixpoint list_chain (lfn_cap : nat) (fuel : nat) (cluster : Z) (L : Listing)
  (s : FAT32) : option (Listing * FAT32) :=
  match fuel with
  | O => None
  | S fuel' =>
      if cluster <? EOC_MIN then
        match list_sectors lfn_cap (Z.to_nat (cluster_size s)) 0 cluster L s with
        | (ListNext, L1, s1) =>
            let (next, s2) := fat_entry cluster 0 false s1 in
            if (EOC_MIN <=? next) || (next =? 0) then Some (L1, s2)
            else list_chain lfn_cap fuel' next L1 s2
        | (_, L1, s1) => Some (L1, s1)
        end
      else Some (L, s)
  end.

(** [FAT32::list_directory(file_list)]: the error code, which is always
    the initial [ERROR_IDLE], and the list. *)
Definition list_directory (lfn_cap : nat) (fuel : nat) (s : FAT32)
  : option (FAT_ErrorCode * list FileListEntry * FAT32) :=
  let cluster :=
    if negb (current_dir_cluster_ s =? 0) then current_dir_cluster_ s
    else root_dir_first_cluster s in
  match list_chain lfn_cap fuel cluster (mkListing false [] parsed_name0 []) s with
  | Some (L, s') => Some (ERROR_IDLE, file_list L, s')
  | None => None
  end.

(** What an entry of the medium looks like in the listing. *)
Definition listed_as (e : list Z) (fe : FileListEntry) : Prop :=
  hasLongName fe = false /\ longFileName fe = [] /\
  attributes fe = 0 /\ firstCluster fe = 0 /\
  FileName e 0 0 <> FILE_CLEAR /\ FileName e 0 0 <> FILE_ERASED /\
  Z.land (Attributes e 0) AT_VOLUME_ID = 0 /\
  if is_directory e then
    fle_type fe = _Directory /\ fle_size fe = 0 /\
    dosFileName fe = firstn 12 (cstr (dos_name_dir e ++ [92]))
  else
    fle_type fe = _File /\ fle_size fe = SizeofFile e 0 /\
    dosFileName fe = firstn 12 (cstr (dos_name_dir e ++ 46 :: bytes_from e 8 3)).

(** The invariant of the listing loops over a medium [s0]: no long name
    is pending, the name buffer has its size, and every entry listed so
    far is an entry of the medium. *)
Definition listing_ok (s0 : FAT32) (L : Listing) : Prop :=
  lfn_flag L = false /\ length (filename_buf L) = 255%nat /\
  Forall (fun fe => exists lba i,
            0 <= i /\
            listed_as (entry_at (sector512 (blocks (sd_card s0) lba)) i) fe)
         (file_list L).

(* ------------------------------------------------------------------ *)
(** ** FAT32.cpp: change_directory *)

Definition set_current_dir_cluster (c : Z) (s : FAT32) : FAT32 :=
  mkFAT (sd_card s) (initialized s) (sectors_per_fat s) (sectors_in_partition s)
    (sector_size s) (cluster_size s) (fat_base s) (data_base s)
    (last_cluster s) (root_dir_first_cluster s) (first_data_sector s)
    c (read_buffer s) (fat_cache_sector s)
    (fat_cache_valid s) (fat_cache s) (read_handler s) (write_handler s)
    (lfn_index s).

(** [for (i = 0; i < entries_per_sector; ++i)] of [change_directory]:
    the first cluster of the first live directory entry of the sector
    whose base name is [token] up to case and whose first cluster is
    valid. *)
Fixpoint cd_entries (n : nat) (i : Z) (token : list Z) (buf : list Z)
  : option Z :=
  match n with
  | O => None
  | S n' =>
      let e := entry_at buf i in
      if FileName e 0 0 =? FILE_CLEAR then None
      else if FileName e 0 0 =? FILE_ERASED then cd_entries n' (i + 1) token buf
      else if Z.land (Attributes e 0) AT_DIRECTORY =? 0 then
        cd_entries n' (i + 1) token buf
      else if Attributes e 0 =? AT_LFN then cd_entries n' (i + 1) token buf
      else if iequals token (dos_name_dir e)
              && valid_cluster (first_cluster_of e)
      then Some (first_cluster_of e)
      else cd_entries n' (i + 1) token buf
  end.

(** How a loop of [change_directory] ends: a sector could not be read and
    the function returned false, the component was found, or the range
    was scanned without a match. *)
Inductive cd_res : Set := CdFailed | CdFound (c : Z) | CdMissing.

(** [for (sec = 0; sec < cluster_size && !found; ++sec)] *)
Fixpoint cd_sectors (n : nat) (sec cluster : Z) (token : list Z) (s : FAT32)
  : cd_res * FAT32 :=
  match n with
  | O => (CdMissing, s)
  | S n' =>
      match get_physical_block (cluster_lba s cluster sec) s with
      | (false, s1) => (CdFailed, s1)
      | (true, s1) =>
          match cd_entries (ents_per_sector s1) 0 token (read_buffer s1) with
          | Some c => (CdFound c, s1)
          | None => cd_sectors n' (sec + 1) cluster token s1
          end
      end
  end.

(** [while (cluster >= 2 && cluster < EOC_MIN && !found)] *)
Fixpoint cd_chain (fuel : nat) (cluster : Z) (token : list Z) (s : FAT32)
  : option (cd_res * FAT32) :=
  match fuel with
  | O => None
  | S fuel' =>
      if valid_cluster cluster then
        match cd_sectors (Z.to_nat (cluster_size s)) 0 cluster token s with
        | (CdMissing, s1) =>
            let (next, s2) := fat_entry cluster 0 false s1 in
            if (EOC_MIN <=? next) || (next =? 0) then Some (CdMissing, s2)
            else cd_chain fuel' next token s2
        | r => Some r
        end
      else Some (CdMissing, s)
  end.

(** [while (token) {...}]: the cluster reached, or [None] for
    [return false]. *)
Fixpoint cd_tokens (fuel : nat) (tokens : list (list Z)) (current : Z)
  (s : FAT32) : option (option Z * FAT32) :=
  match tokens with
  | [] => Some (Some current, s)
  | token :: rest =>
      match cd_chain fuel current token s with
      | None => None
      | Some (CdFound c, s1) => cd_tokens fuel rest c s1
      | Some (_, s1) => Some (None, s1)
      end
  end.

(** [FAT32::change_directory(dir_name)]; [fuel] bounds the cluster-chain
    loop, [None] is the model out of fuel. *)
Definition change_directory (fuel : nat) (dir_name : list Z) (s : FAT32)
  : option (bool * FAT32) :=
  if negb (initialized s) then Some (false, s)
  else
    match cstr dir_name with
    | [] => Some (false, s)
    | name =>
        if list_eqb name [47] then
          Some (true, set_current_dir_cluster (root_dir_first_cluster s) s)
        else
          let path_buf := firstn 255 name in
          let p := match path_buf with
                   | c :: r => if c =? 47 then r else path_buf
                   | [] => path_buf
                   end in
          match cd_tokens fuel (tokenize p) (root_dir_first_cluster s) s with
          | None => None
          | Some (None, s1) => Some (false, s1)
          | Some (Some current, s1) =>
              Some (true, set_current_dir_cluster current s1)
          end
    end.

(** [c] is the first cluster of a directory entry of the medium of [s0]
    whose base name is [token] up to case. *)
Definition names_directory (s0 : FAT32) (token : list Z) (c : Z) : Prop :=
  exists lba j,
    let e := entry_at (sector512 (blocks (sd_card s0) lba)) j in
    0 <= j /\ is_directory e = true /\
    FileName e 0 0 <> FILE_CLEAR /\ FileName e 0 0 <> FILE_ERASED /\
    iequals token (dos_name_dir e) = true /\
    first_cluster_of e = c.

(** The components [change_directory] walks through. *)
Definition cd_components (dir_name : list Z) : list (list Z) :=
  tokenize (match firstn 255 (cstr dir_name) with
            | c :: r => if c =? 47 then r else c :: r
            | [] => []
            end).

(** [fresh_volume] after [create_directory("D")] and an empty F.TXT. *)
Definition dir_volume : FAT32 :=
  match volume_with_dir with
  | Some s => s
  | None => fresh_volume
  end.

(** The state a [change_directory] call left behind ([d] when the model
    ran out of fuel). *)
Definition cd_state (r : option (bool * FAT32)) (d : FAT32) : FAT32 :=
  match r with
  | Some (_, s) => s
  | None => d
  end.

(* ------------------------------------------------------------------ *)
(** ** FAT32.cpp: cleanup_deleted_files, the compaction of a sector *)

(** The loop run when the end marker is met:
    [for (i = write_idx; i < ents; ++i) if (entries[i].FileName[0] !=
    FILE_CLEAR) { memset(&entries[i], 0, 32); entries[i].FileName[0] =
    FILE_CLEAR; modified = true; }] *)
Fixpoint clear_tail (n : nat) (i : Z) (buf : list Z) (modified : bool)
  : list Z * bool :=
  match n with
  | O => (buf, modified)
  | S n' =>
      if negb (FileName (entry_at buf i) 0 0 =? FILE_CLEAR) then
        clear_tail n' (i + 1)
          (set_byte (blit buf (ROOT_ENTRY_SIZE * i) (repeat 0 32))
                    (ROOT_ENTRY_SIZE * i) FILE_CLEAR)
          true
      else clear_tail n' (i + 1) buf modified
  end.

(** [for (read_idx = 0; read_idx < ents; ++read_idx)] of the lambda
    [compact_directory_sector], on the sector buffer it edits in place.
    The counter [entries_compacted] is only printed and is left out. *)
Fixpoint compact_loop (n : nat) (read_idx write_idx ents : Z) (buf : list Z)
  (modified : bool) : list Z * bool :=
  match n with
  | O => (buf, modified)
  | S n' =>
      let first := FileName (entry_at buf read_idx) 0 0 in
      if first =? FILE_CLEAR then
        clear_tail (Z.to_nat (ents - write_idx)) write_idx buf modified
      else if first =? FILE_ERASED then
        compact_loop n' (read_idx + 1) write_idx ents buf true
      else if negb (write_idx =? read_idx) then
        compact_loop n' (read_idx + 1) (write_idx + 1) ents
          (blit buf (ROOT_ENTRY_SIZE * write_idx) (entry_at buf read_idx)) true
      else
        compact_loop n' (read_idx + 1) (write_idx + 1) ents buf modified
  end.

(** The lambda [compact_directory_sector(lba)]. *)
Definition compact_directory_sector (lba : Z) (s : FAT32) : bool * FAT32 :=
  match get_physical_block lba s with
  | (false, s1) => (false, s1)
  | (true, s1) =>
      let ents := ents_per_sector s1 in
      let (buf, modified) :=
        compact_loop ents 0 0 (Z.of_nat ents) (read_buffer s1) false in
      if modified then store_physical_block lba buf (set_read_buffer buf s1)
      else (true, s1)
  end.

(** The entries a compaction keeps, by index: the live ones before the
    end marker; and whether an end marker was met among the [n] entries
    from [i]. *)
Fixpoint kept (n : nat) (i : Z) (buf : list Z) : list Z * bool :=
  match n with
  | O => ([], false)
  | S n' =>
      let first := FileName (entry_at buf i) 0 0 in
      if first =? FILE_CLEAR then ([], true)
      else if first =? FILE_ERASED then kept n' (i + 1) buf
      else let (l, b) := kept n' (i + 1) buf in (i :: l, b)
  end.

(** A directory sector without end marker: an erased entry, then fifteen
    files F01 to F15. *)
Definition full_sector : list Z :=
  (FILE_ERASED :: repeat 0x20 10 ++ [AT_ARCHIVE] ++ repeat 0 20)
  ++ concat (map (fun k => short_entry (str "F" ++ [48 + k / 10; 48 + k mod 10]
                                         ++ repeat 0x20 8)
                                       AT_ARCHIVE (2 + k) 0)
                 (map Z.of_nat (seq 1 15))).

(** [fresh_volume] with [full_sector] as the first sector of the root
    directory. *)
Definition full_dir_volume : FAT32 :=
  mkFAT (mkDev (disk_of [(2080, fat_sector0); (2088, full_sector)]) 0 no_fault)
        true 4 2048 512 8 2080 2088 252 2 40 2
        zero_sector 0xFFFFFFFF false zero_sector
        ReadHandler0 WriteHandler0 0.

(* ------------------------------------------------------------------ *)
(** ** FAT32.cpp: the constructor, read_master_block and init *)

(** [FAT32::FAT32(sd)].  [root_dir_first_cluster] and [first_data_sector]
    are not initialised by the constructor; they are taken to be 0. *)
Definition FAT32_new (sd : BlockDev) : FAT32 :=
  mkFAT sd false 0 0 512 0 0 0 0 0 0 0
        zero_sector 0xFFFFFFFF false zero_sector
        ReadHandler0 WriteHandler0 0.

(** [(uint16_t)(read_buffer[510] | (read_buffer[511] << 8)) == 0xAA55] *)
Definition has_signature (buf : list Z) : bool := le16 buf 510 =? 0xAA55.

(** A sector that starts with a jump: EB xx 90 or E9 xx xx. *)
Definition looks_like_bpb (buf : list Z) : bool :=
  ((byte_at buf 0 =? 0xEB) && (byte_at buf 2 =? 0x90)) || (byte_at buf 0 =? 0xE9).

(** [for (i = 0; i < 4; i++, p += 16)] over the partition table: the
    start LBA of the first entry of type 0x0B or 0x0C, else 0. *)
Fixpoint find_fat32_partition (n : nat) (p : Z) (buf : list Z) : Z :=
  match n with
  | O => 0
  | S n' =>
      let ptype := byte_at buf (p + 4) in
      if (ptype =? 0x0B) || (ptype =? 0x0C) then le32 buf (p + 8)
      else find_fat32_partition n' (p + 16) buf
  end.

(** The fields of [FAT32_BootRecord] (packed) that the mount reads. *)
Definition bytes_per_sector (b : list Z) : Z := le16 b 11.
Definition sectors_per_cluster (b : list Z) : Z := byte_at b 13.
Definition reserved_sectors (b : list Z) : Z := le16 b 14.
Definition fat_count (b : list Z) : Z := byte_at b 16.
Definition root_entries (b : list Z) : Z := le16 b 17.
Definition total_sectors_16 (b : list Z) : Z := le16 b 19.
Definition fat_size_16 (b : list Z) : Z := le16 b 22.
Definition total_sectors_32 (b : list Z) : Z := le32 b 32.
Definition fat_size_32 (b : list Z) : Z := le32 b 36.
Definition root_cluster (b : list Z) : Z := le32 b 44.

(** The assignments of [read_master_block] to the geometry fields, from
    the BPB sector [b] found at [bpb_lba].  [main_offset], [fat_base],
    [data_base] and [last_cluster] are [uint16_t]; the sums are taken in
    [uint32_t].  A division by zero, undefined in C, yields 0. *)
Definition load_geometry (bpb_lba : Z) (b : list Z) (s : FAT32) : FAT32 :=
  let fatsz := if negb (fat_size_16 b =? 0) then fat_size_16 b
               else fat_size_32 b in
  let tot_sec := if negb (total_sectors_16 b =? 0) then total_sectors_16 b
                 else total_sectors_32 b in
  let main_offset := to_u16 bpb_lba in
  let sector_size' := bytes_per_sector b in
  let cluster_size' := sectors_per_cluster b in
  let fat_base' := to_u16 (main_offset + reserved_sectors b) in
  let root_dir_sectors :=
    to_u32 (to_u32 (root_entries b * 32) + to_u32 (sector_size' - 1))
    / sector_size' in
  let first_data_sector' :=
    to_u32 (reserved_sectors b + to_u32 (fat_count b * fatsz) + root_dir_sectors) in
  let data_base' := to_u16 (main_offset + first_data_sector') in
  let data_sectors := to_u32 (tot_sec - first_data_sector') in
  let total_clusters := data_sectors / cluster_size' in
  let last_cluster' := to_u16 (total_clusters + 1) in
  mkFAT (sd_card s) (initialized s) fatsz tot_sec sector_size' cluster_size'
        fat_base' data_base' last_cluster' (root_cluster b) first_data_sector'
        (current_dir_cluster_ s) (read_buffer s) (fat_cache_sector s)
        (fat_cache_valid s) (fat_cache s) (read_handler s) (write_handler s)
        (lfn_index s).

(** [FAT32::read_master_block()]; [master_boot] is only printed and is
    not kept. *)
Definition read_master_block (s : FAT32) : bool * FAT32 :=
  match get_physical_block 0 s with
  | (false, s1) => (false, s1)
  | (true, s1) =>
      if negb (has_signature (read_buffer s1)) then (false, s1)
      else
        let bpb_lba :=
          if looks_like_bpb (read_buffer s1) then 0
          else find_fat32_partition 4 0x1BE (read_buffer s1) in
        match get_physical_block bpb_lba s1 with
        | (false, s2) => (false, s2)
        | (true, s2) =>
            if negb (has_signature (read_buffer s2)) then (false, s2)
            else (true, load_geometry bpb_lba (read_buffer s2) s2)
        end
  end.

Definition set_initialized (s : FAT32) : FAT32 :=
  mkFAT (sd_card s) true (sectors_per_fat s) (sectors_in_partition s)
    (sector_size s) (cluster_size s) (fat_base s) (data_base s)
    (last_cluster s) (root_dir_first_cluster s) (first_data_sector s)
    (current_dir_cluster_ s) (read_buffer s) (fat_cache_sector s)
    (fat_cache_valid s) (fat_cache s) (read_handler s) (write_handler s)
    (lfn_index s).

(** [FAT32::init()]; [card_initialized] is [sd_card->is_initialized()]. *)
Definition init (card_initialized : bool) (s : FAT32) : bool * FAT32 :=
  if negb card_initialized then (false, s)
  else
    match read_master_block s with
    | (false, s1) => (false, s1)
    | (true, s1) =>
        (true, set_current_dir_cluster (root_dir_first_cluster s1)
                 (set_initialized s1))
    end.

(* ------------------------------------------------------------------ *)
(** ** SDCard.cpp: format_fat32 over the block-device boundary *)

(** The four bytes of a [uint32_t], low byte first, as the code stores
    them one by one. *)
Definition le_bytes32 (v : Z) : list Z :=
  [Z.land v 0xFF; Z.land (Z.shiftr v 8) 0xFF;
   Z.land (Z.shiftr v 16) 0xFF; Z.land (Z.shiftr v 24) 0xFF].

(** The cluster size chosen from the card size. *)
Definition format_sectors_per_cluster (total_sectors : Z) : Z :=
  if 32 * 1024 * 1024 / 512 <? total_sectors then 64
  else if 16 * 1024 * 1024 / 512 <? total_sectors then 32
  else if 8 * 1024 * 1024 / 512 <? total_sectors then 16
  else 8.

(** [fat_size = ((clusters + 2) * 4 + 511) / 512] with
    [clusters = (total_sectors - reserved_sectors) / sectors_per_cluster],
    in [uint32_t]. *)
Definition format_fat_size (total_sectors : Z) : Z :=
  let data_sectors := to_u32 (total_sectors - 32) in
  let clusters := data_sectors / format_sectors_per_cluster total_sectors in
  to_u32 (to_u32 ((clusters + 2) * 4) + 511) / 512.

Definition partition_start : Z := 2048.

(** Sector 0: the partition table with one FAT32-LBA partition of
    [partition_size] sectors. *)
Definition mbr_image (partition_size : Z) : list Z :=
  blit (blit (blit (blit zero_sector
    510 [0x55; 0xAA])
    446 [0x80; 0x00; 0x00; 0x00; 0x0C; 0xFF; 0xFF; 0xFF])
    454 (le_bytes32 partition_start))
    458 (le_bytes32 partition_size).

Definition mbr_sector (total_sectors : Z) : list Z :=
  mbr_image (to_u32 (total_sectors - partition_start)).

(** [snprintf(label, 12, "%-11s", volume_label)]: the label cut to 11
    characters and padded with spaces. *)
Definition label11 (volume_label : list Z) : list Z :=
  pad_spaces 11 (cstr volume_label).

(** The boot sector of the partition, from the values the buffer is
    filled with; [serial] is the clock reading taken for the volume serial
    number and [label] the 11 bytes of the label. *)
Definition boot_image (sectors_per_cluster partition_size fat_size serial : Z)
  (label : list Z) : list Z :=
  blit (blit (blit (blit (blit (blit (blit (blit (blit (blit (blit (blit
    zero_sector
    0 [0xEB; 0x58; 0x90])
    3 (str "custom01"))
    11 [0x00; 0x02; Z.land sectors_per_cluster 0xFF;
        Z.land 32 0xFF; Z.land (Z.shiftr 32 8) 0xFF; 2;
        0x00; 0x00; 0x00; 0x00; 0xF8; 0x00; 0x00; 0x3F; 0x00; 0xFF; 0x00])
    28 (le_bytes32 partition_start))
    32 (le_bytes32 partition_size))
    36 (le_bytes32 fat_size))
    40 [0x00; 0x00; 0x00; 0x00])
    44 (le_bytes32 2 ++ [0x01; 0x00; 0x06; 0x00] ++ repeat 0 12
          ++ [0x00; 0x00; 0x29]))
    67 (le_bytes32 serial))
    71 label)
    82 (str "FAT32   "))
    510 [0x55; 0xAA].

Definition boot_sector (total_sectors : Z) (volume_label : list Z)
  (serial : Z) : list Z :=
  boot_image (format_sectors_per_cluster total_sectors)
             (to_u32 (total_sectors - partition_start))
             (format_fat_size total_sectors) serial (label11 volume_label).

Definition fsinfo_sector : list Z :=
  blit (blit (blit (blit zero_sector
    0 [0x52; 0x52; 0x61; 0x41])
    484 [0x72; 0x72; 0x41; 0x61])
    488 (repeat 0xFF 8))
    510 [0x55; 0xAA].

(** [for (i = 1; i < fat_size; i++) { write_block(fat_start + i, zeros);
    write_block(fat_start + fat_size + i, zeros); }] *)
Fixpoint zero_fats (n : nat) (i fat_start fat_size : Z) (d : BlockDev)
  : bool * BlockDev :=
  match n with
  | O => (true, d)
  | S n' =>
      let (ok1, d1) := blk_write (to_u32 (fat_start + i)) zero_sector d in
      if negb ok1 then (false, d1)
      else
        let (ok2, d2) :=
          blk_write (to_u32 (fat_start + fat_size + i)) zero_sector d1 in
        if negb ok2 then (false, d2)
        else zero_fats n' (i + 1) fat_start fat_size d2
  end.

(** [for (i = 0; i < sectors_per_cluster; i++) write_block(data_start + i,
    zeros);] *)
Fixpoint zero_root (n : nat) (i data_start : Z) (d : BlockDev)
  : bool * BlockDev :=
  match n with
  | O => (true, d)
  | S n' =>
      let (ok, d1) := blk_write (to_u32 (data_start + i)) zero_sector d in
      if negb ok then (false, d1) else zero_root n' (i + 1) data_start d1
  end.

(** A chain of steps each of which may fail: the first failure ends it. *)
Definition then_write (r : bool * BlockDev)
  (k : BlockDev -> bool * BlockDev) : bool * BlockDev :=
  if fst r then k (snd r) else r.

(** [SDCard::format_fat32(volume_label)] as the filesystem sees the card:
    [write_block] is [blk_write], [card_initialized] is the card's
    [initialized] flag and [total_sectors] is what [card_size()]
    returned. *)
Definition format_fat32 (card_initialized : bool) (total_sectors : Z)
  (volume_label : list Z) (serial : Z) (d : BlockDev) : bool * BlockDev :=
  if negb card_initialized then (false, d)
  else if total_sectors =? 0 then (false, d)
  else
    let fat_size := format_fat_size total_sectors in
    let fat_start := partition_start + 32 in
    let data_start := to_u32 (fat_start + to_u32 (2 * fat_size)) in
    then_write (blk_write 0 (mbr_sector total_sectors) d) (fun d1 =>
    then_write (blk_write partition_start
                  (boot_sector total_sectors volume_label serial) d1) (fun d2 =>
    then_write (blk_write (partition_start + 1) fsinfo_sector d2) (fun d3 =>
    then_write (blk_write fat_start fat_sector0 d3) (fun d4 =>
    then_write (blk_write (to_u32 (fat_start + fat_size)) fat_sector0 d4) (fun d5 =>
    then_write (zero_fats (Z.to_nat (fat_size - 1)) 1 fat_start fat_size d5) (fun d6 =>
    zero_root (Z.to_nat (format_sectors_per_cluster total_sectors)) 0
              data_start d6)))))).

(** A device on which no transfer fails from now on. *)
Definition reliable (d : BlockDev) : Prop :=
  forall n, (ticks d <= n)%nat -> fault d n = false.

(** A card that holds nothing but zeros and never fails. *)
Definition blank_card : BlockDev := mkDev (fun _ => zero_sector) 0 no_fault.

(** The sector that [read_master_block] takes for the boot sector. *)
Definition bpb_lba_of (s : FAT32) : Z :=
  let b0 := sector512 (blocks (sd_card s) 0) in
  if looks_like_bpb b0 then 0 else find_fat32_partition 4 0x1BE b0.

(** A card whose sector 0 holds the signature, 512 bytes per sector and
    one sector per cluster, and nothing else: no jump, no partition, no
    FAT. *)
Definition signed_card : BlockDev :=
  mkDev (disk_of [(0, blit (blit zero_sector 11 [0x00; 0x02; 0x01])
                           510 [0x55; 0xAA])]) 0 no_fault.

(** Settle the comparisons of block numbers that [lia] decides. *)
Ltac decide_eqbs :=
  repeat match goal with
  | |- context [?a =? ?b] =>
      first [ rewrite (proj2 (Z.eqb_neq a b)) by lia
            | rewrite (proj2 (Z.eqb_eq a b)) by lia ]
  end.

(* ================================================================== *)
(** * Properties *)

(** ** Byte buffers *)

Lemma length_upd_nth n x l : length (upd_nth n x l) = length l.
Proof.
  revert n; induction l as [|h t IH]; intros [|n]; simpl; auto.
Qed.

Lemma nth_upd_nth_same n x l d :
  (n < length l)%nat -> nth n (upd_nth n x l) d = x.
Proof.
  revert n; induction l as [|h t IH]; intros [|n] H; simpl in *;
    try lia; auto.
  apply IH; lia.
Qed.

Lemma nth_upd_nth_other n m x l d :
  n <> m -> nth m (upd_nth n x l) d = nth m l d.
Proof.
  revert n m; induction l as [|h t IH]; intros [|n] [|m] H; simpl;
    try congruence; auto.
Qed.

Lemma length_set_byte buf i v : length (set_byte buf i v) = length buf.
Proof.
  unfold set_byte. destruct (i <? 0); auto using length_upd_nth.
Qed.

Lemma byte_at_set_byte_same buf i v :
  0 <= i < Z.of_nat (length buf) -> byte_at (set_byte buf i v) i = v.
Proof.
  intros H. unfold byte_at, set_byte.
  destruct (Z.ltb_spec i 0); [lia|].
  apply nth_upd_nth_same. lia.
Qed.

Lemma byte_at_set_byte_other buf i j v :
  0 <= j -> i <> j -> byte_at (set_byte buf i v) j = byte_at buf j.
Proof.
  intros Hj H. unfold byte_at, set_byte.
  destruct (Z.ltb_spec i 0); auto.
  apply nth_upd_nth_other. lia.
Qed.

Lemma length_sector512 l : length (sector512 l) = 512%nat.
Proof.
  unfold sector512. rewrite firstn_length_le; auto.
  rewrite length_app, repeat_length. lia.
Qed.

Lemma sector512_fixed l : length l = 512%nat -> sector512 l = l.
Proof.
  intros H. unfold sector512.
  rewrite firstn_app, H, Nat.sub_diag, firstn_O, app_nil_r.
  rewrite <- H. apply firstn_all.
Qed.

Lemma sector512_idem l : sector512 (sector512 l) = sector512 l.
Proof. apply sector512_fixed, length_sector512. Qed.


Lemma length_put_le16 buf off v : length (put_le16 buf off v) = length buf.
Proof. unfold put_le16. now rewrite !length_set_byte. Qed.

(** Four bytes split off a 32-bit value join back to it. *)
Lemma join_split32 v :
  0 <= v < 4294967296 ->
  Z.lor (Z.lor (Z.lor (Z.land v 255)
                      (Z.shiftl (Z.land (Z.shiftr v 8) 255) 8))
               (Z.shiftl (Z.land (Z.shiftr v 16) 255) 16))
        (Z.shiftl (Z.land (Z.shiftr v 24) 255) 24) = v.
Proof.
  intros Hv. apply Z.bits_inj'. intros n Hn.
  rewrite !Z.lor_spec.
  change 255 with (Z.ones 8).
  destruct (Z.ltb_spec n 8).
  - rewrite Z.land_spec, Z.ones_spec_low by lia.
    rewrite !Z.shiftl_spec_low by lia.
    now rewrite Bool.andb_true_r, !Bool.orb_false_r.
  - destruct (Z.ltb_spec n 16).
    + rewrite Z.land_spec, Z.ones_spec_high by lia.
      rewrite (Z.shiftl_spec _ 8) by lia.
      rewrite Z.land_spec, Z.shiftr_spec, Z.ones_spec_low by lia.
      rewrite !Z.shiftl_spec_low by lia.
      rewrite Bool.andb_false_r, Bool.andb_true_r, !Bool.orb_false_r. simpl.
      f_equal; lia.
    + destruct (Z.ltb_spec n 24).
      * rewrite Z.land_spec, Z.ones_spec_high by lia.
        rewrite (Z.shiftl_spec _ 8), (Z.shiftl_spec _ 16) by lia.
        rewrite !Z.land_spec, !Z.shiftr_spec by lia.
        rewrite (Z.ones_spec_high 8 (n - 8)) by lia.
        rewrite (Z.ones_spec_low 8 (n - 16)) by lia.
        rewrite Z.shiftl_spec_low by lia.
        rewrite !Bool.andb_false_r, Bool.andb_true_r, !Bool.orb_false_r. simpl.
        f_equal; lia.
      * rewrite Z.land_spec, Z.ones_spec_high by lia.
        rewrite (Z.shiftl_spec _ 8), (Z.shiftl_spec _ 16),
          (Z.shiftl_spec _ 24) by lia.
        rewrite !Z.land_spec, !Z.shiftr_spec by lia.
        rewrite (Z.ones_spec_high 8 (n - 8)) by lia.
        rewrite (Z.ones_spec_high 8 (n - 16)) by lia.
        rewrite !Bool.andb_false_r. simpl.
        destruct (Z.ltb_spec n 32).
        -- rewrite Z.ones_spec_low by lia.
           rewrite Bool.andb_true_r. f_equal; lia.
        -- rewrite Z.ones_spec_high by lia.
           rewrite Bool.andb_false_r.
           replace (n - 24 + 24) with n by lia.
           symmetry. apply (Z.bits_above_log2 v n); [lia|].
           destruct (Z.eq_dec v 0) as [->|Hz]; [simpl; lia|].
           apply Z.log2_lt_pow2; [lia|].
           apply Z.lt_le_trans with (2 ^ 32); [simpl; lia|].
           apply Z.pow_le_mono_r; lia.
Qed.




(** ** The FAT table (claim C3) *)

Lemma to_u32_small x : 0 <= x < 4294967296 -> to_u32 x = x.
Proof. intros H. unfold to_u32. now apply Z.mod_small. Qed.

Lemma to_u16_small x : 0 <= x < 65536 -> to_u16 x = x.
Proof. intros H. unfold to_u16. now apply Z.mod_small. Qed.

Lemma fat_lba_of_eq s c :
  mounted s -> 2 <= c < 1073741824 ->
  fat_lba_of s c = fat_base s + (c * 4) / sector_size s.
Proof.
  intros (_ & Hss & H4 & Hfb) Hc. unfold fat_lba_of.
  rewrite (to_u32_small (c * 4)) by lia.
  apply to_u32_small.
  assert (4 <= sector_size s).
  { apply Z.mod_divide in H4; [|lia]. destruct H4 as [k Hk]. lia. }
  assert (0 <= c * 4 / sector_size s) by (apply Z.div_pos; lia).
  assert (c * 4 / sector_size s <= c)
    by (apply Z.div_le_upper_bound; nia).
  lia.
Qed.

Lemma entry_offset_of_eq s c :
  mounted s -> 2 <= c < 1073741824 ->
  entry_offset_of s c = (c * 4) mod sector_size s /\
  0 <= entry_offset_of s c /\ entry_offset_of s c + 3 < 512 /\
  entry_offset_of s c mod 4 = 0.
Proof.
  intros (_ & Hss & H4 & _) Hc. unfold entry_offset_of.
  rewrite (to_u32_small (c * 4)) by lia.
  pose proof (Z.mod_pos_bound (c * 4) (sector_size s) ltac:(lia)) as Hb.
  assert (Hm : ((c * 4) mod sector_size s) mod 4 = 0).
  { apply Z.mod_divide in H4; [|lia]. destruct H4 as [k Hk].
    rewrite (Z.mod_eq (c * 4) (sector_size s)) by lia.
    replace (c * 4 - sector_size s * (c * 4 / sector_size s))
      with ((c - k * (c * 4 / sector_size s)) * 4) by (rewrite Hk at 2; ring).
    apply Z.mod_mul. lia. }
  repeat split; try lia.
  assert (Hs4 : sector_size s mod 4 = 0) by exact H4.
  apply Z.mod_divide in Hs4; [|lia]. destruct Hs4 as [k Hk].
  apply Z.mod_divide in Hm; [|lia]. destruct Hm as [j Hj].
  lia.
Qed.










(** ** The allocator scan (claim C10) *)

Lemma scan_free_range n : forall c s c' s',
  scan_free n c s = (Some c', s') -> c <= c' < c + Z.of_nat n.
Proof.
  induction n as [|n IH]; intros c s c' s' H; simpl in H.
  - discriminate.
  - destruct (fat_entry c 0 false s) as [v s1].
    destruct (v =? CLUSTER_FREE).
    + inversion H; subst. lia.
    + apply IH in H. lia.
Qed.

Lemma scan_free_reads_free n : forall c s c' s',
  scan_free n c s = (Some c', s') ->
  exists s0, fat_entry c' 0 false s0 = (CLUSTER_FREE, s').
Proof.
  induction n as [|n IH]; intros c s c' s' H; simpl in H.
  - discriminate.
  - destruct (fat_entry c 0 false s) as [v s1] eqn:E.
    destruct (Z.eqb_spec v CLUSTER_FREE).
    + inversion H; subst. now exists s.
    + now apply IH in H.
Qed.

(** The scan only ever stops at a cluster below 65535, which it read as
    FREE: its bounds are the 16-bit hint and the 16-bit [last_cluster]. *)
Lemma fat_search_scan_found s h c s' :
  0 <= h < 65536 -> 0 <= last_cluster s < 65536 ->
  fat_search_scan h s = (Some c, s') ->
  2 <= c < 65535 /\ exists s0, fat_entry c 0 false s0 = (CLUSTER_FREE, s').
Proof.
  intros Hh Hl H. unfold fat_search_scan in H.
  set (start := if 2 <=? h then h else 2) in H.
  assert (Hs : 2 <= start < 65536).
  { unfold start. destruct (Z.leb_spec 2 h); lia. }
  destruct (scan_free (Z.to_nat (last_cluster s - start)) start s)
    as [[c1|] s1] eqn:E1.
  - inversion H; subst. split.
    + apply scan_free_range in E1. lia.
    + eapply scan_free_reads_free; eauto.
  - split.
    + apply scan_free_range in H. lia.
    + eapply scan_free_reads_free; eauto.
Qed.

(** C10, as the code has it.  [fat_search_available_cluster] takes its
    hint as a 16-bit value (the callers' cluster number modulo 2^16) and
    returns the cluster [c] found FREE as [c mod 2^16]; since the scan is
    bounded by the 16-bit hint and the 16-bit [last_cluster], it only
    reaches clusters below 65535, so the value returned is exactly the
    cluster whose entry was read as FREE, and 0 when there is none. *)
Theorem fat_search_16bit (s : FAT32) (hint : Z) :
  0 <= last_cluster s < 65536 ->
  fat_search_available_cluster hint s
    = fat_search_available_cluster (hint mod 65536) s /\
  (forall c s', fat_search_scan (to_u16 hint) s = (Some c, s') ->
     fat_search_available_cluster hint s = (c mod 65536, s') /\
     2 <= c < 65535 /\ c mod 65536 = c /\
     exists s0, fat_entry c 0 false s0 = (CLUSTER_FREE, s')) /\
  (forall s', fat_search_scan (to_u16 hint) s = (None, s') ->
     fat_search_available_cluster hint s = (0, s')).
Proof.
  intros Hl. split; [|split].
  - unfold fat_search_available_cluster, to_u16.
    now rewrite Z.mod_mod by lia.
  - intros c s' H.
    assert (Hh : 0 <= to_u16 hint < 65536)
      by (unfold to_u16; apply Z.mod_pos_bound; lia).
    destruct (fat_search_scan_found _ _ _ _ Hh Hl H) as [Hc Hfree].
    unfold fat_search_available_cluster. rewrite H.
    repeat split; auto; try lia.
    apply Z.mod_small. lia.
  - intros s' H. unfold fat_search_available_cluster. now rewrite H.
Qed.

Lemma fat_search_16bit_witness :
  0 <= last_cluster fresh_volume < 65536 /\
  fat_search_available_cluster 65538 fresh_volume
    = fat_search_available_cluster (65538 mod 65536) fresh_volume.
Proof.
  assert (H : 0 <= last_cluster fresh_volume < 65536) by (simpl; lia).
  split; [exact H|].
  exact (proj1 (fat_search_16bit fresh_volume 65538 H)).
Defined.

(** The specification's consequence, that the number returned can differ
    from the cluster found FREE, has no instance. *)
Lemma fat_search_never_differs :
  ~ (exists s hint c s',
       0 <= last_cluster s < 65536 /\
       fat_search_scan (to_u16 hint) s = (Some c, s') /\
       fst (fat_search_available_cluster hint s) <> c).
Proof.
  intros (s & hint & c & s' & Hl & H & Hne).
  assert (Hh : 0 <= to_u16 hint < 65536)
    by (unfold to_u16; apply Z.mod_pos_bound; lia).
  destruct (fat_search_scan_found _ _ _ _ Hh Hl H) as [Hc _].
  unfold fat_search_available_cluster in Hne. rewrite H in Hne.
  simpl in Hne. apply Hne. unfold to_u16. apply Z.mod_small. lia.
Qed.

(** ** The filename parser (claim C7) *)

(** C7 at its failing inputs.  Every entry whose attribute byte is 0x0F
    has the volume-label bit 0x08 set, so the parser's first filter sends
    it to [_Error]: the long-name branch is never entered, the assembly
    index is left as it was and nothing but the terminator at index 0 is
    written. *)
Theorem lfn_entries_rejected (e out : list Z) (idx : Z) :
  Attributes e 0 = AT_LFN ->
  fat_filename_parser e out idx = (_Error, set_byte out 0 0, idx).
Proof.
  intros H. unfold fat_filename_parser. rewrite H.
  change (Z.land AT_LFN AT_VOLUME_ID =? 0) with false.
  rewrite Bool.andb_false_r.
  now destruct (negb (FileName e 0 0 =? FILE_CLEAR)).
Qed.

Lemma lfn_entries_rejected_witness :
  Attributes lfn_entry_A 0 = AT_LFN /\
  fat_filename_parser lfn_entry_A parsed_name0 0
  = (_Error, set_byte parsed_name0 0 0, 0).
Proof.
  split; [reflexivity|].
  apply (lfn_entries_rejected lfn_entry_A parsed_name0 0). reflexivity.
Defined.

(** ** SDCard::write_block (claim C6) *)

Module SDCardFacts.
Import SDCard.

Lemma mosi_spi_write_read x b : mosi (snd (spi_write_read x b)) = mosi b ++ [x].
Proof. unfold spi_write_read. now destruct (miso b). Qed.

Lemma mosi_spi_write_blocking src : forall b,
  mosi (spi_write_blocking src b) = mosi b ++ src.
Proof.
  induction src as [|x src IH]; intros b; simpl.
  - now rewrite app_nil_r.
  - rewrite IH, mosi_spi_write_read, <- app_assoc. reflexivity.
Qed.

Lemma mosi_poll_idle T start ts : forall b,
  exists k, mosi (snd (poll_idle T start ts b)) = mosi b ++ fill k.
Proof.
  induction ts as [|t ts IH]; intros b; simpl.
  - exists 0%nat. simpl. now rewrite app_nil_r.
  - destruct (to_u32 (t - start) <? T).
    + destruct (spi_write_read 255 b) as [r b1] eqn:E.
      assert (Hb : mosi b1 = mosi b ++ [255])
        by (change b1 with (snd (r, b1)); rewrite <- E; apply mosi_spi_write_read).
      destruct (r =? 255); simpl.
      * exists 1%nat. exact Hb.
      * destruct (IH b1) as [k Hk]. exists (S k).
        rewrite Hk, Hb, <- app_assoc. reflexivity.
    + exists 0%nat. simpl. now rewrite app_nil_r.
Qed.

Lemma mosi_wait_not_busy T b :
  exists k, mosi (snd (wait_not_busy T b)) = mosi b ++ fill k.
Proof.
  unfold wait_not_busy. destruct (clock b).
  - exists 0%nat. simpl. now rewrite app_nil_r.
  - apply mosi_poll_idle.
Qed.

Lemma mosi_read_r1 n : forall r b,
  exists j, (j <= n)%nat /\ (n <> 0%nat -> (1 <= j)%nat) /\
            mosi (snd (read_r1 n r b)) = mosi b ++ fill j.
Proof.
  induction n as [|n IH]; intros r b; simpl.
  - exists 0%nat. simpl. rewrite app_nil_r. repeat split; auto. congruence.
  - destruct (spi_write_read 255 b) as [r' b1] eqn:E.
    assert (Hb : mosi b1 = mosi b ++ [255])
      by (change b1 with (snd (r', b1)); rewrite <- E; apply mosi_spi_write_read).
    destruct (Z.land r' 128 =? 0); simpl.
    + exists 1%nat. repeat split; auto; lia.
    + destruct (IH r' b1) as (j & Hj & _ & Hm). exists (S j).
      repeat split; try lia. rewrite Hm, Hb, <- app_assoc. reflexivity.
Qed.

(** What a command with [keep_cs] puts on the wire: filler while the card
    is polled for readiness, then, unless the poll gave up (answer 0xFF),
    the six bytes of the packet once and filler while R1 is read. *)
Lemma mosi_send_command_core cmd arg b :
  exists k,
    (fst (send_command_core cmd arg true b) = 0xFF /\
     mosi (snd (send_command_core cmd arg true b)) = mosi b ++ fill k) \/
    exists j, (1 <= j <= 20)%nat /\
      mosi (snd (send_command_core cmd arg true b))
      = mosi b ++ fill k ++ command_packet cmd arg ++ fill j.
Proof.
  unfold send_command_core.
  destruct (if cmd =? CMD0 then (true, spi_cs_select b)
            else wait_ready WAIT_READY_DEFAULT_MS (spi_cs_select b))
    as [ready b1] eqn:E.
  assert (Hb1 : exists k, mosi b1 = mosi b ++ fill k).
  { destruct (cmd =? CMD0).
    - inversion E. exists 0%nat. simpl. now rewrite app_nil_r.
    - change b1 with (snd (ready, b1)). rewrite <- E.
      unfold wait_ready.
      destruct (mosi_wait_not_busy WAIT_READY_DEFAULT_MS (spi_cs_select b))
        as [k Hk]. exists k. exact Hk. }
  destruct Hb1 as [k Hb1]. exists k.
  destruct ready; cbn [negb].
  - right.
    destruct (mosi_read_r1 20 255
                (spi_write_blocking (command_packet cmd arg) b1))
      as (j & Hj & Hj1 & Hm).
    destruct (read_r1 20 255 (spi_write_blocking (command_packet cmd arg) b1))
      as [r1 b3].
    exists j. split; [split; [apply Hj1; discriminate|exact Hj]|].
    cbn [snd] in *. rewrite Hm, mosi_spi_write_blocking, Hb1.
    now rewrite <- !app_assoc.
  - left. split; [reflexivity|exact Hb1].
Qed.

Lemma mosi_data_phase buf b :
  mosi (data_phase buf b) = mosi b ++ [DATA_TOKEN] ++ sector512 buf ++ [0xFF; 0xFF].
Proof.
  unfold data_phase.
  rewrite !mosi_spi_write_read, mosi_spi_write_blocking, mosi_spi_write_read.
  now rewrite <- !app_assoc.
Qed.

(** What the status check puts on the wire: one filler byte, the CMD13
    exchange, one byte for R2 and one after the deselect. *)
Lemma mosi_status_check b :
  exists k,
    (fst (fst (status_check b)) = 0xFF /\
     mosi (snd (status_check b)) = mosi b ++ [0xFF] ++ fill k ++ [0xFF; 0xFF]) \/
    exists j, (1 <= j <= 20)%nat /\
      mosi (snd (status_check b))
      = mosi b ++ [0xFF] ++ fill k ++ [0x4D; 0; 0; 0; 0; 0x01] ++ fill j
          ++ [0xFF; 0xFF].
Proof.
  unfold status_check, send_command_keep_cs.
  set (b8 := spi_cs_select (snd (spi_write_read 255 (spi_cs_deselect b)))).
  assert (H8 : mosi b8 = mosi b ++ [255])
    by (unfold b8; simpl; now rewrite mosi_spi_write_read).
  destruct (mosi_send_command_core CMD13 0 b8) as [k H].
  destruct (send_command_core CMD13 0 true b8) as [r1 b9].
  destruct (spi_write_read 255 b9) as [r2 b10] eqn:E.
  assert (H10 : mosi b10 = mosi b9 ++ [255])
    by (change b10 with (snd (r2, b10)); rewrite <- E; apply mosi_spi_write_read).
  exists k. cbn [fst snd] in *.
  rewrite mosi_spi_write_read. cbn [mosi spi_cs_deselect]. rewrite H10.
  destruct H as [[Hr Hm]|(j & Hj & Hm)].
  - left. split; [exact Hr|]. rewrite Hm, H8. now rewrite <- !app_assoc.
  - right. exists j. split; [exact Hj|]. rewrite Hm, H8.
    change (command_packet CMD13 0) with [77; 0; 0; 0; 0; 1].
    now rewrite <- !app_assoc.
Qed.

(** The four argument bytes of a packet are the 32-bit argument, most
    significant byte first. *)
Lemma command_packet_bytes cmd arg :
  0 <= arg < 4294967296 ->
  exists a3 a2 a1 a0,
    command_packet cmd arg
    = [Z.lor 0x40 cmd; a3; a2; a1; a0;
       if cmd =? CMD0 then 0x95 else if cmd =? CMD8 then 0x87 else 0x01] /\
    is_byte a3 /\ is_byte a2 /\ is_byte a1 /\ is_byte a0 /\
    be32 a3 a2 a1 a0 = arg.
Proof.
  intros Ha. unfold command_packet, is_byte, be32.
  exists (Z.land (Z.shiftr arg 24) 255), (Z.land (Z.shiftr arg 16) 255),
         (Z.land (Z.shiftr arg 8) 255), (Z.land arg 255).
  split; [reflexivity|].
  change 255 with (Z.ones 8). rewrite !Z.land_ones by lia.
  rewrite !Z.shiftr_div_pow2 by lia.
  change (2 ^ 24) with 16777216. change (2 ^ 16) with 65536.
  change (2 ^ 8) with 256.
  pose proof (Z.mod_pos_bound (arg / 16777216) 256 ltac:(lia)).
  pose proof (Z.mod_pos_bound (arg / 65536) 256 ltac:(lia)).
  pose proof (Z.mod_pos_bound (arg / 256) 256 ltac:(lia)).
  pose proof (Z.mod_pos_bound arg 256 ltac:(lia)).
  repeat (split; [lia|]).
  pose proof (Z.div_mod arg 256 ltac:(lia)) as D0.
  pose proof (Z.div_mod (arg / 256) 256 ltac:(lia)) as D1.
  pose proof (Z.div_mod (arg / 65536) 256 ltac:(lia)) as D2.
  assert (E1 : arg / 256 / 256 = arg / 65536)
    by (rewrite Z.div_div by lia; reflexivity).
  assert (E2 : arg / 65536 / 256 = arg / 16777216)
    by (rewrite Z.div_div by lia; reflexivity).
  rewrite E1 in D1. rewrite E2 in D2.
  assert (H3 : 0 <= arg / 16777216 < 256).
  { split; [apply Z.div_pos; lia|apply Z.div_lt_upper_bound; lia]. }
  rewrite (Z.mod_small (arg / 16777216)) by lia.
  lia.
Qed.

(** A poll that gives up has either run out of clock readings or met a
    reading at least [T] milliseconds after its start. *)
Lemma poll_idle_gives_up T start ts : forall b b',
  poll_idle T start ts b = (false, b') ->
  clock b' = [] \/ exists t, In t ts /\ T <= to_u32 (t - start).
Proof.
  induction ts as [|t ts IH]; intros b b' H; simpl in H.
  - inversion H. now left.
  - destruct (Z.ltb_spec (to_u32 (t - start)) T).
    + destruct (spi_write_read 255 b) as [r b1].
      destruct (r =? 255); [discriminate|].
      destruct (IH _ _ H) as [Hc|(t' & Hin & Ht)]; [now left|].
      right. exists t'. split; [now right|exact Ht].
    + right. exists t. split; [now left|exact H0].
Qed.

(** A card that stays busy until a reading [T] milliseconds or more after
    the start makes the poll give up. *)
Lemma poll_idle_times_out T start : forall ts t rest b,
  within T start ts -> T <= to_u32 (t - start) -> busy_for (length ts) b ->
  fst (poll_idle T start (ts ++ t :: rest) b) = false.
Proof.
  induction ts as [|t0 ts IH]; intros t rest b Hw Ht Hb; cbn [app poll_idle].
  - destruct (Z.ltb_spec (to_u32 (t - start)) T); [lia|reflexivity].
  - inversion Hw as [|? ? H0 Hw']; subst.
    destruct (Z.ltb_spec (to_u32 (t0 - start)) T); [|lia].
    destruct Hb as [Hlen Hall]. unfold spi_write_read.
    destruct (miso b) as [|y ys] eqn:Em; cbn [length] in Hlen; [lia|].
    cbn [firstn length] in Hall. inversion Hall as [|? ? Hy Hall']; subst.
    destruct (Z.eqb_spec y 255); [contradiction|].
    apply IH; auto. split; cbn [miso]; [lia|exact Hall'].
Qed.

(** A card that releases the line at a poll made less than [T]
    milliseconds after the start makes the poll succeed. *)
Lemma poll_idle_released T start : forall ts t rest b,
  within T start (ts ++ [t]) -> busy_for (length ts) b ->
  nth (length ts) (miso b) 0xFF = 0xFF ->
  fst (poll_idle T start (ts ++ t :: rest) b) = true.
Proof.
  induction ts as [|t0 ts IH]; intros t rest b Hw Hb Hn; cbn [app poll_idle].
  - inversion Hw as [|? ? H0 Hw']; subst.
    destruct (Z.ltb_spec (to_u32 (t - start)) T); [|lia].
    unfold spi_write_read. cbn [length] in Hn.
    destruct (miso b) as [|y ys] eqn:Em; [reflexivity|].
    cbn [nth] in Hn. subst y. reflexivity.
  - cbn [app] in Hw. inversion Hw as [|? ? H0 Hw']; subst.
    destruct (Z.ltb_spec (to_u32 (t0 - start)) T); [|lia].
    destruct Hb as [Hlen Hall]. unfold spi_write_read.
    destruct (miso b) as [|y ys] eqn:Em; cbn [length] in Hlen; [lia|].
    cbn [firstn length] in Hall. inversion Hall as [|? ? Hy Hall']; subst.
    destruct (Z.eqb_spec y 255); [contradiction|].
    apply IH; auto. split; cbn [miso]; [lia|exact Hall'].
Qed.

(** The branches of [write_block], by the answers of the card. *)
Lemma write_block_branches sd lba buf :
  initialized sd = true ->
  forall r1 b1,
    send_command_keep_cs CMD24 (block_address sd lba) (bus sd) = (r1, b1) ->
    (r1 <> 0 ->
     write_block lba buf sd
     = (false, set_status SD_WRITE_COMMAND_FAILS (spi_cs_deselect b1) sd)) /\
    (r1 = 0 ->
     forall resp b6,
       spi_write_read 0xFF (data_phase buf b1) = (resp, b6) ->
       (Z.land resp 0x1F <> 0x05 ->
        write_block lba buf sd
        = (false, set_status SD_WRITE_DATA_FAILS (spi_cs_deselect b6) sd)) /\
       (Z.land resp 0x1F = 0x05 ->
        forall idle b7,
          wait_not_busy WRITE_TIMEOUT_MS b6 = (idle, b7) ->
          (idle = false ->
           write_block lba buf sd
           = (false, set_status SD_WRITE_TIMEOUT_BUSY (spi_cs_deselect b7) sd)) /\
          (idle = true ->
           forall r1' r2 b11,
             status_check b7 = (r1', r2, b11) ->
             (r1' <> 0 \/ r2 <> 0 ->
              write_block lba buf sd
              = (false, set_status SD_WRITE_STATUS_ERROR b11 sd)) /\
             (r1' = 0 /\ r2 = 0 ->
              write_block lba buf sd = (true, set_status SD_OK b11 sd))))).
Proof.
  intros Hinit r1 b1 E24. unfold write_block. rewrite Hinit. cbn [negb].
  cbv zeta. rewrite E24. split.
  - intros Hr1. destruct (Z.eqb_spec r1 0); [contradiction|]. reflexivity.
  - intros -> resp b6 E6. cbn [Z.eqb negb]. rewrite E6. split.
    + intros Hresp. destruct (Z.eqb_spec (Z.land resp 31) 5); [contradiction|].
      reflexivity.
    + intros Hresp idle b7 E7. rewrite Hresp. cbn [Z.eqb Pos.eqb negb].
      rewrite E7. split.
      * intros ->. reflexivity.
      * intros -> r1' r2 b11 E11. cbn [negb]. rewrite E11. split.
        -- intros H. destruct (Z.eqb_spec r1' 0), (Z.eqb_spec r2 0);
             cbn [negb orb]; try reflexivity. lia.
        -- intros [-> ->]. reflexivity.
Qed.

(** The bytes a write puts on the wire, by outcome. *)
Lemma write_block_wire sd lba buf :
  initialized sd = true -> 0 <= lba < 4294967296 ->
  write_trace (mosi (bus sd)) (block_address sd lba) buf
    (last_status (snd (write_block lba buf sd)))
    (mosi (bus (snd (write_block lba buf sd)))).
Proof.
  intros Hinit Hlba.
  assert (Ha : 0 <= block_address sd lba < 4294967296).
  { unfold block_address. destruct (card_type sd =? CARD_TYPE_SDHC); [exact Hlba|].
    apply Z.mod_pos_bound. lia. }
  destruct (command_packet_bytes CMD24 (block_address sd lba) Ha)
    as (a3 & a2 & a1 & a0 & Hp & H3 & H2 & H1 & H0 & Hbe).
  change (Z.lor 64 CMD24) with 88 in Hp. cbn [CMD24 CMD0 CMD8 Z.eqb Pos.eqb] in Hp.
  pose proof (write_block_branches sd lba buf Hinit) as Hbr.
  destruct (mosi_send_command_core CMD24 (block_address sd lba) (bus sd))
    as [k H24].
  unfold send_command_keep_cs in Hbr.
  destruct (send_command_core CMD24 (block_address sd lba) true (bus sd))
    as [r1 b1].
  specialize (Hbr r1 b1 eq_refl). destruct Hbr as [Hno Hyes].
  cbn [fst snd] in H24.
  unfold write_trace. exists k, a3, a2, a1, a0.
  split; [exact H3|]. split; [exact H2|]. split; [exact H1|].
  split; [exact H0|]. split; [exact Hbe|]. cbv zeta.
  destruct (Z.eq_dec r1 0) as [Hr1|Hr1].
  2:{ rewrite (Hno Hr1). cbn [fst snd last_status bus set_status mosi spi_cs_deselect].
      destruct H24 as [[_ Hm]|(j & Hj & Hm)].
      - left. split; [reflexivity|exact Hm].
      - right. exists j. split; [exact Hj|]. left.
        split; [reflexivity|]. rewrite Hm, Hp. now rewrite <- ?app_assoc. }
  destruct H24 as [[Hff _]|(j & Hj & Hm)]; [lia|].
  right. exists j. split; [exact Hj|]. right.
  specialize (Hyes Hr1).
  destruct (spi_write_read 255 (data_phase buf b1)) as [resp b6] eqn:E6.
  assert (H6 : mosi b6
               = (mosi (bus sd) ++ fill k) ++ [88; a3; a2; a1; a0; 1] ++ fill j
                   ++ [254] ++ sector512 buf ++ [255; 255; 255]).
  { change b6 with (snd (resp, b6)). rewrite <- E6.
    rewrite mosi_spi_write_read, mosi_data_phase, Hm, Hp.
    unfold DATA_TOKEN. rewrite <- ?app_assoc. reflexivity. }
  specialize (Hyes resp b6 eq_refl). destruct Hyes as [Hbad Hgood].
  destruct (Z.eq_dec (Z.land resp 31) 5) as [Hresp|Hresp].
  2:{ left. rewrite (Hbad Hresp).
      cbn [fst snd last_status bus set_status mosi spi_cs_deselect].
      split; [reflexivity|]. rewrite H6. now rewrite <- ?app_assoc. }
  right. specialize (Hgood Hresp).
  destruct (mosi_wait_not_busy WRITE_TIMEOUT_MS b6) as [m Hm7].
  destruct (wait_not_busy WRITE_TIMEOUT_MS b6) as [idle b7].
  specialize (Hgood idle b7 eq_refl). destruct Hgood as [Hto Hidle].
  cbn [snd] in Hm7. exists m.
  destruct idle.
  2:{ left. rewrite (Hto eq_refl).
      cbn [fst snd last_status bus set_status mosi spi_cs_deselect].
      split; [reflexivity|]. rewrite Hm7, H6. now rewrite <- ?app_assoc. }
  right. specialize (Hidle eq_refl).
  destruct (mosi_status_check b7) as [k' Hsc].
  destruct (status_check b7) as [[r1' r2] b11].
  specialize (Hidle r1' r2 b11 eq_refl). destruct Hidle as [Herr Hok].
  cbn [fst snd] in Hsc. exists k'.
  assert (Hst : (r1' <> 0 \/ r2 <> 0) \/ (r1' = 0 /\ r2 = 0)) by lia.
  destruct Hsc as [[Hff Hm11]|(j' & Hj' & Hm11)].
  - left. rewrite (Herr ltac:(lia)).
    cbn [fst snd last_status bus set_status mosi].
    split; [reflexivity|]. rewrite Hm11, Hm7, H6. now rewrite <- ?app_assoc.
  - right. exists j'. split; [exact Hj'|].
    destruct Hst as [Hst|Hst].
    + rewrite (Herr Hst). cbn [fst snd last_status bus set_status mosi].
      split; [now left|]. rewrite Hm11, Hm7, H6. now rewrite <- ?app_assoc.
    + rewrite (Hok Hst). cbn [fst snd last_status bus set_status mosi].
      split; [now right|]. rewrite Hm11, Hm7, H6. now rewrite <- ?app_assoc.
Qed.

End SDCardFacts.

(** C6, as the code has it.  For a write of block [lba] (a [uint32_t]) on
    an initialised card, with the address [lba] for SDHC and [lba * 512]
    in 32 bits otherwise:
    - the result is [true] exactly when the status recorded is [SD_OK];
    - the bytes put on the wire are, in this order: filler while the card
      is polled for readiness; the CMD24 packet, whose four argument
      bytes are the address, most significant first; filler while R1 is
      read; the data token, the 512 bytes of the block and three filler
      bytes (dummy CRC and data response); filler while the card is
      polled for not-busy; and the CMD13 exchange of the status check.
      Each outcome stops at its place in that sequence: a packet or the
      block is never sent a second time (no retry);
    - a CMD24 that is not accepted (R1 not 0, which includes a card that
      does not get ready) gives [false] with [SD_WRITE_COMMAND_FAILS];
    - a data response whose low five bits are not 0x05 gives [false] with
      [SD_WRITE_DATA_FAILS];
    - a card that holds the line busy at every poll until a reading of
      the clock 600 ms or more after the start of the poll gives [false]
      with [SD_WRITE_TIMEOUT_BUSY]; a card that releases the line at a
      poll made less than 600 ms after the start does not; and a poll
      that gave up has met such a reading or run out of readings;
    - a status check with R1 or R2 not 0 gives [false] with
      [SD_WRITE_STATUS_ERROR];
    - otherwise the result is [true] with [SD_OK]. *)
Theorem write_block_outcomes (sd : SDCard.SDCard) (lba : Z) (buf : list Z) :
  SDCard.initialized sd = true ->
  0 <= lba < 4294967296 ->
  let addr := if SDCard.card_type sd =? SDCard.CARD_TYPE_SDHC then lba
              else (lba * 512) mod 4294967296 in
  let r := SDCard.write_block lba buf sd in
  let st := SDCard.last_status (snd r) in
  (fst r = true <-> st = SDCard.SD_OK) /\
  SDCard.write_trace (SDCard.mosi (SDCard.bus sd)) addr buf st
    (SDCard.mosi (SDCard.bus (snd r))) /\
  (forall r1 b1,
     SDCard.send_command_keep_cs SDCard.CMD24 addr (SDCard.bus sd) = (r1, b1) ->
     (r1 <> 0 -> fst r = false /\ st = SDCard.SD_WRITE_COMMAND_FAILS) /\
     (r1 = 0 ->
      forall resp b6,
        SDCard.spi_write_read 0xFF (SDCard.data_phase buf b1) = (resp, b6) ->
        (Z.land resp 0x1F <> 0x05 ->
         fst r = false /\ st = SDCard.SD_WRITE_DATA_FAILS) /\
        (Z.land resp 0x1F = 0x05 ->
         (forall start ts t rest,
            SDCard.clock b6 = start :: ts ++ t :: rest ->
            SDCard.within 600 start ts -> 600 <= to_u32 (t - start) ->
            SDCard.busy_for (length ts) b6 ->
            fst r = false /\ st = SDCard.SD_WRITE_TIMEOUT_BUSY) /\
         (forall start ts t rest,
            SDCard.clock b6 = start :: ts ++ t :: rest ->
            SDCard.within 600 start (ts ++ [t]) ->
            SDCard.busy_for (length ts) b6 ->
            nth (length ts) (SDCard.miso b6) 0xFF = 0xFF ->
            st = SDCard.SD_WRITE_STATUS_ERROR \/ st = SDCard.SD_OK) /\
         (forall idle b7,
            SDCard.wait_not_busy SDCard.WRITE_TIMEOUT_MS b6 = (idle, b7) ->
            (idle = false ->
             fst r = false /\ st = SDCard.SD_WRITE_TIMEOUT_BUSY /\
             (SDCard.clock b7 = [] \/
              exists start t,
                hd_error (SDCard.clock b6) = Some start /\
                In t (SDCard.clock b6) /\ 600 <= to_u32 (t - start))) /\
            (idle = true ->
             forall r1' r2 b11,
               SDCard.status_check b7 = (r1', r2, b11) ->
               (r1' <> 0 \/ r2 <> 0 ->
                fst r = false /\ st = SDCard.SD_WRITE_STATUS_ERROR) /\
               (r1' = 0 /\ r2 = 0 ->
                fst r = true /\ st = SDCard.SD_OK)))))).
Proof.
  intros Hinit Hlba addr r st.
  change addr with (SDCard.block_address sd lba).
  pose proof (SDCardFacts.write_block_wire sd lba buf Hinit Hlba) as Hwire.
  fold r in Hwire. fold st in Hwire.
  split.
  { (* the result is true exactly for SD_OK *)
    unfold SDCard.write_trace in Hwire.
    pose proof (SDCardFacts.write_block_branches sd lba buf Hinit) as Hbr.
    destruct (SDCard.send_command_keep_cs SDCard.CMD24
                (SDCard.block_address sd lba) (SDCard.bus sd)) as [r1 b1].
    destruct (Hbr r1 b1 eq_refl) as [Hno Hyes]. clear Hbr.
    destruct (Z.eq_dec r1 0) as [Hr1|Hr1];
      [|unfold st, r; rewrite (Hno Hr1); split; discriminate].
    destruct (SDCard.spi_write_read 255 (SDCard.data_phase buf b1))
      as [resp b6].
    destruct (Hyes Hr1 resp b6 eq_refl) as [Hbad Hgood].
    destruct (Z.eq_dec (Z.land resp 31) 5) as [Hresp|Hresp];
      [|unfold st, r; rewrite (Hbad Hresp); split; discriminate].
    destruct (SDCard.wait_not_busy SDCard.WRITE_TIMEOUT_MS b6) as [idle b7].
    destruct (Hgood Hresp idle b7 eq_refl) as [Hto Hidle].
    destruct idle; [|unfold st, r; rewrite (Hto eq_refl); split; discriminate].
    destruct (SDCard.status_check b7) as [[r1' r2] b11].
    destruct (Hidle eq_refl r1' r2 b11 eq_refl) as [Herr Hok].
    assert (Hst : (r1' <> 0 \/ r2 <> 0) \/ (r1' = 0 /\ r2 = 0)) by lia.
    destruct Hst as [Hst|Hst].
    - unfold st, r. rewrite (Herr Hst). split; discriminate.
    - unfold st, r. rewrite (Hok Hst). split; reflexivity. }
  split; [exact Hwire|].
  intros r1 b1 E24.
  destruct (SDCardFacts.write_block_branches sd lba buf Hinit r1 b1 E24)
    as [Hno Hyes].
  split.
  { intros Hr1. unfold st, r. rewrite (Hno Hr1). split; reflexivity. }
  intros Hr1 resp b6 E6.
  destruct (Hyes Hr1 resp b6 E6) as [Hbad Hgood].
  split.
  { intros Hresp. unfold st, r. rewrite (Hbad Hresp). split; reflexivity. }
  intros Hresp. specialize (Hgood Hresp).
  split.
  { (* busy past the timeout *)
    intros start ts t rest Hclk Hw Ht Hb.
    pose proof (SDCardFacts.poll_idle_times_out 600 start ts t rest b6 Hw Ht Hb)
      as Hp.
    destruct (SDCard.wait_not_busy SDCard.WRITE_TIMEOUT_MS b6) as [idle b7] eqn:E7.
    unfold SDCard.wait_not_busy in E7. rewrite Hclk in E7.
    change SDCard.WRITE_TIMEOUT_MS with 600 in *. rewrite E7 in Hp.
    cbn [fst] in Hp. subst idle.
    destruct (Hgood false b7 eq_refl) as [Hto _].
    unfold st, r. rewrite (Hto eq_refl). split; reflexivity. }
  split.
  { (* released in time *)
    intros start ts t rest Hclk Hw Hb Hn.
    pose proof (SDCardFacts.poll_idle_released 600 start ts t rest b6 Hw Hb Hn)
      as Hp.
    destruct (SDCard.wait_not_busy SDCard.WRITE_TIMEOUT_MS b6) as [idle b7] eqn:E7.
    unfold SDCard.wait_not_busy in E7. rewrite Hclk in E7.
    change SDCard.WRITE_TIMEOUT_MS with 600 in *. rewrite E7 in Hp.
    cbn [fst] in Hp. subst idle.
    destruct (Hgood true b7 eq_refl) as [_ Hidle].
    destruct (SDCard.status_check b7) as [[r1' r2] b11].
    destruct (Hidle eq_refl r1' r2 b11 eq_refl) as [Herr Hok].
    assert (Hst : (r1' <> 0 \/ r2 <> 0) \/ (r1' = 0 /\ r2 = 0)) by lia.
    destruct Hst as [Hst|Hst].
    - left. unfold st, r. now rewrite (Herr Hst).
    - right. unfold st, r. now rewrite (Hok Hst). }
  intros idle b7 E7.
  destruct (Hgood idle b7 E7) as [Hto Hidle].
  split.
  { intros ->. unfold st, r. rewrite (Hto eq_refl).
    split; [reflexivity|]. split; [reflexivity|].
    unfold SDCard.wait_not_busy in E7.
    destruct (SDCard.clock b6) as [|start ts] eqn:Ec.
    - inversion E7; subst. now left.
    - destruct (SDCardFacts.poll_idle_gives_up _ _ _ _ _ E7)
        as [Hc|(t & Hin & Ht)]; [now left|].
      right. exists start, t. repeat split; auto. now right. }
  intros -> r1' r2 b11 E11.
  destruct (Hidle eq_refl r1' r2 b11 E11) as [Herr Hok].
  split.
  - intros Hst. unfold st, r. rewrite (Herr Hst). split; reflexivity.
  - intros Hst. unfold st, r. rewrite (Hok Hst). split; reflexivity.
Qed.

Lemma write_block_outcomes_witness :
  SDCard.initialized SDCard.busy_card = true /\
  0 <= 7 < 4294967296 /\
  fst (SDCard.write_block 7 [1; 2; 3] SDCard.busy_card) = false /\
  SDCard.last_status (snd (SDCard.write_block 7 [1; 2; 3] SDCard.busy_card))
  = SDCard.SD_WRITE_TIMEOUT_BUSY.
Proof.
  split; [reflexivity|]. split; [lia|].
  destruct (write_block_outcomes SDCard.busy_card 7 [1; 2; 3] eq_refl
              ltac:(lia)) as (_ & _ & H).
  set (x := SDCard.send_command_keep_cs SDCard.CMD24 3584
              (SDCard.bus SDCard.busy_card)).
  destruct (H (fst x) (snd x) (surjective_pairing x)) as [_ H1].
  set (y := SDCard.spi_write_read 255
              (SDCard.data_phase [1; 2; 3] (snd x))).
  destruct (H1 eq_refl (fst y) (snd y) (surjective_pairing y)) as [_ H2].
  destruct (H2 eq_refl) as [H3 _].
  apply (H3 1000 [1100; 1300; 1599] 1600 [1601]).
  - reflexivity.
  - repeat constructor.
  - now vm_compute.
  - split; [vm_compute; lia|].
    change (firstn 3 (SDCard.miso (snd y))) with [0; 0; 0].
    repeat constructor; discriminate.
Defined.

(** On [slow_card] the line is released at the poll made 599 ms after
    the start: the poll succeeds and the write goes through. *)
Lemma write_block_released_at_599 :
  fst (SDCard.write_block 7 [1; 2; 3] SDCard.slow_card) = true /\
  SDCard.last_status (snd (SDCard.write_block 7 [1; 2; 3] SDCard.slow_card))
  = SDCard.SD_OK.
Proof. split; reflexivity. Qed.

(** A card that answers CMD24 with R1 = 0x04: the write returns [false]
    with [SD_WRITE_COMMAND_FAILS], which is none of the four outcomes the
    specification lists. *)
Lemma write_block_command_refused :
  SDCard.initialized SDCard.rejecting_card = true /\
  fst (SDCard.write_block 7 [1; 2; 3] SDCard.rejecting_card) = false /\
  SDCard.last_status (snd (SDCard.write_block 7 [1; 2; 3] SDCard.rejecting_card))
  = SDCard.SD_WRITE_COMMAND_FAILS /\
  ~ SDCard.listed_outcome (SDCard.write_block 7 [1; 2; 3] SDCard.rejecting_card).
Proof.
  split; [reflexivity|]. split; [reflexivity|]. split; [reflexivity|].
  unfold SDCard.listed_outcome.
  replace (SDCard.last_status
             (snd (SDCard.write_block 7 [1; 2; 3] SDCard.rejecting_card)))
    with SDCard.SD_WRITE_COMMAND_FAILS by reflexivity.
  replace (fst (SDCard.write_block 7 [1; 2; 3] SDCard.rejecting_card))
    with false by reflexivity.
  intros [[_ H]|[[_ H]|[[_ H]|[H _]]]]; discriminate.
Qed.

(** ** Evaluations on the freshly formatted volume (claims C1, C5, C9) *)

(** C1 at its failing inputs.  Two writes of two bytes each: the second
    write goes to the next sector, so the four bytes read back are the
    first two followed by two zeros.  A write to B.TXT in a directory
    that already holds the empty file A.TXT: first cluster and size are
    attached to A.TXT's entry, and B.TXT reads back empty. *)
Theorem round_trip_broken :
  round_trip 16 (str "A.TXT") [str "AB"; str "CD"] fresh_volume
  = Some (FILE_CREATE_OK, FILE_FOUND, 4, str "AB" ++ [0; 0]) /\
  and_then (with_empty_file (str "A.TXT") fresh_volume)
           (round_trip 16 (str "B.TXT") [str "hi"])
  = Some (FILE_CREATE_OK, FILE_FOUND, 0, []).
Proof. split; vm_compute; reflexivity. Qed.

(** C5 at its failing input.  On the freshly formatted volume the count
    of free clusters is 509 and one cluster (the root directory) is in
    use, but the volume has 251 clusters; after a one-cluster file has
    been written the numbers are 508, 2 and 251. *)
Theorem free_count_mismatch :
  fst (count_free_clusters fresh_volume) = 509 /\
  clusters_in_use fresh_volume = 1 /\
  total_clusters fresh_volume = 251 /\
  and_then test_txt_open
    (fun s => Some (fst (count_free_clusters s), clusters_in_use s,
                    total_clusters s))
  = Some (508, 2, 251).
Proof. repeat split; vm_compute; reflexivity. Qed.

(** C9 at its failing input.  With a directory D made by
    [create_directory] and a file F.TXT in the root, the path D/../F.TXT
    opens F.TXT: ".." is looked up in D like any name and matches the
    entry [create_directory] wrote there.  A leading ".." is refused, and
    "." is ignored. *)
Theorem dotdot_resolved_through_entry :
  and_then volume_with_dir
    (fun s => option_map fst (file_open 16 (str "D/../F.TXT") READ s))
  = Some FILE_FOUND /\
  and_then volume_with_dir
    (fun s => option_map fst (file_open 16 (str "../F.TXT") READ s))
  = Some FILE_NOT_FOUND /\
  and_then volume_with_dir
    (fun s => option_map fst (file_open 16 (str "./F.TXT") READ s))
  = Some FILE_FOUND.
Proof. repeat split; vm_compute; reflexivity. Qed.

(** ** Frames and invariants of the table operations *)

Lemma geometry_mounted s s' :
  geometry s' = geometry s -> mounted s -> mounted s'.
Proof.
  unfold geometry, mounted. intros H. injection H as -> _ _ -> _ -> _ _ _ _ _.
  auto.
Qed.

Lemma after_load_facts s lba :
  cache_coherent s ->
  geometry (after_load s lba) = geometry s /\
  read_buffer (after_load s lba) = read_buffer s /\
  read_handler (after_load s lba) = read_handler s /\
  write_handler (after_load s lba) = write_handler s /\
  lfn_index (after_load s lba) = lfn_index s /\
  blocks (sd_card (after_load s lba)) = blocks (sd_card s) /\
  fault (sd_card (after_load s lba)) = fault (sd_card s) /\
  (ticks (sd_card s) <= ticks (sd_card (after_load s lba)))%nat /\
  fat_cache_valid (after_load s lba) = true /\
  fat_cache_sector (after_load s lba) = lba /\
  fat_cache (after_load s lba) = sector512 (blocks (sd_card s) lba).
Proof.
  intros Hco. unfold after_load.
  destruct (cache_hit s lba) eqn:E.
  - unfold cache_hit in E. apply Bool.andb_true_iff in E as [Ev Es].
    apply Z.eqb_eq in Es. repeat split; auto. rewrite <- Es. now apply Hco.
  - simpl. repeat split; auto.
Qed.

Lemma no_faults_later s s' :
  fault (sd_card s') = fault (sd_card s) ->
  (ticks (sd_card s) <= ticks (sd_card s'))%nat ->
  no_faults s -> no_faults s'.
Proof.
  intros Hf Ht H n Hn. rewrite Hf. apply H. lia.
Qed.

Lemma after_load_healthy s lba : healthy s -> healthy (after_load s lba).
Proof.
  intros (Hm & Hco & Hnf).
  destruct (after_load_facts s lba Hco)
    as (Hg & _ & _ & _ & _ & Hb & Hf & Ht & Hv & Hs & Hc).
  split; [eapply geometry_mounted; eauto|]. split.
  - intros _. now rewrite Hc, Hs, Hb.
  - eapply no_faults_later; eauto.
Qed.

(** The load step of [fat_entry], when the sector is cached or loads. *)
Lemma fat_entry_load s lba :
  cache_hit s lba = true \/ next_transfer_ok s ->
  (if negb (fat_cache_valid s) || negb (fat_cache_sector s =? lba) then
     match blk_read lba (sd_card s) with
     | (Some data, d) => (true, set_fat_cache lba true data (set_sd_card d s))
     | (None, d) =>
         (false, set_fat_cache (fat_cache_sector s) false (fat_cache s)
                   (set_sd_card d s))
     end
   else (true, s)) = (true, after_load s lba).
Proof.
  intros Hav. unfold after_load, cache_hit in *.
  destruct (fat_cache_valid s), (fat_cache_sector s =? lba); simpl in *; auto.
  all: destruct Hav as [Hh|Hok]; [discriminate|].
  all: unfold next_transfer_ok in Hok; unfold blk_read; now rewrite Hok.
Qed.

Lemma fat_entry_read_eq s c v :
  mounted s -> cache_coherent s -> 2 <= c < 1073741824 ->
  cache_hit s (fat_sector s c) = true \/ next_transfer_ok s ->
  fat_entry c v false s = (disk_fat s c, after_load s (fat_sector s c)).
Proof.
  intros Hm Hco Hc Hav.
  pose proof (fat_lba_of_eq s c Hm Hc) as Hlba.
  destruct (entry_offset_of_eq s c Hm Hc) as (Hoff & _).
  destruct (after_load_facts s (fat_sector s c) Hco)
    as (_ & _ & _ & _ & _ & _ & _ & _ & _ & _ & Hcache).
  unfold fat_entry.
  replace (initialized s) with true by (symmetry; apply Hm). simpl negb.
  destruct (Z.ltb_spec c 2); [lia|]. simpl orb. cbv iota.
  rewrite Hlba, Hoff. fold (fat_sector s c).
  rewrite (fat_entry_load s (fat_sector s c) Hav). simpl negb. cbv iota.
  rewrite Hcache. reflexivity.
Qed.




Lemma disk_fat_same s s' :
  blocks (sd_card s') = blocks (sd_card s) -> geometry s' = geometry s ->
  forall x, disk_fat s' x = disk_fat s x.
Proof.
  intros Hb Hg x. unfold disk_fat, disk_fat_raw. rewrite Hb.
  unfold geometry in Hg. injection Hg as _ _ _ -> _ -> _ _ _ _ _.
  reflexivity.
Qed.

(** Reading an entry: the value on the medium; nothing but the cache line
    and the transfer count changes. *)
Lemma fat_entry_read_facts s c v :
  healthy s -> 2 <= c < 1073741824 ->
  fst (fat_entry c v false s) = disk_fat s c /\
  healthy (snd (fat_entry c v false s)) /\
  geometry (snd (fat_entry c v false s)) = geometry s /\
  read_buffer (snd (fat_entry c v false s)) = read_buffer s /\
  read_handler (snd (fat_entry c v false s)) = read_handler s /\
  write_handler (snd (fat_entry c v false s)) = write_handler s /\
  lfn_index (snd (fat_entry c v false s)) = lfn_index s /\
  blocks (sd_card (snd (fat_entry c v false s))) = blocks (sd_card s).
Proof.
  intros Hh Hc. destruct Hh as (Hm & Hco & Hnf).
  rewrite fat_entry_read_eq; auto.
  2:{ right. apply Hnf. lia. }
  simpl fst. simpl snd.
  destruct (after_load_facts s (fat_sector s c) Hco)
    as (Hg & Hrb & Hrh & Hwh & Hl & Hb & _).
  split; [reflexivity|].
  split; [apply after_load_healthy; repeat split; auto; apply Hm|].
  repeat split; auto.
Qed.


(** ** Freeing a chain *)



(** ** The directory scan of file_open *)

(** The long-name branch of the parser is never taken. *)
Lemma parser_types e out idx :
  let '(type, _, idx') := fat_filename_parser e out idx in
  idx' = idx /\
  (type = _Error \/
   (type = _Directory /\ is_directory e = true) \/
   (type = _File /\ is_directory e = false)).
Proof.
  unfold fat_filename_parser, is_directory.
  destruct (negb (FileName e 0 0 =? FILE_CLEAR)); [|auto].
  destruct (negb (FileName e 0 0 =? FILE_ERASED)); simpl; [|auto].
  destruct (Z.eqb_spec (Z.land (Attributes e 0) AT_VOLUME_ID) 0) as [Hv|Hv];
    [|auto].
  destruct (Z.eqb_spec (Attributes e 0) AT_LFN) as [Hl|Hl].
  - rewrite Hl in Hv. discriminate.
  - destruct (Z.land (Attributes e 0) AT_DIRECTORY =? 0); simpl; auto.
Qed.

Lemma get_physical_block_facts lba s :
  let r := get_physical_block lba s in
  geometry (snd r) = geometry s /\
  blocks (sd_card (snd r)) = blocks (sd_card s) /\
  fault (sd_card (snd r)) = fault (sd_card s) /\
  ticks (sd_card (snd r)) = S (ticks (sd_card s)) /\
  fat_cache (snd r) = fat_cache s /\
  fat_cache_valid (snd r) = fat_cache_valid s /\
  fat_cache_sector (snd r) = fat_cache_sector s /\
  read_handler (snd r) = read_handler s /\
  write_handler (snd r) = write_handler s /\
  lfn_index (snd r) = lfn_index s /\
  (fst r = true -> holds_sector lba (snd r)) /\
  (fst r = false -> read_buffer (snd r) = read_buffer s) /\
  (next_transfer_ok s -> fst r = true).
Proof.
  unfold get_physical_block, blk_read, next_transfer_ok, holds_sector.
  destruct (fault (sd_card s) (ticks (sd_card s))); simpl;
    repeat split; auto; discriminate.
Qed.


Section ScanInvariant.

Variable P : FAT32 -> Prop.
Hypothesis P_read : forall s lba, P s -> P (snd (get_physical_block lba s)).
Hypothesis P_fat :
  forall s c, valid_cluster c = true -> P s -> P (snd (fat_entry c 0 false s)).
Hypothesis P_lfn : forall s i, P s -> P (set_lfn_index i s).

Lemma scan_entries_inv n : forall i fuel f name is_last lba ln s,
  P s -> holds_sector lba s ->
  0 <= i -> Z.of_nat n + i <= Z.of_nat (ents_per_sector s) ->
  match scan_entries n i fuel f name is_last lba false ln s with
  | Returned r => is_last = true /\ matched P f name r
  | Found dc s' => P s' /\ valid_cluster dc = true
  | Pending lf _ s' => P s' /\ lf = false
  end.
Proof.
  induction n as [|n IH]; intros i fuel f name is_last lba ln s HP Hs Hi Hn;
    cbn [scan_entries]; [auto|].
  destruct (FileName (entry_at (read_buffer s) i) 0 0 =? FILE_CLEAR); [auto|].
  destruct (FileName (entry_at (read_buffer s) i) 0 0 =? FILE_ERASED).
  { apply IH; auto; lia. }
  pose proof (parser_types (entry_at (read_buffer s) i) parsed_name0
                (lfn_index s)) as Hp.
  destruct (fat_filename_parser (entry_at (read_buffer s) i) parsed_name0
              (lfn_index s)) as [[type parsed] idx].
  destruct Hp as [-> Hty].
  assert (HP1 : P (set_lfn_index (lfn_index s) s)) by now apply P_lfn.
  assert (Hs1 : holds_sector lba (set_lfn_index (lfn_index s) s)) by exact Hs.
  assert (Hrec : forall ln',
    match scan_entries n (i + 1) fuel f name is_last lba false ln'
            (set_lfn_index (lfn_index s) s) with
    | Returned r => is_last = true /\ matched P f name r
    | Found dc s' => P s' /\ valid_cluster dc = true
    | Pending lf _ s' => P s' /\ lf = false
    end).
  { intros ln'. apply IH; auto; try lia.
    change (ents_per_sector (set_lfn_index (lfn_index s) s))
      with (ents_per_sector s). lia. }
  destruct Hty as [->|[[-> Hd]|[-> Hd]]]; cbv iota; [apply Hrec| |].
  - (* a directory entry *)
    simpl andb. cbv iota.
    destruct (iequals (dos_name_dir (entry_at (read_buffer s) i)) name);
      [|apply Hrec].
    destruct is_last.
    + split; [reflexivity|].
      exists fuel, i, lba, (set_lfn_index (lfn_index s) s).
      repeat split; auto; try lia.
      * change (ents_per_sector (set_lfn_index (lfn_index s) s))
          with (ents_per_sector s). lia.
      * simpl read_buffer. congruence.
    + rewrite Hd. simpl andb.
      destruct (valid_cluster (first_cluster_of (entry_at (read_buffer s) i)))
        eqn:Hv; [auto|apply Hrec].
  - (* a file entry *)
    simpl andb. cbv iota.
    destruct (iequals (dos_name_ext (entry_at (read_buffer s) i)) name) eqn:Hn';
      [|apply Hrec].
    destruct is_last.
    + split; [reflexivity|].
      exists fuel, i, lba, (set_lfn_index (lfn_index s) s).
      repeat split; auto; try lia.
      change (ents_per_sector (set_lfn_index (lfn_index s) s))
        with (ents_per_sector s). lia.
    + rewrite Hd. simpl andb. cbv iota. apply Hrec.
Qed.

Lemma scan_sectors_inv n : forall sec fuel f name is_last cluster ln s,
  P s ->
  match scan_sectors n sec fuel f name is_last cluster false ln s with
  | Returned r =>
      (exists s', P s' /\ r = Some (FILE_NOT_FOUND, s')) \/
      (is_last = true /\ matched P f name r)
  | Found dc s' => P s' /\ valid_cluster dc = true
  | Pending lf _ s' => P s' /\ lf = false
  end.
Proof.
  induction n as [|n IH]; intros sec fuel f name is_last cluster ln s HP;
    cbn [scan_sectors]; [auto|].
  pose proof (P_read s (cluster_lba s cluster sec) HP) as HP1.
  destruct (get_physical_block_facts (cluster_lba s cluster sec) s)
    as (_ & _ & _ & _ & _ & _ & _ & _ & _ & _ & Hhold & _).
  destruct (get_physical_block (cluster_lba s cluster sec) s) as [[|] s1];
    simpl in HP1, Hhold.
  - pose proof (scan_entries_inv (ents_per_sector s1) 0 fuel f name is_last
                  (cluster_lba s cluster sec) ln s1 HP1 (Hhold eq_refl)
                  ltac:(lia) ltac:(lia)) as He.
    destruct (scan_entries (ents_per_sector s1) 0 fuel f name is_last
                (cluster_lba s cluster sec) false ln s1) as [r|dc s2|lf ln2 s2].
    + now right.
    + exact He.
    + destruct He as [HP2 ->]. now apply IH.
  - left. now exists s1.
Qed.

Lemma scan_chain_inv fuel : forall f name is_last cluster ln s,
  P s ->
  match scan_chain fuel f name is_last cluster false ln s with
  | Returned r =>
      r = None \/
      (exists s', P s' /\ r = Some (FILE_NOT_FOUND, s')) \/
      (is_last = true /\ matched P f name r)
  | Found dc s' => P s' /\ valid_cluster dc = true
  | Pending lf _ s' => P s' /\ lf = false
  end.
Proof.
  induction fuel as [|fuel IH]; intros f name is_last cluster ln s HP;
    cbn [scan_chain]; [auto|].
  destruct (valid_cluster cluster) eqn:Hv; [|auto].
  pose proof (scan_sectors_inv (Z.to_nat (cluster_size s)) 0 fuel f name
                is_last cluster ln s HP) as Hs.
  destruct (scan_sectors (Z.to_nat (cluster_size s)) 0 fuel f name is_last
              cluster false ln s) as [r|dc s1|lf ln1 s1].
  - destruct Hs as [Hs|Hs]; auto.
  - exact Hs.
  - destruct Hs as [HP1 ->].
    pose proof (P_fat s1 cluster Hv HP1) as HP2.
    destruct (fat_entry cluster 0 false s1) as [next s2]. simpl in HP2.
    destruct ((EOC_MIN <=? next) || (next =? 0)); [auto|].
    now apply IH.
Qed.

Lemma walk_parts_inv fuel f : forall parts dir_cluster s,
  P s ->
  open_outcome P f (last parts []) (walk_parts fuel f parts dir_cluster s).
Proof.
  induction parts as [|name rest IH]; intros dc s HP; cbn [walk_parts].
  - right. left. now exists s.
  - pose proof (scan_chain_inv fuel f name
                  (match rest with [] => true | _ => false end) dc [] s HP)
      as Hs.
    destruct (scan_chain fuel f name
                (match rest with [] => true | _ => false end) dc false [] s)
      as [r|dc' s1|lf ln1 s1].
    + destruct Hs as [->|[Hs|[Hl Hs]]].
      * now left.
      * right. now left.
      * right. right. left. destruct rest; [exact Hs|discriminate].
    + destruct Hs as [HP1 _]. destruct rest as [|name2 rest].
      * right. right. right. now exists fuel, dc', s1.
      * apply (IH dc' s1 HP1).
    + destruct Hs as [HP1 _]. destruct rest as [|name2 rest].
      * right. right. right. now exists fuel, dc, s1.
      * right. left. now exists s1.
Qed.

Lemma file_open_inv fuel filename f s :
  P s ->
  open_outcome P f (last_component filename) (file_open fuel filename f s).
Proof.
  intros HP. unfold file_open, last_component.
  destruct (cstr filename) as [|c0 rest].
  { right. left. now exists s. }
  destruct (negb (initialized s)).
  { right. left. now exists s. }
  set (p := if c0 =? 47 then rest else c0 :: rest).
  destruct (tokenize (firstn MAX_PATH_LENGTH p)).
  { right. left. now exists s. }
  destruct (leading_dotdot (l :: l0)).
  { right. left. now exists s. }
  destruct (path_parts p) as [|name parts] eqn:Ep.
  { right. left. now exists s. }
  apply walk_parts_inv. exact HP.
Qed.

End ScanInvariant.

(** ** Deleting a file (claim C2) *)

(** C2 at its failing input.  X.BIN on [chain_volume] has the chain 3, 4.
    The chain loop of the DELETE branch discards what [fat_entry]
    returns.  When the load of the FAT sector fails (transfer 1) the loop
    takes the sentinel for the end of the chain and cluster 4 is never
    visited; when the write that frees cluster 3 fails (transfer 2) or
    the one that frees cluster 4 (transfer 3), the cluster stays
    allocated.  In the three cases the entry is marked erased and the
    call returns FILE_FOUND.  With no failing transfer both clusters are
    freed. *)
Theorem delete_found_with_chain_allocated :
  first_cluster_of (entry_at (blocks (sd_card chain_volume) 2088) 0) = 3 /\
  disk_fat chain_volume 3 = 4 /\ disk_fat chain_volume 4 = 0x0FFFFFFF /\
  delete_with_failure 1 = Some (FILE_FOUND, FILE_ERASED, 0, 0x0FFFFFFF) /\
  delete_with_failure 2 = Some (FILE_FOUND, FILE_ERASED, 4, 0) /\
  delete_with_failure 3 = Some (FILE_FOUND, FILE_ERASED, 0, 0x0FFFFFFF) /\
  delete_with_failure 5 = Some (FILE_FOUND, FILE_ERASED, 0, 0).
Proof. repeat split; vm_compute; reflexivity. Qed.




Lemma ents_per_sector_bound s :
  mounted s -> (ents_per_sector s <= 16)%nat.
Proof.
  intros (_ & Hss & _). unfold ents_per_sector, ROOT_ENTRY_SIZE.
  assert (0 <= sector_size s / 32 <= 16).
  { split; [apply Z.div_pos; lia|].
    apply Z.div_le_upper_bound; lia. }
  rewrite to_u16_small by lia. lia.
Qed.


Lemma chain_volume_healthy : healthy chain_volume.
Proof.
  split; [|split].
  - unfold mounted; simpl; repeat split; try lia; reflexivity.
  - unfold cache_coherent; simpl; discriminate.
  - intros n _. reflexivity.
Qed.


(** ** Reading a file (claim C4) *)




(** ** Renaming a file (claim C8) *)

Lemma length_blit src : forall buf off,
  length (blit buf off src) = length buf.
Proof.
  induction src as [|b src IH]; intros buf off; simpl; auto.
  now rewrite IH, length_set_byte.
Qed.

Lemma byte_at_blit_outside src : forall buf off j,
  0 <= off -> 0 <= j -> (j < off \/ off + Z.of_nat (length src) <= j) ->
  byte_at (blit buf off src) j = byte_at buf j.
Proof.
  induction src as [|b src IH]; intros buf off j Ho Hj H; simpl; auto.
  simpl length in H. rewrite IH by lia.
  apply byte_at_set_byte_other; lia.
Qed.

Lemma byte_at_blit_inside src : forall buf off k,
  0 <= off -> off + Z.of_nat (length src) <= Z.of_nat (length buf) ->
  0 <= k < Z.of_nat (length src) ->
  byte_at (blit buf off src) (off + k) = byte_at src k.
Proof.
  induction src as [|b src IH]; intros buf off k Ho Hfit Hk; simpl in *;
    [lia|].
  destruct (Z.eq_dec k 0) as [->|Hne].
  - rewrite byte_at_blit_outside by lia.
    rewrite Z.add_0_r. rewrite byte_at_set_byte_same by lia. reflexivity.
  - replace (off + k) with (off + 1 + (k - 1)) by lia.
    rewrite IH; try lia.
    + unfold byte_at. replace (Z.to_nat k) with (S (Z.to_nat (k - 1))) by lia.
      reflexivity.
    + rewrite length_set_byte. lia.
Qed.

Lemma byte_at_bytes_from buf off n k :
  0 <= k < Z.of_nat n ->
  byte_at (bytes_from buf off n) k = byte_at buf (off + k).
Proof.
  intros Hk. unfold bytes_from, byte_at at 1.
  set (f := fun k0 : nat => byte_at buf (off + Z.of_nat k0)).
  rewrite (nth_indep _ 0 (f 0%nat)) by (rewrite length_map, length_seq; lia).
  rewrite map_nth, seq_nth by lia. unfold f. f_equal. lia.
Qed.

Lemma byte_at_entry_at buf i k :
  0 <= k < 32 ->
  byte_at (entry_at buf i) k = byte_at buf (ROOT_ENTRY_SIZE * i + k).
Proof. intros Hk. unfold entry_at. apply byte_at_bytes_from. simpl; lia. Qed.

Lemma bytes_from_ext buf buf' off off' n :
  (forall k, 0 <= k < Z.of_nat n ->
             byte_at buf (off + k) = byte_at buf' (off' + k)) ->
  bytes_from buf off n = bytes_from buf' off' n.
Proof.
  intros H. unfold bytes_from. apply map_ext_in. intros a Ha.
  apply in_seq in Ha. apply H. lia.
Qed.

Lemma length_pad_spaces n l : length (pad_spaces n l) = n.
Proof.
  unfold pad_spaces. rewrite firstn_length_le; auto.
  rewrite length_app, repeat_length. lia.
Qed.





(** A rename to a name with a blank succeeds, and the new name as given
    is then not found: the entry carries the 8.3 form NEWNAME.TXT. *)
Lemma rename_new_name_not_found :
  and_then (with_empty_file (str "A.TXT") fresh_volume)
    (fun s =>
       and_then (rename_file 16 (str "A.TXT") (str "NEW NAME.TXT") s)
         (fun '(ok, s1) =>
            and_then (file_open 16 (str "NEW NAME.TXT") READ s1)
              (fun '(c1, _) =>
                 and_then (file_open 16 (str "NEWNAME.TXT") READ s1)
                   (fun '(c2, _) => Some (ok, c1, c2)))))
  = Some (true, FILE_NOT_FOUND, FILE_FOUND).
Proof. vm_compute. reflexivity. Qed.

(** C8 at its failing input.  The root directory holds the directory
    FOO.TXT (entry 0) and the file FOO.TXT (entry 1).  [rename_file] finds
    the file through [file_open], then looks for the entry to rename by
    comparing names only, from the start of the sector: it renames the
    directory's entry and returns [true].  The file's entry is as it was,
    the old name still opens the file, and the new name is not found. *)
Theorem rename_changes_other_entry :
  option_map root_names foo_volume
  = Some [str "FOO     TXT" ++ [AT_DIRECTORY]; str "FOO     TXT" ++ [AT_ARCHIVE]] /\
  and_then foo_volume
    (fun s =>
       and_then (rename_file 16 (str "FOO.TXT") (str "BAR.TXT") s)
         (fun '(ok, s1) =>
            and_then (file_open 16 (str "FOO.TXT") READ s1)
              (fun '(c1, _) =>
                 and_then (file_open 16 (str "BAR.TXT") READ s1)
                   (fun '(c2, _) => Some (ok, c1, c2, root_names s1)))))
  = Some (true, FILE_FOUND, FILE_NOT_FOUND,
          [str "BAR     TXT" ++ [AT_DIRECTORY];
           str "FOO     TXT" ++ [AT_ARCHIVE]]).
Proof. split; vm_compute; reflexivity. Qed.
(* ------------------------------------------------------------------ *)
(** ** FAT_Utils: comparison and 8.3 conversion *)

Lemma iequals_chars_spec a : forall b,
  iequals_chars a b = true <-> map toupper a = map toupper b.
Proof.
  induction a as [|x a IH]; intros [|y b]; simpl; try (split; congruence).
  destruct (Z.eqb_spec (toupper x) (toupper y)) as [E|E].
  - rewrite IH. split; [intros ->; now rewrite E | now intros [= _ ->]].
  - split; [discriminate | intros [= H _]; contradiction].
Qed.

(** X1.  [iequals] compares two C strings up to the case of ASCII
    letters: it holds exactly when the upper-cased strings are equal, and
    is therefore reflexive, symmetric and transitive. *)
Theorem iequals_equivalence (a b c : list Z) :
  (iequals a b = true <-> map toupper (cstr a) = map toupper (cstr b)) /\
  iequals a a = true /\
  iequals a b = iequals b a /\
  (iequals a b = true -> iequals b c = true -> iequals a c = true).
Proof.
  unfold iequals. split; [apply iequals_chars_spec|].
  split; [now apply iequals_chars_spec|].
  split.
  - destruct (iequals_chars (cstr a) (cstr b)) eqn:E1,
             (iequals_chars (cstr b) (cstr a)) eqn:E2; auto.
    + apply iequals_chars_spec in E1. symmetry in E1.
      apply iequals_chars_spec in E1. congruence.
    + apply iequals_chars_spec in E2. symmetry in E2.
      apply iequals_chars_spec in E2. congruence.
  - intros H1 H2. apply iequals_chars_spec in H1, H2.
    apply iequals_chars_spec. congruence.
Qed.

Lemma toupper_cases x y :
  toupper x = toupper y ->
  x = y \/ (65 <= x <= 90 /\ y = x + 32) \/ (65 <= y <= 90 /\ x = y + 32).
Proof.
  unfold toupper.
  destruct ((97 <=? x) && (x <=? 122)) eqn:Ex,
           ((97 <=? y) && (y <=? 122)) eqn:Ey; intros H;
    rewrite ?andb_true_iff, ?andb_false_iff, ?Z.leb_le, ?Z.leb_gt in Ex, Ey; lia.
Qed.

Lemma mem_char_letter c :
  65 <= c <= 90 \/ 97 <= c <= 122 -> mem_char c invalid_chars = false.
Proof.
  intros H. unfold invalid_chars. cbn [mem_char].
  repeat match goal with
         | |- context [?k =? c] =>
             rewrite (proj2 (Z.eqb_neq k c)) by lia
         end.
  reflexivity.
Qed.

Lemma toupper_same_class x y :
  toupper x = toupper y ->
  (x =? 0x20) = (y =? 0x20) /\ (x =? 46) = (y =? 46) /\
  mem_char x invalid_chars = mem_char y invalid_chars.
Proof.
  intros H. destruct (toupper_cases x y H) as [->|[[R ->]|[R ->]]]; auto.
  - rewrite !(proj2 (Z.eqb_neq _ _)) by lia.
    rewrite !mem_char_letter by lia. auto.
  - rewrite !(proj2 (Z.eqb_neq _ _)) by lia.
    rewrite !mem_char_letter by lia. auto.
Qed.

Lemma dos_copy_upper limit : forall src src' dst,
  map toupper src = map toupper src' ->
  dos_copy limit src dst = dos_copy limit src' dst.
Proof.
  induction src as [|x src IH]; intros [|y src'] dst H; try discriminate; auto.
  simpl in H. injection H as Hxy Hrest.
  destruct (toupper_same_class x y Hxy) as (E1 & _ & E3).
  cbn [dos_copy]. rewrite E1, E3, Hxy.
  destruct (length dst <? limit)%nat; auto.
  destruct (y =? 32); auto.
  destruct (mem_char y invalid_chars); auto.
Qed.

Lemma split_dot_upper : forall a b,
  map toupper a = map toupper b ->
  map toupper (fst (split_dot a)) = map toupper (fst (split_dot b)) /\
  match snd (split_dot a), snd (split_dot b) with
  | None, None => True
  | Some ea, Some eb => map toupper ea = map toupper eb
  | _, _ => False
  end.
Proof.
  induction a as [|x a IH]; intros [|y b] H; try discriminate; simpl; auto.
  simpl in H. injection H as Hxy Hrest.
  destruct (toupper_same_class x y Hxy) as (_ & E2 & _).
  rewrite E2. destruct (y =? 46); simpl; auto.
  specialize (IH b Hrest).
  destruct (split_dot a) as [ba ea], (split_dot b) as [bb eb]. simpl in *.
  destruct IH as [IH1 IH2]. split; [congruence | exact IH2].
Qed.

(** X2.  [to_dos_8_3] does not see the case of letters: two names that
    [iequals] identifies get the same 8.3 name, or are both refused. *)
Theorem to_dos_8_3_ignores_case (a b : list Z) :
  iequals a b = true -> to_dos_8_3 a = to_dos_8_3 b.
Proof.
  intros H. apply iequals_chars_spec in H.
  unfold to_dos_8_3.
  destruct (split_dot_upper _ _ H) as [H1 H2].
  destruct (split_dot (cstr a)) as [ba ea], (split_dot (cstr b)) as [bb eb].
  simpl in H1, H2.
  rewrite (dos_copy_upper 8 ba bb [] H1).
  destruct (dos_copy 8 bb []); auto.
  destruct ea, eb; try contradiction; auto.
  now rewrite (dos_copy_upper 3 l0 l1 [] H2).
Qed.

Lemma to_dos_8_3_ignores_case_witness :
  iequals (str "Readme.txt") (str "README.TXT") = true /\
  to_dos_8_3 (str "Readme.txt") = to_dos_8_3 (str "README.TXT").
Proof.
  split; [reflexivity|].
  apply (to_dos_8_3_ignores_case (str "Readme.txt") (str "README.TXT")).
  reflexivity.
Defined.

Lemma plain_char_facts c :
  plain_char c = true ->
  c <> 0 /\ c <> 0x20 /\ c <> 46 /\ mem_char c invalid_chars = false.
Proof.
  unfold plain_char. rewrite !andb_true_iff, !negb_true_iff, !Z.eqb_neq.
  intros [[H0 H1] H2]. repeat split; auto.
  intros ->. discriminate H2.
Qed.

Lemma toupper_range c :
  (toupper c = c - 32 /\ 97 <= c <= 122) \/
  (toupper c = c /\ (c < 97 \/ 122 < c)).
Proof.
  unfold toupper. destruct (Z.leb_spec 97 c), (Z.leb_spec c 122); simpl; lia.
Qed.

Lemma stored_toupper c : plain_char c = true -> stored_char (toupper c) = true.
Proof.
  intros H. destruct (plain_char_facts c H) as (H0 & H1 & H2 & H3).
  unfold stored_char, plain_char.
  rewrite !andb_true_iff, !negb_true_iff, andb_false_iff, !Z.eqb_neq, !Z.leb_gt.
  destruct (toupper_range c) as [[-> R]|[-> R]].
  - rewrite mem_char_letter by lia. repeat split; lia.
  - repeat split; auto.
Qed.

Lemma stored_char_facts c :
  stored_char c = true -> plain_char c = true /\ toupper c = c.
Proof.
  unfold stored_char, toupper. rewrite andb_true_iff, negb_true_iff.
  intros [H1 H2]. now rewrite H2.
Qed.

Lemma cstr_nonzero l : Forall (fun c => c <> 0) (cstr l).
Proof.
  induction l as [|c l IH]; simpl; auto.
  destruct (Z.eqb_spec c 0); auto.
Qed.

Lemma cstr_fixed l : Forall (fun c => c <> 0) l -> cstr l = l.
Proof.
  induction 1 as [|c l Hc _ IH]; simpl; auto.
  rewrite (proj2 (Z.eqb_neq _ _)) by assumption. now rewrite IH.
Qed.

Lemma split_dot_nonzero l :
  Forall (fun c => c <> 0) l ->
  Forall (fun c => c <> 0) (fst (split_dot l)) /\
  forall e, snd (split_dot l) = Some e -> Forall (fun c => c <> 0) e.
Proof.
  induction 1 as [|c l Hc Hl IH]; simpl.
  - split; [constructor | discriminate].
  - destruct (c =? 46).
    + simpl. split; [constructor | now intros e [= <-]].
    + destruct (split_dot l) as [b e]. simpl in *. destruct IH as [IH1 IH2].
      split; [now constructor | exact IH2].
Qed.

(** What one copy loop of [to_dos_8_3] hands back: the field it started
    from, extended by stored characters, within the limit. *)
Lemma dos_copy_shape limit : forall src dst r,
  Forall (fun c => c <> 0) src ->
  dos_copy limit src dst = Some r ->
  exists added,
    r = dst ++ added /\ forallb stored_char added = true /\
    (length r <= Nat.max limit (length dst))%nat.
Proof.
  induction src as [|c src IH]; intros dst r Hnz H; cbn [dos_copy] in H.
  - injection H as <-. exists []. rewrite app_nil_r. repeat split; auto. lia.
  - inversion Hnz as [|? ? Hc Hsrc]; subst.
    destruct (Nat.ltb_spec (length dst) limit) as [L|L].
    + destruct (Z.eqb_spec c 32) as [E|E]; [now apply IH|].
      destruct (mem_char c invalid_chars) eqn:M; [discriminate|].
      destruct (IH _ _ Hsrc H) as (added & -> & Ha & Hl).
      exists (toupper c :: added). rewrite <- app_assoc. simpl.
      split; [reflexivity|]. split.
      * rewrite Ha, andb_true_r. apply stored_toupper.
        unfold plain_char. rewrite M.
        now rewrite !(proj2 (Z.eqb_neq _ _)) by assumption.
      * rewrite <- app_assoc in Hl. simpl in Hl.
        rewrite !length_app in *. simpl in *. lia.
    + injection H as <-. exists []. rewrite app_nil_r. repeat split; auto. lia.
Qed.

Lemma firstn_repeat_le (x : Z) : forall n m,
  (n <= m)%nat -> firstn n (repeat x m) = repeat x n.
Proof.
  induction n as [|n IH]; intros [|m] H; simpl; auto; try lia.
  f_equal. apply IH. lia.
Qed.

Lemma pad_spaces_short n l :
  (length l <= n)%nat -> pad_spaces n l = l ++ repeat 0x20 (n - length l).
Proof.
  intros H. unfold pad_spaces.
  rewrite firstn_app, firstn_all2 by assumption.
  f_equal. apply firstn_repeat_le. lia.
Qed.

(** X3.  An accepted name is stored as eight base bytes and three
    extension bytes, each field made of characters that are neither NUL,
    space, lower-case letters nor any character the conversion refuses,
    followed by its padding spaces. *)
Theorem to_dos_8_3_shape (name d : list Z) :
  to_dos_8_3 name = Some d ->
  exists base ext,
    d = (base ++ repeat 0x20 (8 - length base))
        ++ (ext ++ repeat 0x20 (3 - length ext)) /\
    (length base <= 8)%nat /\ (length ext <= 3)%nat /\
    forallb stored_char base = true /\ forallb stored_char ext = true /\
    length d = 11%nat.
Proof.
  unfold to_dos_8_3. intros H.
  destruct (split_dot_nonzero _ (cstr_nonzero name)) as [Hb He].
  destruct (split_dot (cstr name)) as [bs es]. simpl in Hb, He.
  destruct (dos_copy 8 bs []) as [base|] eqn:Eb; [|discriminate].
  destruct (dos_copy_shape _ _ _ _ Hb Eb) as (ab & -> & Sb & Lb).
  simpl in Lb, Sb.
  assert (Hlen : forall b e, (length b <= 8)%nat -> (length e <= 3)%nat ->
            length ((b ++ repeat 0x20 (8 - length b))
                    ++ (e ++ repeat 0x20 (3 - length e))) = 11%nat).
  { intros b e ? ?. rewrite !length_app, !repeat_length. lia. }
  destruct es as [ext_src|].
  - destruct (dos_copy 3 ext_src []) as [ext|] eqn:Ee; [|discriminate].
    destruct (dos_copy_shape _ _ _ _ (He _ eq_refl) Ee) as (ae & -> & Se & Le).
    simpl in Le, Se. injection H as <-.
    exists ab, ae. rewrite !pad_spaces_short by (simpl; lia).
    split; [reflexivity|]. split; [lia|]. split; [lia|].
    split; [assumption|]. split; [assumption|]. apply Hlen; lia.
  - injection H as <-. exists ab, [].
    rewrite !pad_spaces_short by (simpl; lia).
    split; [reflexivity|]. split; [lia|]. split; [simpl; lia|].
    split; [assumption|]. split; [reflexivity|]. apply (Hlen ab []); simpl; lia.
Qed.

Lemma to_dos_8_3_shape_witness :
  to_dos_8_3 (str "my file.c") = Some (str "MYFILE  C  ") /\
  exists base ext,
    str "MYFILE  C  " = (base ++ repeat 0x20 (8 - length base))
                        ++ (ext ++ repeat 0x20 (3 - length ext)) /\
    (length base <= 8)%nat /\ (length ext <= 3)%nat /\
    forallb stored_char base = true /\ forallb stored_char ext = true /\
    length (str "MYFILE  C  ") = 11%nat.
Proof.
  split; [reflexivity|].
  apply (to_dos_8_3_shape (str "my file.c")). reflexivity.
Defined.

Lemma cstr_app a b :
  Forall (fun c => c <> 0) a -> cstr (a ++ b) = a ++ cstr b.
Proof.
  induction 1 as [|c a Hc _ IH]; simpl; auto.
  rewrite (proj2 (Z.eqb_neq _ _)) by assumption. now rewrite IH.
Qed.

Lemma split_dot_app a e :
  ~ In 46 a ->
  split_dot a = (a, None) /\ split_dot (a ++ 46 :: e) = (a, Some e).
Proof.
  induction a as [|c a IH]; simpl; intros H.
  - auto.
  - rewrite (proj2 (Z.eqb_neq c 46)) by (intros ->; apply H; auto).
    destruct IH as [-> ->]; auto.
Qed.

Lemma plain_all l :
  forallb plain_char l = true ->
  Forall (fun c => c <> 0) l /\ ~ In 46 l /\ ~ In 0x20 l.
Proof.
  induction l as [|c l IH]; simpl.
  - repeat split; auto.
  - rewrite andb_true_iff. intros [Hc Hl].
    destruct (plain_char_facts c Hc) as (H0 & H1 & H2 & _).
    destruct (IH Hl) as (I0 & I1 & I2).
    repeat split; [now constructor | intros [?|?]; auto | intros [?|?]; auto].
Qed.

(** A copy loop of [to_dos_8_3] on plain characters: they are all kept,
    upper-cased, and whatever follows the last one that fits is not
    looked at. *)
Lemma dos_copy_plain limit rest : forall src dst,
  forallb plain_char src = true ->
  (length dst + length src <= limit)%nat ->
  rest = [] \/ (length dst + length src = limit)%nat ->
  dos_copy limit (src ++ rest) dst = Some (dst ++ map toupper src).
Proof.
  induction src as [|c src IH]; intros dst Hp Hl Hr.
  - simpl. rewrite app_nil_r. destruct rest as [|r rest]; [reflexivity|].
    cbn [dos_copy]. destruct Hr as [Hr|Hr]; [discriminate|].
    rewrite (proj2 (Nat.ltb_ge _ _)) by (simpl in Hr; lia). reflexivity.
  - simpl in Hp. apply andb_true_iff in Hp as [Hc Hp].
    destruct (plain_char_facts c Hc) as (H0 & H1 & H2 & H3).
    simpl in Hl, Hr. cbn [app dos_copy].
    rewrite (proj2 (Nat.ltb_lt _ _)) by lia.
    rewrite (proj2 (Z.eqb_neq c 32)) by assumption. rewrite H3.
    rewrite IH; [|assumption|rewrite length_app; simpl; lia|
                 destruct Hr as [Hr|Hr];
                 [now left | right; rewrite length_app; simpl; lia]].
    now rewrite <- app_assoc.
Qed.

Lemma bytes_from_list l n :
  (n <= length l)%nat -> bytes_from l 0 n = firstn n l.
Proof.
  intros H. apply (nth_ext _ _ 0 0).
  - unfold bytes_from. rewrite length_map, length_seq, length_firstn. lia.
  - intros k Hk. unfold bytes_from in Hk. rewrite length_map, length_seq in Hk.
    pose proof (byte_at_bytes_from l 0 n (Z.of_nat k)) as B.
    unfold byte_at in B. rewrite Z.add_0_l, Nat2Z.id in B.
    rewrite B by lia.
    rewrite <- (firstn_skipn n l) at 1. rewrite app_nth1; auto.
    rewrite length_firstn. lia.
Qed.

Lemma bytes_from_app a b n :
  bytes_from (a ++ b) (Z.of_nat (length a)) n = bytes_from b 0 n.
Proof.
  apply bytes_from_ext. intros k Hk. unfold byte_at.
  rewrite Z.add_0_l. replace (Z.to_nat (Z.of_nat (length a) + k))
    with (length a + Z.to_nat k)%nat by lia.
  apply app_nth2_plus.
Qed.

Lemma until_space_padded b k :
  ~ In 0x20 b -> until_space (b ++ repeat 0x20 k) = b.
Proof.
  induction b as [|c b IH]; simpl; intros H.
  - destruct k; reflexivity.
  - rewrite (proj2 (Z.eqb_neq c 32)) by (intros ->; apply H; auto).
    rewrite IH; auto.
Qed.

Lemma toupper_idem c : toupper (toupper c) = toupper c.
Proof.
  destruct (toupper_range c) as [[E R]|[E R]]; rewrite E; [|exact E].
  unfold toupper.
  destruct (Z.leb_spec 97 (c - 32)), (Z.leb_spec (c - 32) 122); simpl; lia.
Qed.

Lemma stored_all l :
  forallb plain_char l = true ->
  forallb plain_char (map toupper l) = true.
Proof.
  induction l as [|c l IH]; simpl; auto.
  rewrite !andb_true_iff. intros [Hc Hl]. split; auto.
  now apply stored_char_facts, stored_toupper.
Qed.

(** The name read back from the entry bytes that [to_dos_8_3] builds from
    plain fields. *)
Lemma dos_name_ext_padded b e :
  forallb plain_char b = true -> forallb plain_char e = true ->
  (length b <= 8)%nat -> (length e <= 3)%nat ->
  dos_name_ext (pad_spaces 8 b ++ pad_spaces 3 e) = dotted b e.
Proof.
  intros Hb He Lb Le.
  destruct (plain_all b Hb) as (_ & _ & Sb).
  destruct (plain_all e He) as (_ & _ & Se).
  assert (L8 : length (pad_spaces 8 b) = 8%nat) by apply length_pad_spaces.
  unfold dos_name_ext.
  rewrite bytes_from_list by (rewrite length_app, L8; lia).
  rewrite firstn_app, L8, Nat.sub_diag, firstn_O, app_nil_r.
  rewrite firstn_all2 by lia.
  replace (bytes_from (pad_spaces 8 b ++ pad_spaces 3 e) 8 3)
    with (pad_spaces 3 e).
  2:{ change 8 with (Z.of_nat 8). rewrite <- L8 at 2.
      rewrite bytes_from_app.
      rewrite bytes_from_list by (rewrite length_pad_spaces; lia).
      now rewrite firstn_all2 by (rewrite length_pad_spaces; lia). }
  replace (Extension (pad_spaces 8 b ++ pad_spaces 3 e) 0 0)
    with (nth 0 (pad_spaces 3 e) 0).
  2:{ unfold Extension, byte_at.
      replace (Z.to_nat (0 + 8 + 0))
        with (length (pad_spaces 8 b) + 0)%nat by (rewrite L8; reflexivity).
      now rewrite app_nth2_plus. }
  rewrite !pad_spaces_short by lia.
  rewrite !until_space_padded by assumption.
  unfold dotted. f_equal.
  destruct e as [|c e]; [reflexivity|].
  simpl in He. apply andb_true_iff in He as [Hc _].
  destruct (plain_char_facts c Hc) as (_ & H1 & _).
  simpl. now rewrite (proj2 (Z.eqb_neq c 32)) by assumption.
Qed.

(** The round trip through [to_dos_8_3] and back, shared by the theorems
    below. *)
Lemma short_name_round_trip_aux (base ext : list Z) :
  forallb plain_char base = true -> forallb plain_char ext = true ->
  (length base <= 8)%nat -> (length ext <= 3)%nat ->
  exists d,
    to_dos_8_3 (dotted base ext) = Some d /\
    dos_name_ext d = map toupper (dotted base ext).
Proof.
  intros Hb He Lb Le.
  destruct (plain_all base Hb) as (Zb & Db & _).
  destruct (plain_all ext He) as (Ze & _ & _).
  exists (pad_spaces 8 (map toupper base) ++ pad_spaces 3 (map toupper ext)).
  assert (Zn : Forall (fun c => c <> 0) (dotted base ext)).
  { unfold dotted. apply Forall_app. split; auto.
    destruct ext; auto. constructor; [discriminate | assumption]. }
  split.
  - unfold to_dos_8_3. rewrite (cstr_fixed _ Zn). unfold dotted.
    destruct ext as [|c ext].
    + rewrite app_nil_r. rewrite (proj1 (split_dot_app base [] Db)).
      rewrite <- (app_nil_r base) at 1.
      rewrite dos_copy_plain by (simpl; auto; lia). reflexivity.
    + rewrite (proj2 (split_dot_app base (c :: ext) Db)).
      rewrite <- (app_nil_r base) at 1.
      rewrite dos_copy_plain by (simpl; auto; lia).
      rewrite <- (app_nil_r (c :: ext)) at 1.
      rewrite dos_copy_plain by (simpl; auto; simpl in Le; lia). reflexivity.
  - rewrite dos_name_ext_padded
      by (try apply stored_all; try rewrite length_map; assumption).
    unfold dotted. rewrite map_app. f_equal. now destruct ext.
Qed.

Lemma dotted_nonzero b ext :
  Forall (fun c => c <> 0) b -> Forall (fun c => c <> 0) ext ->
  Forall (fun c => c <> 0) (dotted b ext).
Proof.
  intros Hb He. unfold dotted. apply Forall_app. split; auto.
  destruct ext; auto. constructor; [discriminate | assumption].
Qed.

Lemma toupper_nonzero l :
  Forall (fun c => c <> 0) l -> Forall (fun c => c <> 0) (map toupper l).
Proof.
  intros H. apply Forall_map. eapply Forall_impl; [|exact H].
  intros c Hc. cbv beta in *. destruct (toupper_range c) as [[-> ?]|[-> ?]]; lia.
Qed.

(** X4.  A name that fits the 8.3 format (at most eight plain characters,
    then at most three after the dot) is accepted, and the entry built
    from it reads back as that name in upper case: [file_open]'s
    comparison matches the entry against the name it was created with. *)
Theorem short_name_round_trip (base ext : list Z) :
  forallb plain_char base = true -> forallb plain_char ext = true ->
  (length base <= 8)%nat -> (length ext <= 3)%nat ->
  exists d,
    to_dos_8_3 (dotted base ext) = Some d /\
    dos_name_ext d = map toupper (dotted base ext) /\
    iequals (dos_name_ext d) (dotted base ext) = true.
Proof.
  intros Hb He Lb Le.
  destruct (short_name_round_trip_aux base ext Hb He Lb Le) as (d & Hd & Hn).
  exists d. split; [exact Hd|]. split; [exact Hn|].
  destruct (plain_all base Hb) as (Zb & _ & _).
  destruct (plain_all ext He) as (Ze & _ & _).
  pose proof (dotted_nonzero _ _ Zb Ze) as Zn.
  rewrite Hn. apply iequals_chars_spec.
  rewrite (cstr_fixed _ Zn), (cstr_fixed _ (toupper_nonzero _ Zn)).
  rewrite map_map. apply map_ext. intros; apply toupper_idem.
Qed.

Lemma short_name_round_trip_witness :
  forallb plain_char (str "config") = true /\
  forallb plain_char (str "ini") = true /\
  exists d,
    to_dos_8_3 (dotted (str "config") (str "ini")) = Some d /\
    dos_name_ext d = map toupper (dotted (str "config") (str "ini")) /\
    iequals (dos_name_ext d) (dotted (str "config") (str "ini")) = true.
Proof.
  split; [reflexivity|]. split; [reflexivity|].
  apply (short_name_round_trip (str "config") (str "ini"));
    try reflexivity; simpl; lia.
Defined.

Lemma nonzero_of_not_in l : ~ In 0 l -> Forall (fun c => c <> 0) l.
Proof.
  intros H. apply Forall_forall. intros c Hc ->. contradiction.
Qed.

(** X5.  Only the first eight characters of the base are looked at: what
    follows them, up to the dot or the end of the name, is dropped without
    being checked.  A name with a longer base is therefore stored under
    the same 8.3 name as its first eight characters, and the entry does not
    compare equal to the name it was created with. *)
Theorem long_base_truncated (base rest : list Z) :
  forallb plain_char base = true -> length base = 8%nat ->
  ~ In 0 rest -> ~ In 46 rest ->
  to_dos_8_3 (base ++ rest) = to_dos_8_3 base /\
  (forall e, to_dos_8_3 ((base ++ rest) ++ 46 :: e)
             = to_dos_8_3 (base ++ 46 :: e)) /\
  (rest <> [] ->
   forall ext, forallb plain_char ext = true -> (length ext <= 3)%nat ->
   exists d,
     to_dos_8_3 (dotted (base ++ rest) ext) = Some d /\
     to_dos_8_3 (dotted base ext) = Some d /\
     iequals (dos_name_ext d) (dotted (base ++ rest) ext) = false).
Proof.
  intros Hb Lb Z0 Dr.
  destruct (plain_all base Hb) as (Zb & Db & _).
  assert (Zbr : Forall (fun c => c <> 0) (base ++ rest)).
  { apply Forall_app. split; [assumption | now apply nonzero_of_not_in]. }
  assert (Dbr : ~ In 46 (base ++ rest)).
  { rewrite in_app_iff. tauto. }
  assert (Hcopy : dos_copy 8 (base ++ rest) [] = dos_copy 8 (base ++ []) []).
  { rewrite !dos_copy_plain by (simpl; auto; lia). reflexivity. }
  rewrite app_nil_r in Hcopy.
  assert (H1 : to_dos_8_3 (base ++ rest) = to_dos_8_3 base).
  { unfold to_dos_8_3. rewrite (cstr_fixed _ Zbr), (cstr_fixed _ Zb).
    rewrite (proj1 (split_dot_app _ [] Dbr)), (proj1 (split_dot_app _ [] Db)).
    now rewrite Hcopy. }
  assert (H2 : forall e, to_dos_8_3 ((base ++ rest) ++ 46 :: e)
                         = to_dos_8_3 (base ++ 46 :: e)).
  { intros e. unfold to_dos_8_3.
    rewrite (cstr_app _ _ Zbr), (cstr_app _ _ Zb). simpl.
    rewrite (proj2 (split_dot_app _ (cstr e) Dbr)),
            (proj2 (split_dot_app _ (cstr e) Db)).
    now rewrite Hcopy. }
  split; [exact H1|]. split; [exact H2|].
  intros Hr ext He Le.
  destruct (short_name_round_trip_aux base ext Hb He) as (d & Hd & Hn); try lia.
  exists d.
  assert (Hlong : to_dos_8_3 (dotted (base ++ rest) ext) = Some d).
  { rewrite <- Hd. unfold dotted. destruct ext; [now rewrite !app_nil_r | apply H2]. }
  split; [exact Hlong|]. split; [exact Hd|].
  destruct (iequals (dos_name_ext d) (dotted (base ++ rest) ext)) eqn:E; auto.
  exfalso. apply iequals_chars_spec in E.
  apply (f_equal (@length Z)) in E. rewrite !length_map in E.
  rewrite Hn in E.
  destruct (plain_all ext He) as (Ze & _ & _).
  rewrite (cstr_fixed (dotted (base ++ rest) ext)) in E
    by (apply dotted_nonzero; assumption).
  rewrite cstr_fixed in E
    by (apply toupper_nonzero, dotted_nonzero; assumption).
  unfold dotted in E. rewrite length_map, !length_app in E.
  destruct rest; [contradiction | simpl in E; lia].
Qed.

Lemma long_base_truncated_witness :
  to_dos_8_3 (str "LONGFILE" ++ str "NAME one") = to_dos_8_3 (str "LONGFILE") /\
  exists d,
    to_dos_8_3 (dotted (str "LONGFILE" ++ str "NAME one") (str "TXT")) = Some d /\
    to_dos_8_3 (dotted (str "LONGFILE") (str "TXT")) = Some d /\
    iequals (dos_name_ext d)
            (dotted (str "LONGFILE" ++ str "NAME one") (str "TXT")) = false.
Proof.
  assert (H0 : ~ In 0 (str "NAME one")) by (simpl; intuition discriminate).
  assert (H1 : ~ In 46 (str "NAME one")) by (simpl; intuition discriminate).
  destruct (long_base_truncated (str "LONGFILE") (str "NAME one")
              eq_refl eq_refl H0 H1) as (A & _ & C).
  split; [exact A|].
  apply C; [discriminate | reflexivity | simpl; lia].
Defined.

(* ------------------------------------------------------------------ *)
(** ** file_open: path syntax *)

Lemma tokens_from_slash a : forall cur b,
  tokens_from (a ++ 47 :: b) cur = tokens_from a cur ++ tokenize b.
Proof.
  induction a as [|c a IH]; intros cur b.
  - simpl. destruct cur; reflexivity.
  - cbn [app tokens_from]. destruct (c =? 47).
    + destruct cur; rewrite IH; reflexivity.
    + apply IH.
Qed.

Lemma tokens_from_shape a : forall cur,
  ~ In 47 cur ->
  Forall (fun t => t <> [] /\ ~ In 47 t) (tokens_from a cur).
Proof.
  induction a as [|c a IH]; intros cur Hc.
  - simpl. destruct cur; [constructor|].
    constructor; [split; [discriminate | assumption] | constructor].
  - cbn [tokens_from]. destruct (Z.eqb_spec c 47) as [E|E].
    + destruct cur.
      * apply IH. auto.
      * constructor; [split; [discriminate | assumption] | apply IH; auto].
    + apply IH. rewrite in_app_iff. intros [H|[H|[]]]; auto.
Qed.

Lemma tokens_from_plain a : forall cur,
  ~ In 47 a -> cur ++ a <> [] -> tokens_from a cur = [cur ++ a].
Proof.
  induction a as [|c a IH]; intros cur Ha Hn.
  - rewrite app_nil_r in *. simpl. destruct cur; [contradiction | reflexivity].
  - cbn [tokens_from].
    rewrite (proj2 (Z.eqb_neq c 47)) by (intros ->; apply Ha; left; reflexivity).
    rewrite IH.
    + now rewrite <- app_assoc.
    + intros H. apply Ha. now right.
    + rewrite <- app_assoc. simpl. now destruct cur.
Qed.

(** [file_open] uses of a path only its first character and the
    components of what follows. *)
Lemma file_open_same_tokens fuel f s c0 r r' :
  Forall (fun c => c <> 0) (c0 :: r) -> Forall (fun c => c <> 0) (c0 :: r') ->
  tokenize (firstn MAX_PATH_LENGTH (if c0 =? 47 then r else c0 :: r))
  = tokenize (firstn MAX_PATH_LENGTH (if c0 =? 47 then r' else c0 :: r')) ->
  file_open fuel (c0 :: r) f s = file_open fuel (c0 :: r') f s.
Proof.
  intros Z1 Z2 H. unfold file_open, path_parts.
  rewrite (cstr_fixed _ Z1), (cstr_fixed _ Z2), H. reflexivity.
Qed.

(** X6.  How [file_open] cuts a path: a slash separates two runs of
    components, no component is empty or holds a slash, and a path
    without a slash is one component; so repeated slashes count as one and
    a trailing slash as none, and opening [a//b] or [a/b/] is opening
    [a/b]. *)
Theorem path_slashes (fuel : nat) (f : FileFunction) (s : FAT32)
  (a b : list Z) :
  tokenize (a ++ 47 :: b) = tokenize a ++ tokenize b /\
  Forall (fun t => t <> [] /\ ~ In 47 t) (tokenize a) /\
  (~ In 47 a -> a <> [] -> tokenize a = [a]) /\
  (a <> [] -> ~ In 0 (a ++ b) -> (length a + length b + 2 <= 260)%nat ->
   file_open fuel (a ++ 47 :: 47 :: b) f s = file_open fuel (a ++ 47 :: b) f s /\
   file_open fuel (a ++ [47]) f s = file_open fuel a f s).
Proof.
  split; [apply tokens_from_slash|].
  split; [apply tokens_from_shape; auto|].
  split; [intros; now apply tokens_from_plain|].
  intros Ha Hz Hl.
  assert (Za : Forall (fun c => c <> 0) a).
  { apply nonzero_of_not_in. rewrite in_app_iff in Hz. tauto. }
  assert (Zb : Forall (fun c => c <> 0) b).
  { apply nonzero_of_not_in. rewrite in_app_iff in Hz. tauto. }
  destruct a as [|c0 a']; [contradiction|]. simpl in Hl.
  assert (T2 : forall x, tokenize (x ++ 47 :: 47 :: b) = tokenize (x ++ 47 :: b)).
  { intros x. unfold tokenize. rewrite !tokens_from_slash.
    reflexivity. }
  assert (T1 : forall x, tokenize (x ++ [47]) = tokenize x).
  { intros x. unfold tokenize. rewrite tokens_from_slash. apply app_nil_r. }
  split.
  - cbn [app]. apply file_open_same_tokens.
    + change (Forall (fun c => c <> 0) ((c0 :: a') ++ 47 :: 47 :: b)).
      apply Forall_app. split; auto.
      repeat (constructor; [discriminate|]). assumption.
    + change (Forall (fun c => c <> 0) ((c0 :: a') ++ 47 :: b)).
      apply Forall_app. split; auto. constructor; [discriminate | assumption].
    + unfold MAX_PATH_LENGTH. destruct (c0 =? 47).
      * rewrite !firstn_all2 by (rewrite length_app; simpl; lia). apply T2.
      * rewrite !firstn_all2 by (simpl; rewrite length_app; simpl; lia).
        apply (T2 (c0 :: a')).
  - cbn [app]. apply file_open_same_tokens.
    + change (Forall (fun c => c <> 0) ((c0 :: a') ++ [47])).
      apply Forall_app. split; auto. constructor; [discriminate | constructor].
    + assumption.
    + unfold MAX_PATH_LENGTH. destruct (c0 =? 47).
      * rewrite !firstn_all2 by (try rewrite length_app; simpl; lia). apply T1.
      * rewrite !firstn_all2 by (simpl; try rewrite length_app; simpl; lia).
        apply (T1 (c0 :: a')).
Qed.

Lemma path_slashes_witness :
  file_open 16 (str "D//F.TXT") READ fresh_volume
  = file_open 16 (str "D/F.TXT") READ fresh_volume /\
  file_open 16 (str "D/") READ fresh_volume
  = file_open 16 (str "D") READ fresh_volume.
Proof.
  assert (H0 : ~ In 0 (str "D" ++ str "F.TXT")) by (simpl; intuition discriminate).
  destruct (path_slashes 16 READ fresh_volume (str "D") (str "F.TXT"))
    as (_ & _ & _ & H).
  apply H; [discriminate | exact H0 | simpl; lia].
Defined.

(* ------------------------------------------------------------------ *)
(** ** Lookups do not write *)

(** Reading a FAT entry changes neither the medium nor anything but the
    cache line and the transfer count, on any device. *)
Lemma fat_entry_read_frame c v s :
  let s' := snd (fat_entry c v false s) in
  blocks (sd_card s') = blocks (sd_card s) /\
  geometry s' = geometry s /\
  read_buffer s' = read_buffer s /\
  read_handler s' = read_handler s /\
  write_handler s' = write_handler s /\
  lfn_index s' = lfn_index s /\
  fault (sd_card s') = fault (sd_card s).
Proof.
  unfold fat_entry.
  destruct (negb (initialized s) || (c <? 2)); [simpl; repeat split|].
  destruct (negb (fat_cache_valid s) || negb (fat_cache_sector s =? fat_lba_of s c));
    [|simpl; repeat split].
  unfold blk_read. destruct (fault (sd_card s) (ticks (sd_card s)));
    simpl; repeat split.
Qed.

Lemma untouched_refl s : untouched s s.
Proof. repeat split. Qed.

Lemma untouched_read s0 s lba :
  untouched s0 s -> untouched s0 (snd (get_physical_block lba s)).
Proof.
  intros (B & G & R & W).
  destruct (get_physical_block_facts lba s)
    as (G' & B' & _ & _ & _ & _ & _ & R' & W' & _).
  repeat split; congruence.
Qed.

Lemma untouched_fat s0 s c :
  valid_cluster c = true -> untouched s0 s ->
  untouched s0 (snd (fat_entry c 0 false s)).
Proof.
  intros _ (B & G & R & W).
  destruct (fat_entry_read_frame c 0 s) as (B' & G' & _ & R' & W' & _).
  repeat split; congruence.
Qed.

Lemma untouched_lfn s0 s i : untouched s0 s -> untouched s0 (set_lfn_index i s).
Proof. intros (B & G & R & W). repeat split; assumption. Qed.

(** What a READ lookup leaves behind, shared by the theorems below. *)
Lemma file_open_read_facts (fuel : nat) (path : list Z) (s s' : FAT32)
  (c : FAT_ErrorCode) :
  file_open fuel path READ s = Some (c, s') ->
  blocks (sd_card s') = blocks (sd_card s) /\
  geometry s' = geometry s /\
  write_handler s' = write_handler s /\
  (c = FILE_FOUND \/ c = FILE_NOT_FOUND) /\
  (c = FILE_NOT_FOUND -> read_handler s' = read_handler s) /\
  (c = FILE_FOUND ->
   exists lba i,
     let e := entry_at (sector512 (blocks (sd_card s) lba)) i in
     0 <= i /\ is_directory e = false /\
     iequals (dos_name_ext e) (last_component path) = true /\
     read_handler s' = mkRH 0 (SizeofFile e 0) (first_cluster_of e) 0).
Proof.
  intros H.
  pose proof (file_open_inv (untouched s) (untouched_read s) (untouched_fat s)
                (untouched_lfn s) fuel path READ s (untouched_refl s)) as O.
  rewrite H in O.
  destruct O as [O|[(t & (B & G & R & W) & O)|[O|(fl & dc & t & (B & G & R & W) & O)]]].
  - discriminate.
  - injection O as -> ->. repeat split; auto; discriminate.
  - destruct O as (fl & i & lba & t & (B & G & R & W) & Hs & Hi & Hn & O).
    cbn [open_match] in O. unfold holds_sector in Hs.
    destruct (is_directory (entry_at (read_buffer t) i)) eqn:D; simpl in O;
      injection O as -> ->.
    + repeat split; auto; discriminate.
    + split; [exact B|]. split; [exact G|]. split; [exact W|].
      split; [now left|]. split; [discriminate|]. intros _.
      exists lba, i. rewrite <- B, <- Hs. cbv zeta.
      split; [lia|]. split; [exact D|]. split; [now apply Hn | reflexivity].
  - simpl in O. injection O as -> ->. repeat split; auto; discriminate.
Qed.

(** X7.  Opening for READ never writes to the card, whatever the device
    does: the medium, the geometry and the write handle are as before.
    The result is FILE_FOUND or FILE_NOT_FOUND; when it is FILE_FOUND the
    read handle holds the size and the first cluster of an entry of the
    medium that is not a directory and whose short name is the last path
    component up to case. *)
Theorem file_open_read_only (fuel : nat) (path : list Z) (s s' : FAT32)
  (c : FAT_ErrorCode) :
  file_open fuel path READ s = Some (c, s') ->
  blocks (sd_card s') = blocks (sd_card s) /\
  geometry s' = geometry s /\
  write_handler s' = write_handler s /\
  (c = FILE_FOUND \/ c = FILE_NOT_FOUND) /\
  (c = FILE_NOT_FOUND -> read_handler s' = read_handler s) /\
  (c = FILE_FOUND ->
   exists lba i,
     let e := entry_at (sector512 (blocks (sd_card s) lba)) i in
     0 <= i /\ is_directory e = false /\
     iequals (dos_name_ext e) (last_component path) = true /\
     read_handler s' = mkRH 0 (SizeofFile e 0) (first_cluster_of e) 0).
Proof. exact (file_open_read_facts fuel path s s' c). Qed.

Lemma file_open_read_only_witness :
  file_open 16 (str "X.BIN") READ chain_volume
  = Some (FILE_FOUND,
          result_state (file_open 16 (str "X.BIN") READ chain_volume)
                       chain_volume) /\
  blocks (sd_card (result_state (file_open 16 (str "X.BIN") READ chain_volume)
                                chain_volume))
  = blocks (sd_card chain_volume).
Proof.
  assert (E : file_open 16 (str "X.BIN") READ chain_volume
              = Some (FILE_FOUND,
                      result_state (file_open 16 (str "X.BIN") READ chain_volume)
                                   chain_volume))
    by (vm_compute; reflexivity).
  split; [exact E|].
  exact (proj1 (file_open_read_only 16 (str "X.BIN") chain_volume _ _ E)).
Defined.

(** X8.  [get_file_size] and [file_exists] are the READ lookup: neither
    writes to the card nor touches the write handle; the size reported is
    0 when the lookup fails, and otherwise the size field of the matching
    entry, which is also what the read handle is left holding. *)
Theorem get_file_size_spec (fuel : nat) (path : list Z) (s s' : FAT32) (n : Z) :
  get_file_size fuel path s = Some (n, s') ->
  blocks (sd_card s') = blocks (sd_card s) /\
  write_handler s' = write_handler s /\
  ((file_exists fuel path s = Some (false, s') /\ n = 0 /\
    read_handler s' = read_handler s) \/
   (file_exists fuel path s = Some (true, s') /\
    exists lba i,
      let e := entry_at (sector512 (blocks (sd_card s) lba)) i in
      is_directory e = false /\
      iequals (dos_name_ext e) (last_component path) = true /\
      n = SizeofFile e 0 /\
      read_handler s' = mkRH 0 n (first_cluster_of e) 0)).
Proof.
  unfold get_file_size, file_exists.
  destruct (file_open fuel path READ s) as [[c t]|] eqn:E; [|discriminate].
  destruct (file_open_read_facts _ _ _ _ _ E) as (B & G & W & C & N & F).
  intros H.
  destruct C as [-> | ->].
  - injection H as <- <-. split; [exact B|]. split; [exact W|]. right.
    split; [reflexivity|].
    destruct (F eq_refl) as (lba & i & _ & D & I & R).
    exists lba, i. cbv zeta. rewrite R. simpl. auto.
  - injection H as <- <-. split; [exact B|]. split; [exact W|]. left.
    auto.
Qed.

Lemma get_file_size_spec_witness :
  get_file_size 16 (str "X.BIN") chain_volume
  = Some (5000,
          result_state (file_open 16 (str "X.BIN") READ chain_volume)
                       chain_volume) /\
  blocks (sd_card (result_state (file_open 16 (str "X.BIN") READ chain_volume)
                                chain_volume))
  = blocks (sd_card chain_volume).
Proof.
  assert (E : get_file_size 16 (str "X.BIN") chain_volume
              = Some (5000,
                      result_state (file_open 16 (str "X.BIN") READ chain_volume)
                                   chain_volume))
    by (vm_compute; reflexivity).
  split; [exact E|].
  exact (proj1 (get_file_size_spec 16 (str "X.BIN") chain_volume _ _ E)).
Defined.

(** X9.  Opening for MODIFY never writes to the card and never creates
    an entry.  When it finds the file, the write handle points at the
    directory sector of the entry, holds the entry's size, and stands at
    the first sector of the file's first cluster: a write that follows
    starts at the beginning of the file. *)
Theorem file_open_modify_handle (fuel : nat) (path : list Z) (s s' : FAT32)
  (c : FAT_ErrorCode) :
  file_open fuel path MODIFY s = Some (c, s') ->
  blocks (sd_card s') = blocks (sd_card s) /\
  geometry s' = geometry s /\
  read_handler s' = read_handler s /\
  (c = FILE_FOUND \/ c = FILE_NOT_FOUND) /\
  (c = FILE_NOT_FOUND -> write_handler s' = write_handler s) /\
  (c = FILE_FOUND ->
   exists lba i,
     let e := entry_at (sector512 (blocks (sd_card s) lba)) i in
     0 <= i /\ is_directory e = false /\
     iequals (dos_name_ext e) (last_component path) = true /\
     write_handler s'
     = mkWH lba (SizeofFile e 0) (first_cluster_of e) (first_cluster_of e) 0 0).
Proof.
  intros H.
  pose proof (file_open_inv (untouched s) (untouched_read s) (untouched_fat s)
                (untouched_lfn s) fuel path MODIFY s (untouched_refl s)) as O.
  rewrite H in O.
  destruct O as [O|[(t & (B & G & R & W) & O)|[O|(fl & dc & t & (B & G & R & W) & O)]]].
  - discriminate.
  - injection O as -> ->. repeat split; auto; discriminate.
  - destruct O as (fl & i & lba & t & (B & G & R & W) & Hs & Hi & Hn & O).
    cbn [open_match] in O. unfold holds_sector in Hs.
    destruct (is_directory (entry_at (read_buffer t) i)) eqn:D; simpl in O;
      injection O as -> ->.
    + repeat split; auto; discriminate.
    + split; [exact B|]. split; [exact G|]. split; [exact R|].
      split; [now left|]. split; [discriminate|]. intros _.
      exists lba, i. rewrite <- B, <- Hs. cbv zeta.
      split; [lia|]. split; [exact D|]. split; [now apply Hn | reflexivity].
  - simpl in O. injection O as -> ->. repeat split; auto; discriminate.
Qed.

Lemma file_open_modify_handle_witness :
  file_open 16 (str "X.BIN") MODIFY chain_volume
  = Some (FILE_FOUND,
          result_state (file_open 16 (str "X.BIN") MODIFY chain_volume)
                       chain_volume) /\
  write_handler (result_state (file_open 16 (str "X.BIN") MODIFY chain_volume)
                              chain_volume)
  = mkWH 2088 5000 3 3 0 0 /\
  blocks (sd_card (result_state (file_open 16 (str "X.BIN") MODIFY chain_volume)
                                chain_volume))
  = blocks (sd_card chain_volume).
Proof.
  assert (E : file_open 16 (str "X.BIN") MODIFY chain_volume
              = Some (FILE_FOUND,
                      result_state (file_open 16 (str "X.BIN") MODIFY chain_volume)
                                   chain_volume))
    by (vm_compute; reflexivity).
  split; [exact E|]. split; [vm_compute; reflexivity|].
  exact (proj1 (file_open_modify_handle 16 (str "X.BIN") chain_volume _ _ E)).
Defined.

(* ------------------------------------------------------------------ *)
(** ** file_close *)

Lemma find_by_cluster_spec n : forall i buf base j,
  find_by_cluster n i buf base = Some j ->
  i <= j < i + Z.of_nat n /\ base <> 0 /\
  first_cluster_of (entry_at buf j) = base.
Proof.
  induction n as [|n IH]; intros i buf base j H; [discriminate|].
  cbn [find_by_cluster] in H.
  destruct (FileName (entry_at buf i) 0 0 =? FILE_CLEAR); [discriminate|].
  destruct (FileName (entry_at buf i) 0 0 =? FILE_ERASED).
  { destruct (IH _ _ _ _ H) as (? & ? & ?). split; [lia | auto]. }
  destruct (Z.land (Attributes (entry_at buf i) 0) AT_LFN =? AT_LFN).
  { destruct (IH _ _ _ _ H) as (? & ? & ?). split; [lia | auto]. }
  destruct (negb (base =? 0) && (first_cluster_of (entry_at buf i) =? base)) eqn:E.
  - injection H as <-. apply andb_true_iff in E as [E1 E2].
    apply negb_true_iff, Z.eqb_neq in E1. apply Z.eqb_eq in E2.
    split; [lia | auto].
  - destruct (IH _ _ _ _ H) as (? & ? & ?). split; [lia | auto].
Qed.

(** What [update_directory_entry_size] does to the object: nothing but
    one sector read and at most one sector written back with four bytes
    changed. *)
Lemma update_directory_entry_size_facts s :
  let wh := write_handler s in
  let s' := update_directory_entry_size s in
  geometry s' = geometry s /\
  read_handler s' = read_handler s /\
  write_handler s' = write_handler s /\
  (wh_Dir_Entry wh = 0 -> s' = s) /\
  (blocks (sd_card s') = blocks (sd_card s) \/
   exists i,
     0 <= i < Z.of_nat (ents_per_sector s) /\
     BaseFatEntry wh <> 0 /\
     first_cluster_of
       (entry_at (sector512 (blocks (sd_card s) (wh_Dir_Entry wh))) i)
     = BaseFatEntry wh /\
     blocks (sd_card s')
     = blocks (with_block (wh_Dir_Entry wh)
                 (put_le32 (sector512 (blocks (sd_card s) (wh_Dir_Entry wh)))
                           (ROOT_ENTRY_SIZE * i + 28) (wh_File_Size wh))
                 (sd_card s))).
Proof.
  cbv zeta. unfold update_directory_entry_size.
  destruct (Z.eqb_spec (wh_Dir_Entry (write_handler s)) 0) as [E|E].
  { repeat split; auto. }
  pose proof (get_physical_block_facts (wh_Dir_Entry (write_handler s)) s) as F.
  cbv zeta in F.
  destruct (get_physical_block (wh_Dir_Entry (write_handler s)) s) as [ok s1].
  simpl in F.
  destruct F as (G & B & Fl & T & _ & _ & _ & R & W & _ & Hh & _).
  destruct ok.
  2:{ repeat split; auto. contradiction. }
  specialize (Hh eq_refl). unfold holds_sector in Hh.
  destruct (find_by_cluster (ents_per_sector s1) 0 (read_buffer s1)
              (BaseFatEntry (write_handler s))) as [i|] eqn:Ef.
  2:{ repeat split; auto. contradiction. }
  destruct (find_by_cluster_spec _ _ _ _ _ Ef) as (Hi & Hb & Hc).
  assert (Ee : ents_per_sector s1 = ents_per_sector s).
  { unfold ents_per_sector. now injection G as _ _ _ -> _. }
  unfold store_physical_block, blk_write.
  cbn [sd_card set_read_buffer].
  destruct (fault (sd_card s1) (ticks (sd_card s1))); cbn [snd].
  - split; [exact G|]. split; [exact R|]. split; [exact W|].
    split; [contradiction|]. left. exact B.
  - split; [exact G|]. split; [exact R|]. split; [exact W|].
    split; [contradiction|]. right. exists i.
    rewrite <- Ee. split; [lia|]. split; [exact Hb|].
    rewrite <- B, <- Hh. split; [exact Hc|].
    simpl. now rewrite B.
Qed.

(** X10.  [file_close] always leaves the write handle closed, so that
    closing twice is closing once and every [file_write] after a close is
    dropped.  A read handle is reset only when its [Dir_Entry] is not 0,
    which [file_open] never sets: a file opened for READ stays open
    through [file_close]. *)
Theorem file_close_handles (s : FAT32) :
  wh_Dir_Entry (write_handler (file_close s)) = 0 /\
  rh_Dir_Entry (read_handler (file_close s)) = 0 /\
  file_close (file_close s) = file_close s /\
  (forall data, file_write data (file_close s) = Some (file_close s)) /\
  (wh_Dir_Entry (write_handler s) = 0 ->
   sd_card (file_close s) = sd_card s) /\
  (forall fuel path s0,
     file_open fuel path READ s0 = Some (FILE_FOUND, s) ->
     read_handler (file_close s) = read_handler s /\
     rh_File_Size (read_handler (file_close s))
     = rh_File_Size (read_handler s)).
Proof.
  assert (W : wh_Dir_Entry (write_handler (file_close s)) = 0).
  { unfold file_close.
    destruct (Z.eqb_spec (wh_Dir_Entry (write_handler s)) 0) as [E|E]; simpl.
    - destruct (rh_Dir_Entry (read_handler s) =? 0); simpl; exact E.
    - match goal with
      | |- context [if negb ?b then _ else _] => destruct b
      end; reflexivity. }
  assert (R : rh_Dir_Entry (read_handler (file_close s)) = 0).
  { unfold file_close.
    match goal with
    | |- context [if negb (rh_Dir_Entry (read_handler ?t) =? 0) then _ else _] =>
        destruct (Z.eqb_spec (rh_Dir_Entry (read_handler t)) 0) as [E|E]
    end; simpl; auto. }
  assert (K : forall t, wh_Dir_Entry (write_handler t) = 0 ->
                rh_Dir_Entry (read_handler t) = 0 -> file_close t = t).
  { intros t Wt Rt. unfold file_close. rewrite Wt. simpl. now rewrite Rt. }
  split; [exact W|]. split; [exact R|].
  split; [now apply K|].
  split.
  { intros data. unfold file_write. rewrite W. simpl.
    destruct (negb (initialized (file_close s))
              || (Z.of_nat (length data) =? 0)); reflexivity. }
  split.
  { intros E. unfold file_close. rewrite E. simpl.
    destruct (rh_Dir_Entry (read_handler s) =? 0); reflexivity. }
  intros fuel path s0 H.
  destruct (file_open_read_facts _ _ _ _ _ H) as (_ & _ & _ & _ & _ & F).
  destruct (F eq_refl) as (lba & i & _ & _ & _ & Hr).
  assert (E : read_handler (file_close s) = read_handler s).
  { unfold file_close.
    destruct (update_directory_entry_size_facts s) as (_ & Ru & _).
    assert (E0 : rh_Dir_Entry (read_handler s) = 0)
      by (rewrite Hr; reflexivity).
    destruct (negb (wh_Dir_Entry (write_handler s) =? 0)).
    - cbn [read_handler set_write_handler]. rewrite Ru, E0. exact Ru.
    - rewrite E0. reflexivity. }
  now rewrite E.
Qed.

Lemma file_close_handles_witness :
  file_open 16 (str "X.BIN") READ chain_volume
  = Some (FILE_FOUND,
          result_state (file_open 16 (str "X.BIN") READ chain_volume)
                       chain_volume) /\
  rh_File_Size
    (read_handler
       (file_close (result_state (file_open 16 (str "X.BIN") READ chain_volume)
                                 chain_volume))) = 5000.
Proof.
  assert (E : file_open 16 (str "X.BIN") READ chain_volume
              = Some (FILE_FOUND,
                      result_state (file_open 16 (str "X.BIN") READ chain_volume)
                                   chain_volume))
    by (vm_compute; reflexivity).
  split; [exact E|].
  destruct (file_close_handles
              (result_state (file_open 16 (str "X.BIN") READ chain_volume)
                            chain_volume)) as (_ & _ & _ & _ & _ & F).
  rewrite (proj2 (F 16%nat (str "X.BIN") chain_volume E)).
  vm_compute. reflexivity.
Defined.



(* ------------------------------------------------------------------ *)
(** ** The allocator on a healthy volume *)

(** The scan loop of the allocator on a healthy volume: it stops at the
    first free entry of the range, and only reads. *)
Lemma scan_free_healthy n : forall c s,
  healthy s -> 2 <= c -> c + Z.of_nat n <= 1073741824 ->
  let r := scan_free n c s in
  healthy (snd r) /\
  blocks (sd_card (snd r)) = blocks (sd_card s) /\
  geometry (snd r) = geometry s /\
  read_buffer (snd r) = read_buffer s /\
  read_handler (snd r) = read_handler s /\
  write_handler (snd r) = write_handler s /\
  match fst r with
  | Some c' =>
      c <= c' < c + Z.of_nat n /\ disk_fat s c' = CLUSTER_FREE /\
      forall x, c <= x < c' -> disk_fat s x <> CLUSTER_FREE
  | None => forall x, c <= x < c + Z.of_nat n -> disk_fat s x <> CLUSTER_FREE
  end.
Proof.
  induction n as [|n IH]; intros c s H Hc Hn.
  - simpl. split; [exact H|]. repeat (split; [reflexivity|]). intros; lia.
  - cbn [scan_free].
    destruct (fat_entry_read_facts s c 0 H ltac:(lia))
      as (Hv & Hh & Hg & Hrb & Hrh & Hwh & _ & Hb).
    destruct (fat_entry c 0 false s) as [v s1]. simpl in Hv, Hh, Hg, Hrb, Hrh, Hwh, Hb.
    destruct (Z.eqb_spec v CLUSTER_FREE) as [E|E].
    + simpl. split; [exact Hh|]. split; [exact Hb|]. split; [exact Hg|].
      split; [exact Hrb|]. split; [exact Hrh|]. split; [exact Hwh|].
      split; [lia|]. split; [congruence|]. intros; lia.
    + specialize (IH (c + 1) s1 Hh ltac:(lia) ltac:(lia)). cbv zeta in IH.
      destruct IH as (I1 & I2 & I3 & I4 & I5 & I6 & I7).
      pose proof (disk_fat_same s s1 Hb Hg) as Hd.
      split; [exact I1|]. split; [congruence|]. split; [congruence|].
      split; [congruence|]. split; [congruence|]. split; [congruence|].
      destruct (fst (scan_free n (c + 1) s1)) as [c'|].
      * destruct I7 as (R & F & A). split; [lia|]. split; [now rewrite <- Hd|].
        intros x Hx. destruct (Z.eq_dec x c) as [->|Hne]; [congruence|].
        rewrite <- Hd. apply A. lia.
      * intros x Hx. destruct (Z.eq_dec x c) as [->|Hne]; [congruence|].
        rewrite <- Hd. apply I7. lia.
Qed.

(** X12.  On a healthy volume the allocator only reads, and it is a
    next-fit search: it returns the first free cluster at or after the
    hint (taken modulo 65536, and at least 2) below [last_cluster], else
    the first free cluster from 2 up to the hint, and 0 only when neither
    range holds a free cluster.  The cluster numbered [last_cluster] is
    never returned from the first range. *)
Theorem fat_search_finds_free (s : FAT32) (hint : Z) :
  healthy s -> 0 <= last_cluster s < 65536 ->
  let start := Z.max 2 (hint mod 65536) in
  let r := fat_search_available_cluster hint s in
  healthy (snd r) /\
  blocks (sd_card (snd r)) = blocks (sd_card s) /\
  geometry (snd r) = geometry s /\
  (fst r <> 0 ->
   2 <= fst r < Z.max (last_cluster s) start /\
   disk_fat s (fst r) = CLUSTER_FREE /\
   (start <= fst r ->
    fst r < last_cluster s /\
    forall x, start <= x < fst r -> disk_fat s x <> CLUSTER_FREE) /\
   (fst r < start ->
    forall x, start <= x < last_cluster s \/ 2 <= x < fst r ->
              disk_fat s x <> CLUSTER_FREE)) /\
  (fst r = 0 ->
   forall x, 2 <= x < Z.max (last_cluster s) start ->
             disk_fat s x <> CLUSTER_FREE).
Proof.
  intros H HL. cbv zeta.
  unfold fat_search_available_cluster, fat_search_scan, to_u16.
  assert (Hh : 0 <= hint mod 65536 < 65536) by (apply Z.mod_pos_bound; lia).
  set (h := hint mod 65536) in *.
  replace (if 2 <=? h then h else 2) with (Z.max 2 h)
    by (destruct (Z.leb_spec 2 h); lia).
  set (start := Z.max 2 h).
  assert (Hs : 2 <= start < 65536) by (unfold start; lia).
  pose proof (scan_free_healthy (Z.to_nat (last_cluster s - start)) start s
                H ltac:(lia) ltac:(lia)) as S1. cbv zeta in S1.
  destruct (scan_free (Z.to_nat (last_cluster s - start)) start s)
    as [[c|] s1]; cbn [fst snd] in S1;
    destruct S1 as (H1 & B1 & G1 & _ & _ & _ & R1).
  - destruct R1 as (Rc & Fc & Ac).
    assert (Ec : c mod 65536 = c) by (apply Z.mod_small; lia).
    cbn [fst snd]. rewrite Ec.
    split; [exact H1|]. split; [exact B1|]. split; [exact G1|].
    split.
    + intros _. split; [lia|]. split; [exact Fc|].
      split; [intros _; split; [lia | exact Ac] | lia].
    + intros E0. lia.
  - pose proof (scan_free_healthy (Z.to_nat (start - 2)) 2 s1
                  H1 ltac:(lia) ltac:(lia)) as S2. cbv zeta in S2.
    pose proof (disk_fat_same s s1 B1 G1) as Hd.
    destruct (scan_free (Z.to_nat (start - 2)) 2 s1) as [[c|] s2]; cbn [fst snd] in S2;
      destruct S2 as (H2 & B2 & G2 & _ & _ & _ & R2).
    + destruct R2 as (Rc & Fc & Ac).
      assert (Ec : c mod 65536 = c) by (apply Z.mod_small; lia).
      cbn [fst snd]. rewrite Ec.
      split; [exact H2|]. split; [congruence|]. split; [congruence|].
      split.
      * intros _. split; [lia|]. split; [now rewrite <- Hd|].
        split; [lia|]. intros _ x [Hx|Hx].
        -- apply R1. lia.
        -- rewrite <- Hd. apply Ac. lia.
      * intros E0. lia.
    + cbn [fst snd]. split; [exact H2|]. split; [congruence|]. split; [congruence|].
      split; [intros E0; contradiction|].
      intros _ x Hx.
      destruct (Z.lt_ge_cases x start) as [L|L].
      * rewrite <- Hd. apply R2. lia.
      * apply R1. lia.
Qed.

Lemma fat_search_finds_free_witness :
  healthy chain_volume /\ 0 <= last_cluster chain_volume < 65536 /\
  fst (fat_search_available_cluster 3 chain_volume) = 5 /\
  disk_fat chain_volume 5 = CLUSTER_FREE /\
  blocks (sd_card (snd (fat_search_available_cluster 3 chain_volume)))
  = blocks (sd_card chain_volume).
Proof.
  assert (L : 0 <= last_cluster chain_volume < 65536) by (simpl; lia).
  split; [exact chain_volume_healthy|]. split; [exact L|].
  split; [vm_compute; reflexivity|]. split; [vm_compute; reflexivity|].
  exact (proj1 (proj2 (fat_search_finds_free chain_volume 3
                         chain_volume_healthy L))).
Defined.

(* ------------------------------------------------------------------ *)
(** ** list_directory *)

(** A buffer that agrees with [l] on its first bytes and holds a NUL
    right after them is the C string [l]. *)
Lemma cstr_agree : forall l buf,
  Z.of_nat (length l) < Z.of_nat (length buf) ->
  (forall k, 0 <= k < Z.of_nat (length l) -> byte_at buf k = byte_at l k) ->
  byte_at buf (Z.of_nat (length l)) = 0 ->
  cstr buf = cstr l.
Proof.
  induction l as [|c l IH]; intros [|b buf] Hlen Hk H0; simpl in Hlen; try lia.
  - unfold byte_at in H0. simpl in H0. subst b. reflexivity.
  - assert (Hb : b = c) by (apply (Hk 0); simpl length; lia). subst b.
    simpl. destruct (c =? 0); [reflexivity|]. f_equal.
    apply IH.
    + lia.
    + intros k Hr. specialize (Hk (k + 1) ltac:(simpl length; lia)).
      unfold byte_at in *.
      replace (Z.to_nat (k + 1)) with (S (Z.to_nat k)) in Hk by lia.
      exact Hk.
    + unfold byte_at in *. simpl length in H0.
      replace (Z.to_nat (Z.of_nat (S (length l))))
        with (S (Z.to_nat (Z.of_nat (length l)))) in H0 by lia.
      exact H0.
Qed.

Lemma length_until_space l : (length (until_space l) <= length l)%nat.
Proof.
  induction l as [|c l IH]; simpl; auto.
  destruct (c =? 32); simpl; lia.
Qed.

Lemma byte_at_app_l a b k :
  0 <= k < Z.of_nat (length a) -> byte_at (a ++ b) k = byte_at a k.
Proof. intros H. unfold byte_at. apply app_nth1. lia. Qed.

Lemma byte_at_app_r a b k :
  0 <= k -> byte_at (a ++ b) (Z.of_nat (length a) + k) = byte_at b k.
Proof.
  intros H. unfold byte_at.
  replace (Z.to_nat (Z.of_nat (length a) + k))
    with (length a + Z.to_nat k)%nat by lia.
  apply app_nth2_plus.
Qed.

(** What [fat_filename_parser] hands to [list_directory]: the static
    index is never moved, the buffer keeps its size, and the only types
    are _Error, _Directory and _File; for the last two the buffer holds
    the short name as a C string. *)
Lemma parser_listing e out idx :
  length out = 255%nat ->
  let '(type, out', idx') := fat_filename_parser e out idx in
  idx' = idx /\ length out' = 255%nat /\
  (type = _Error \/
   (FileName e 0 0 <> FILE_CLEAR /\ FileName e 0 0 <> FILE_ERASED /\
    Z.land (Attributes e 0) AT_VOLUME_ID = 0 /\
    ((type = _Directory /\ is_directory e = true /\
      cstr out' = cstr (dos_name_dir e ++ [92])) \/
     (type = _File /\ is_directory e = false /\
      cstr out' = cstr (dos_name_dir e ++ 46 :: bytes_from e 8 3))))).
Proof.
  intros L. unfold fat_filename_parser, is_directory, dos_name_dir.
  assert (L0 : length (set_byte out 0 0) = 255%nat)
    by now rewrite length_set_byte.
  destruct (Z.eqb_spec (FileName e 0 0) FILE_CLEAR) as [Hc|Hc]; simpl negb;
    cbv iota; [auto|].
  destruct (Z.eqb_spec (FileName e 0 0) FILE_ERASED) as [He|He]; simpl negb;
    cbn [andb]; [auto|].
  destruct (Z.eqb_spec (Z.land (Attributes e 0) AT_VOLUME_ID) 0) as [Hv|Hv];
    [|auto].
  destruct (Z.eqb_spec (Attributes e 0) AT_LFN) as [Hl|Hl].
  { rewrite Hl in Hv. discriminate. }
  set (base := until_space (bytes_from e 0 8)).
  assert (Lb : (length base <= 8)%nat).
  { unfold base. etransitivity; [apply length_until_space|].
    unfold bytes_from. now rewrite length_map, length_seq. }
  set (i := Z.of_nat (length base)).
  set (out1 := blit (set_byte out 0 0) 0 base).
  assert (L1 : length out1 = 255%nat) by (unfold out1; now rewrite length_blit).
  assert (B1 : forall k, 0 <= k < i -> byte_at out1 k = byte_at base k).
  { intros k Hk. unfold out1.
    rewrite <- (Z.add_0_l k) at 1. apply byte_at_blit_inside; lia. }
  destruct (Z.eqb_spec (Z.land (Attributes e 0) AT_DIRECTORY) 0) as [Hd|Hd];
    simpl negb; cbv iota.
  - split; [reflexivity|].
    split; [now rewrite length_set_byte, length_blit, length_set_byte|].
    right. split; [exact Hc|]. split; [exact He|]. split; [exact Hv|].
    right. split; [reflexivity|]. split; [reflexivity|].
    apply cstr_agree.
    + rewrite length_set_byte, length_blit, length_set_byte, L1.
      rewrite length_app. simpl length. lia.
    + intros k Hk. rewrite length_app in Hk. simpl length in Hk.
      rewrite byte_at_set_byte_other by lia.
      destruct (Z_lt_ge_dec k i) as [Lk|Lk].
      * rewrite byte_at_blit_outside by lia.
        rewrite byte_at_set_byte_other by lia.
        rewrite B1 by lia. now rewrite byte_at_app_l by lia.
      * destruct (Z.eq_dec k i) as [->|Nk].
        -- rewrite byte_at_blit_outside by lia.
           rewrite byte_at_set_byte_same by lia.
           unfold i. rewrite <- (Z.add_0_r (Z.of_nat (length base))).
           now rewrite byte_at_app_r by lia.
        -- remember (k - i - 1) as j eqn:Ej.
           assert (Ek : k = i + 1 + j) by lia. subst k.
           rewrite byte_at_blit_inside
             by (rewrite ?length_set_byte, ?L1; simpl length; lia).
           replace (i + 1 + j) with (Z.of_nat (length base) + (1 + j))
             by (unfold i; lia).
           rewrite byte_at_app_r by lia.
           unfold byte_at.
           replace (Z.to_nat (1 + j)) with (S (Z.to_nat j)) by lia.
           reflexivity.
    + rewrite length_app. simpl length.
      replace (Z.of_nat (length base + 4)) with (i + 4) by (unfold i; lia).
      apply byte_at_set_byte_same.
      rewrite length_blit, length_set_byte, L1. lia.
  - split; [reflexivity|].
    split; [now rewrite !length_set_byte|].
    right. split; [exact Hc|]. split; [exact He|]. split; [exact Hv|].
    left. split; [reflexivity|]. split; [reflexivity|].
    apply cstr_agree.
    + rewrite !length_set_byte, L1. rewrite length_app. simpl length. lia.
    + intros k Hk. rewrite length_app in Hk. simpl length in Hk.
      rewrite byte_at_set_byte_other by lia.
      destruct (Z.eq_dec k i) as [->|Nk].
      * rewrite byte_at_set_byte_same by lia.
        unfold i. rewrite <- (Z.add_0_r (Z.of_nat (length base))).
        now rewrite byte_at_app_r by lia.
      * rewrite byte_at_set_byte_other by lia.
        rewrite B1 by lia. now rewrite byte_at_app_l by lia.
    + rewrite length_app. simpl length.
      replace (Z.of_nat (length base + 1)) with (i + 1) by (unfold i; lia).
      apply byte_at_set_byte_same. rewrite length_set_byte, L1. lia.
Qed.

Lemma list_entries_inv cap s0 lba n : forall i L s,
  untouched s0 s -> holds_sector lba s -> 0 <= i -> listing_ok s0 L ->
  let '(_, L', s') := list_entries cap n i L s in
  untouched s0 s' /\ holds_sector lba s' /\ listing_ok s0 L'.
Proof.
  induction n as [|n IH]; intros i L s U Hs Hi (Lf & Ll & La).
  - simpl. repeat split; auto; apply U.
  - cbn [list_entries].
    destruct (FileName (entry_at (read_buffer s) i) 0 0 =? FILE_CLEAR).
    { repeat split; auto; apply U. }
    pose proof (parser_listing (entry_at (read_buffer s) i) (filename_buf L)
                  (lfn_index s) Ll) as P.
    destruct (fat_filename_parser (entry_at (read_buffer s) i) (filename_buf L)
                (lfn_index s)) as [[type buf] idx].
    destruct P as (-> & Lb & P).
    assert (U1 : untouched s0 (set_lfn_index (lfn_index s) s))
      by now apply untouched_lfn.
    assert (Hs1 : holds_sector lba (set_lfn_index (lfn_index s) s)) by exact Hs.
    assert (Keep : listing_ok s0
                     (mkListing (lfn_flag L) (saved_lfn L) buf (file_list L)))
      by (repeat split; assumption).
    assert (Push : forall type size,
              listed_as (entry_at (read_buffer s) i)
                (mkFLE [] (firstn 12 (cstr buf)) type size false 0 0 0 0 0 0) ->
              listing_ok s0
                (push_entry cap type size
                   (mkListing (lfn_flag L) (saved_lfn L) buf (file_list L)))).
    { intros ty sz Hl. unfold push_entry. cbn [lfn_flag saved_lfn filename_buf file_list].
      rewrite Lf. simpl andb. cbv iota.
      split; [reflexivity|]. split; [exact Lb|].
      apply Forall_app. split; [exact La|]. constructor; [|constructor].
      exists lba, i. split; [exact Hi|].
      destruct U as (B & _). rewrite <- B. unfold holds_sector in Hs.
      now rewrite <- Hs. }
    destruct P as [->|(Hc & He & Hv & [(-> & Hd & Hn)|(-> & Hd & Hn)])].
    + apply IH; auto; lia.
    + apply IH; auto; try lia. apply Push.
      unfold listed_as. cbn [hasLongName longFileName attributes firstCluster
                               fle_type fle_size dosFileName].
      rewrite Hd, Hn. repeat split; auto.
    + apply IH; auto; try lia. apply Push.
      unfold listed_as. cbn [hasLongName longFileName attributes firstCluster
                               fle_type fle_size dosFileName].
      rewrite Hd, Hn. repeat split; auto.
Qed.

Lemma list_sectors_inv cap s0 cluster n : forall sec L s,
  untouched s0 s -> listing_ok s0 L ->
  let '(_, L', s') := list_sectors cap n sec cluster L s in
  untouched s0 s' /\ listing_ok s0 L'.
Proof.
  induction n as [|n IH]; intros sec L s U HL.
  - simpl. auto.
  - cbn [list_sectors].
    pose proof (untouched_read s0 s (cluster_lba s cluster sec) U) as U1.
    pose proof (get_physical_block_facts (cluster_lba s cluster sec) s) as F.
    cbv zeta in F.
    destruct (get_physical_block (cluster_lba s cluster sec) s) as [ok s1].
    cbn [fst snd] in U1, F.
    destruct ok; [|auto].
    destruct F as (_ & _ & _ & _ & _ & _ & _ & _ & _ & _ & Hh & _).
    pose proof (list_entries_inv cap s0 _ (ents_per_sector s1) 0 L s1
                  U1 (Hh eq_refl) ltac:(lia) HL) as E.
    destruct (list_entries cap (ents_per_sector s1) 0 L s1) as [[d L1] s2].
    destruct E as (U2 & _ & HL2).
    destruct d; [auto|]. now apply IH.
Qed.

Lemma list_chain_inv cap s0 fuel : forall cluster L s L' s',
  untouched s0 s -> listing_ok s0 L ->
  list_chain cap fuel cluster L s = Some (L', s') ->
  untouched s0 s' /\ listing_ok s0 L'.
Proof.
  induction fuel as [|fuel IH]; intros cluster L s L' s' U HL H;
    [discriminate|].
  cbn [list_chain] in H.
  destruct (cluster <? EOC_MIN); [|injection H as <- <-; auto].
  pose proof (list_sectors_inv cap s0 cluster (Z.to_nat (cluster_size s)) 0 L s
                U HL) as S.
  destruct (list_sectors cap (Z.to_nat (cluster_size s)) 0 cluster L s)
    as [[r L1] s1].
  destruct S as (U1 & HL1).
  destruct r; try (injection H as <- <-; auto).
  destruct U1 as (B & G & R & W).
  destruct (fat_entry_read_frame cluster 0 s1) as (B' & G' & _ & R' & W' & _).
  destruct (fat_entry cluster 0 false s1) as [next s2]. cbn [snd] in *.
  assert (U2 : untouched s0 s2) by (repeat split; congruence).
  destruct ((EOC_MIN <=? next) || (next =? 0)).
  - injection H as <- <-. auto.
  - eapply IH; eauto.
Qed.

(** X13.  [list_directory] never writes to the card and never moves a
    handle, whatever the device does, and always returns [ERROR_IDLE].
    Every entry of the list is a slot of the medium that is neither free,
    erased nor marked with the volume-label bit; it carries the short name
    (a directory name followed by a backslash, a file name followed by a
    dot and the three extension bytes as stored), the size of a file and 0
    for a directory.  No entry is ever given a long name, attributes or a
    first cluster. *)
Theorem list_directory_sound (cap fuel : nat) (s s' : FAT32)
  (code : FAT_ErrorCode) (fl : list FileListEntry) :
  list_directory cap fuel s = Some (code, fl, s') ->
  code = ERROR_IDLE /\
  blocks (sd_card s') = blocks (sd_card s) /\
  geometry s' = geometry s /\
  read_handler s' = read_handler s /\
  write_handler s' = write_handler s /\
  Forall (fun fe => exists lba i,
            0 <= i /\
            listed_as (entry_at (sector512 (blocks (sd_card s) lba)) i) fe) fl.
Proof.
  unfold list_directory. intros H.
  set (cluster := if negb (current_dir_cluster_ s =? 0)
                  then current_dir_cluster_ s else root_dir_first_cluster s) in H.
  destruct (list_chain cap fuel cluster (mkListing false [] parsed_name0 []) s)
    as [[L t]|] eqn:E; [|discriminate].
  injection H as <- <- <-.
  assert (H0 : listing_ok s (mkListing false [] parsed_name0 [])).
  { split; [reflexivity|]. split; [reflexivity | constructor]. }
  destruct (list_chain_inv cap s fuel _ _ _ _ _ (untouched_refl s) H0 E)
    as ((B & G & R & W) & (_ & _ & F)).
  repeat split; assumption.
Qed.

Lemma list_directory_sound_witness :
  list_directory 31 16 chain_volume
  = Some (ERROR_IDLE,
          [mkFLE [] (str "X.BIN") _File 5000 false 0 0 0 0 0 0],
          match list_directory 31 16 chain_volume with
          | Some (_, _, t) => t
          | None => chain_volume
          end) /\
  Forall (fun fe => exists lba i,
            0 <= i /\
            listed_as (entry_at (sector512 (blocks (sd_card chain_volume) lba)) i)
                      fe)
         [mkFLE [] (str "X.BIN") _File 5000 false 0 0 0 0 0 0].
Proof.
  assert (E : list_directory 31 16 chain_volume
              = Some (ERROR_IDLE,
                      [mkFLE [] (str "X.BIN") _File 5000 false 0 0 0 0 0 0],
                      match list_directory 31 16 chain_volume with
                      | Some (_, _, t) => t
                      | None => chain_volume
                      end))
    by (vm_compute; reflexivity).
  split; [exact E|].
  exact (proj2 (proj2 (proj2 (proj2 (proj2
           (list_directory_sound 31 16 chain_volume _ _ _ E)))))).
Defined.

(* ------------------------------------------------------------------ *)
(** ** change_directory *)

Lemma cd_entries_spec n : forall i token buf c,
  cd_entries n i token buf = Some c ->
  exists j,
    let e := entry_at buf j in
    i <= j < i + Z.of_nat n /\ is_directory e = true /\
    FileName e 0 0 <> FILE_CLEAR /\ FileName e 0 0 <> FILE_ERASED /\
    iequals token (dos_name_dir e) = true /\
    valid_cluster c = true /\ first_cluster_of e = c.
Proof.
  induction n as [|n IH]; intros i token buf c H; [discriminate|].
  cbn [cd_entries] in H.
  assert (Next : cd_entries n (i + 1) token buf = Some c ->
                 exists j,
                   let e := entry_at buf j in
                   i <= j < i + Z.of_nat (S n) /\ is_directory e = true /\
                   FileName e 0 0 <> FILE_CLEAR /\ FileName e 0 0 <> FILE_ERASED /\
                   iequals token (dos_name_dir e) = true /\
                   valid_cluster c = true /\ first_cluster_of e = c).
  { intros H'. destruct (IH _ _ _ _ H') as (j & Hj & R). exists j.
    split; [lia | exact R]. }
  destruct (Z.eqb_spec (FileName (entry_at buf i) 0 0) FILE_CLEAR) as [Ec|Ec];
    [discriminate|].
  destruct (Z.eqb_spec (FileName (entry_at buf i) 0 0) FILE_ERASED) as [Ee|Ee];
    [auto|].
  destruct (Z.eqb_spec (Z.land (Attributes (entry_at buf i) 0) AT_DIRECTORY) 0)
    as [Ed|Ed]; [auto|].
  destruct (Attributes (entry_at buf i) 0 =? AT_LFN); [auto|].
  destruct (iequals token (dos_name_dir (entry_at buf i))) eqn:Em; [|auto].
  destruct (valid_cluster (first_cluster_of (entry_at buf i))) eqn:Ev; [|auto].
  simpl in H. injection H as <-. exists i. cbv zeta.
  split; [lia|]. split.
  { unfold is_directory. now rewrite (proj2 (Z.eqb_neq _ _)) by assumption. }
  repeat split; auto.
Qed.

Lemma cd_sectors_inv s0 token cluster n : forall sec s,
  untouched s0 s ->
  let '(r, s') := cd_sectors n sec cluster token s in
  untouched s0 s' /\
  match r with
  | CdFound c => valid_cluster c = true /\ names_directory s0 token c
  | _ => True
  end.
Proof.
  induction n as [|n IH]; intros sec s U.
  - simpl. auto.
  - cbn [cd_sectors].
    pose proof (untouched_read s0 s (cluster_lba s cluster sec) U) as U1.
    pose proof (get_physical_block_facts (cluster_lba s cluster sec) s) as F.
    cbv zeta in F.
    destruct (get_physical_block (cluster_lba s cluster sec) s) as [ok s1].
    cbn [fst snd] in U1, F.
    destruct ok; [|auto].
    destruct F as (_ & _ & _ & _ & _ & _ & _ & _ & _ & _ & Hh & _).
    specialize (Hh eq_refl). unfold holds_sector in Hh.
    destruct (cd_entries (ents_per_sector s1) 0 token (read_buffer s1))
      as [c|] eqn:E; [|now apply IH].
    destruct (cd_entries_spec _ _ _ _ _ E) as (j & Hj & D & Nc & Ne & M & V & Fc).
    split; [exact U1|]. split; [exact V|].
    exists (cluster_lba s cluster sec), j. cbv zeta.
    destruct U1 as (B & _). rewrite <- B, <- Hh.
    repeat split; auto. lia.
Qed.

Lemma cd_chain_inv s0 token fuel : forall cluster s r s',
  untouched s0 s ->
  cd_chain fuel cluster token s = Some (r, s') ->
  untouched s0 s' /\
  match r with
  | CdFound c => valid_cluster c = true /\ names_directory s0 token c
  | _ => True
  end.
Proof.
  induction fuel as [|fuel IH]; intros cluster s r s' U H; [discriminate|].
  cbn [cd_chain] in H.
  destruct (valid_cluster cluster); [|injection H as <- <-; auto].
  pose proof (cd_sectors_inv s0 token cluster (Z.to_nat (cluster_size s)) 0 s U)
    as S.
  destruct (cd_sectors (Z.to_nat (cluster_size s)) 0 cluster token s)
    as [r1 s1].
  destruct S as (U1 & R1).
  destruct r1; try (injection H as <- <-; auto).
  destruct U1 as (B & G & R & W).
  destruct (fat_entry_read_frame cluster 0 s1) as (B' & G' & _ & R' & W' & _).
  destruct (fat_entry cluster 0 false s1) as [next s2]. cbn [snd] in *.
  assert (U2 : untouched s0 s2) by (repeat split; congruence).
  destruct ((EOC_MIN <=? next) || (next =? 0)).
  - injection H as <- <-. auto.
  - eapply IH; eauto.
Qed.

Lemma cd_tokens_inv s0 fuel : forall tokens current s r s',
  untouched s0 s ->
  cd_tokens fuel tokens current s = Some (r, s') ->
  untouched s0 s' /\
  forall c, r = Some c ->
    match tokens with
    | [] => c = current
    | _ => valid_cluster c = true /\ names_directory s0 (last tokens []) c
    end.
Proof.
  induction tokens as [|token rest IH]; intros current s r s' U H.
  - simpl in H. injection H as <- <-. split; [exact U|]. now intros c [= <-].
  - cbn [cd_tokens] in H.
    destruct (cd_chain fuel current token s) as [[r1 s1]|] eqn:E; [|discriminate].
    destruct (cd_chain_inv s0 token fuel _ _ _ _ U E) as (U1 & R1).
    destruct r1.
    + injection H as <- <-. split; [exact U1 | discriminate].
    + destruct (IH _ _ _ _ U1 H) as (U2 & R2). split; [exact U2|].
      intros c' Hc'. specialize (R2 c' Hc').
      destruct rest as [|t2 rest']; [subst c'; exact R1 | exact R2].
    + injection H as <- <-. split; [exact U1 | discriminate].
Qed.

(** X14.  [change_directory] never writes to the card and moves no
    handle; of the object it changes only the current directory, and
    leaves that alone when it fails.  On success the current directory is
    the root (for "/" and for a path without components) or the valid
    first cluster of a directory entry of the medium whose base name is
    the last component up to case. *)
Theorem change_directory_spec (fuel : nat) (dir_name : list Z) (s s' : FAT32)
  (ok : bool) :
  change_directory fuel dir_name s = Some (ok, s') ->
  blocks (sd_card s') = blocks (sd_card s) /\
  read_handler s' = read_handler s /\
  write_handler s' = write_handler s /\
  geometry (set_current_dir_cluster (current_dir_cluster_ s) s') = geometry s /\
  (ok = false -> current_dir_cluster_ s' = current_dir_cluster_ s) /\
  (ok = true ->
   current_dir_cluster_ s' = root_dir_first_cluster s \/
   (valid_cluster (current_dir_cluster_ s') = true /\
    names_directory s (last (cd_components dir_name) []) (current_dir_cluster_ s'))).
Proof.
  unfold change_directory, cd_components. intros H.
  assert (G0 : forall t, geometry t = geometry s ->
                 geometry (set_current_dir_cluster (current_dir_cluster_ s) t)
                 = geometry s).
  { intros t Ht. unfold geometry in *. cbn. now injection Ht as -> -> -> -> -> -> -> -> -> -> _. }
  assert (C0 : forall t, geometry t = geometry s ->
                 current_dir_cluster_ t = current_dir_cluster_ s).
  { intros t Ht. unfold geometry in Ht. now injection Ht. }
  destruct (negb (initialized s)).
  { injection H as <- <-. repeat split; auto; discriminate. }
  destruct (cstr dir_name) as [|c0 r0] eqn:En.
  { injection H as <- <-. repeat split; auto; discriminate. }
  destruct (list_eqb (c0 :: r0) [47]).
  { injection H as <- <-. cbn. repeat split; auto; try discriminate. }
  set (p := match firstn 255 (c0 :: r0) with
            | c :: r => if c =? 47 then r else c :: r
            | [] => []
            end).
  assert (Ep : match firstn 255 (c0 :: r0) with
               | c :: r => if c =? 47 then r else firstn 255 (c0 :: r0)
               | [] => firstn 255 (c0 :: r0)
               end = p) by (unfold p; now destruct (firstn 255 (c0 :: r0))).
  rewrite Ep in H.
  destruct (cd_tokens fuel (tokenize p) (root_dir_first_cluster s) s)
    as [[[c|] s1]|] eqn:E; [| |discriminate].
  - injection H as <- <-.
    destruct (cd_tokens_inv s fuel _ _ _ _ _ (untouched_refl s) E)
      as ((B & G & R & W) & T).
    specialize (T c eq_refl).
    split; [exact B|]. split; [exact R|]. split; [exact W|].
    split; [apply (G0 s1 G)|]. split; [discriminate|]. intros _.
    cbn [current_dir_cluster_ set_current_dir_cluster].
    revert T. destruct (tokenize p); intros T; [left; exact T | right; exact T].
  - injection H as <- <-.
    destruct (cd_tokens_inv s fuel _ _ _ _ _ (untouched_refl s) E)
      as ((B & G & R & W) & _).
    split; [exact B|]. split; [exact R|]. split; [exact W|].
    split; [apply (G0 s1 G)|]. split; [intros _; now apply C0 | discriminate].
Qed.

Lemma change_directory_spec_witness :
  change_directory 16 (str "/D") dir_volume
  = Some (true, cd_state (change_directory 16 (str "/D") dir_volume) dir_volume) /\
  current_dir_cluster_
    (cd_state (change_directory 16 (str "/D") dir_volume) dir_volume) = 3 /\
  blocks (sd_card (cd_state (change_directory 16 (str "/D") dir_volume) dir_volume))
  = blocks (sd_card dir_volume).
Proof.
  assert (E : change_directory 16 (str "/D") dir_volume
              = Some (true, cd_state (change_directory 16 (str "/D") dir_volume)
                                     dir_volume))
    by (vm_compute; reflexivity).
  split; [exact E|]. split; [vm_compute; reflexivity|].
  exact (proj1 (change_directory_spec 16 (str "/D") dir_volume _ _ E)).
Defined.

Lemma get_physical_block_cwd c lba s :
  get_physical_block lba (set_current_dir_cluster c s)
  = (fst (get_physical_block lba s),
     set_current_dir_cluster c (snd (get_physical_block lba s))).
Proof.
  unfold get_physical_block. cbn [sd_card set_current_dir_cluster].
  destruct (blk_read lba (sd_card s)) as [[d|] dev]; reflexivity.
Qed.

Lemma fat_entry_read_cwd c cl v s :
  fat_entry cl v false (set_current_dir_cluster c s)
  = (fst (fat_entry cl v false s),
     set_current_dir_cluster c (snd (fat_entry cl v false s))).
Proof.
  unfold fat_entry, fat_lba_of, entry_offset_of.
  cbn [initialized fat_cache_valid fat_cache_sector fat_base sector_size
       sd_card fat_cache set_current_dir_cluster].
  destruct (negb (initialized s) || (cl <? 2)); [reflexivity|].
  destruct (negb (fat_cache_valid s)
            || negb (fat_cache_sector s
                     =? to_u32 (fat_base s + to_u32 (cl * 4) / sector_size s)));
    [|reflexivity].
  destruct (blk_read (to_u32 (fat_base s + to_u32 (cl * 4) / sector_size s))
              (sd_card s)) as [[d|] dev]; reflexivity.
Qed.

Lemma cd_sectors_cwd c token cluster n : forall sec s,
  cd_sectors n sec cluster token (set_current_dir_cluster c s)
  = (fst (cd_sectors n sec cluster token s),
     set_current_dir_cluster c (snd (cd_sectors n sec cluster token s))).
Proof.
  induction n as [|n IH]; intros sec s; [reflexivity|].
  cbn [cd_sectors]. rewrite get_physical_block_cwd.
  change (cluster_lba (set_current_dir_cluster c s) cluster sec)
    with (cluster_lba s cluster sec).
  destruct (get_physical_block (cluster_lba s cluster sec) s) as [[|] s1];
    cbn [fst snd]; [|reflexivity].
  change (ents_per_sector (set_current_dir_cluster c s1))
    with (ents_per_sector s1).
  change (read_buffer (set_current_dir_cluster c s1)) with (read_buffer s1).
  destruct (cd_entries (ents_per_sector s1) 0 token (read_buffer s1));
    [reflexivity | apply IH].
Qed.

Lemma cd_chain_cwd c token fuel : forall cluster s,
  cd_chain fuel cluster token (set_current_dir_cluster c s)
  = match cd_chain fuel cluster token s with
    | Some (r, s') => Some (r, set_current_dir_cluster c s')
    | None => None
    end.
Proof.
  induction fuel as [|fuel IH]; intros cluster s; [reflexivity|].
  cbn [cd_chain]. destruct (valid_cluster cluster); [|reflexivity].
  change (cluster_size (set_current_dir_cluster c s)) with (cluster_size s).
  rewrite cd_sectors_cwd.
  destruct (cd_sectors (Z.to_nat (cluster_size s)) 0 cluster token s)
    as [r s1]. cbn [fst snd].
  destruct r; try reflexivity.
  rewrite fat_entry_read_cwd.
  destruct (fat_entry cluster 0 false s1) as [next s2]. cbn [fst snd].
  destruct ((EOC_MIN <=? next) || (next =? 0)); [reflexivity | apply IH].
Qed.

Lemma cd_tokens_cwd c fuel : forall tokens current s,
  cd_tokens fuel tokens current (set_current_dir_cluster c s)
  = match cd_tokens fuel tokens current s with
    | Some (r, s') => Some (r, set_current_dir_cluster c s')
    | None => None
    end.
Proof.
  induction tokens as [|token rest IH]; intros current s; [reflexivity|].
  cbn [cd_tokens]. rewrite cd_chain_cwd.
  destruct (cd_chain fuel current token s) as [[r s1]|]; [|reflexivity].
  destruct r; try reflexivity. apply IH.
Qed.

(** X15.  [change_directory] resolves every path from the root: the
    outcome of a call, and the directory it ends in, do not depend on the
    current directory, also for a path that does not start with a
    slash. *)
Theorem change_directory_from_root (fuel : nat) (dir_name : list Z)
  (s : FAT32) (c : Z) :
  change_directory fuel dir_name (set_current_dir_cluster c s)
  = match change_directory fuel dir_name s with
    | Some (true, s') => Some (true, s')
    | Some (false, s') => Some (false, set_current_dir_cluster c s')
    | None => None
    end.
Proof.
  unfold change_directory.
  change (initialized (set_current_dir_cluster c s)) with (initialized s).
  change (root_dir_first_cluster (set_current_dir_cluster c s))
    with (root_dir_first_cluster s).
  destruct (negb (initialized s)); [reflexivity|].
  destruct (cstr dir_name) as [|c0 r0]; [reflexivity|].
  destruct (list_eqb (c0 :: r0) [47]); [reflexivity|].
  rewrite cd_tokens_cwd.
  match goal with
  | |- context [cd_tokens fuel ?t ?r s] => destruct (cd_tokens fuel t r s) as [[[x|] s1]|]
  end; reflexivity.
Qed.

(* ------------------------------------------------------------------ *)
(** ** The compaction of a directory sector *)

Lemma length_entry_at buf i : length (entry_at buf i) = 32%nat.
Proof. unfold entry_at, bytes_from. now rewrite length_map, length_seq. Qed.

Lemma bytes_from_self l : bytes_from l 0 (length l) = l.
Proof. rewrite bytes_from_list by lia. apply firstn_all. Qed.

Lemma entry_at_blit_same buf w e :
  0 <= w -> ROOT_ENTRY_SIZE * w + 32 <= Z.of_nat (length buf) ->
  length e = 32%nat ->
  entry_at (blit buf (ROOT_ENTRY_SIZE * w) e) w = e.
Proof.
  intros Hw Hfit He. unfold entry_at.
  rewrite <- (bytes_from_self e) at 2. rewrite He.
  apply bytes_from_ext. intros k Hk.
  rewrite Z.add_0_l. apply byte_at_blit_inside; unfold ROOT_ENTRY_SIZE in *; lia.
Qed.

Lemma entry_at_blit_other buf w e j :
  0 <= w -> 0 <= j -> j <> w -> length e = 32%nat ->
  entry_at (blit buf (ROOT_ENTRY_SIZE * w) e) j = entry_at buf j.
Proof.
  intros Hw Hj Hne He. unfold entry_at.
  apply bytes_from_ext. intros k Hk.
  apply byte_at_blit_outside; unfold ROOT_ENTRY_SIZE in *; lia.
Qed.

Lemma entry_at_set_byte_other buf w v j :
  0 <= w -> 0 <= j -> j <> w ->
  entry_at (set_byte buf (ROOT_ENTRY_SIZE * w) v) j = entry_at buf j.
Proof.
  intros Hw Hj Hne. unfold entry_at.
  apply bytes_from_ext. intros k Hk.
  apply byte_at_set_byte_other; unfold ROOT_ENTRY_SIZE in *; lia.
Qed.

Lemma first_byte_entry_at buf i :
  FileName (entry_at buf i) 0 0 = byte_at buf (ROOT_ENTRY_SIZE * i).
Proof.
  unfold FileName. rewrite Z.add_0_l.
  rewrite byte_at_entry_at by lia. f_equal. lia.
Qed.

Lemma clear_tail_spec n : forall i buf m,
  0 <= i -> ROOT_ENTRY_SIZE * (i + Z.of_nat n) <= Z.of_nat (length buf) ->
  let '(buf', _) := clear_tail n i buf m in
  length buf' = length buf /\
  (forall j, 0 <= j < i -> entry_at buf' j = entry_at buf j) /\
  (forall j, i <= j < i + Z.of_nat n ->
             FileName (entry_at buf' j) 0 0 = FILE_CLEAR) /\
  (forall j, i + Z.of_nat n <= j -> entry_at buf' j = entry_at buf j).
Proof.
  induction n as [|n IH]; intros i buf m Hi Hfit.
  - simpl. repeat split; auto. intros; lia.
  - cbn [clear_tail].
    destruct (Z.eqb_spec (FileName (entry_at buf i) 0 0) FILE_CLEAR) as [E|E];
      simpl negb; cbv iota.
    + specialize (IH (i + 1) buf m ltac:(lia) ltac:(unfold ROOT_ENTRY_SIZE in *; lia)).
      destruct (clear_tail n (i + 1) buf m) as [buf' m'].
      destruct IH as (L & P & C & T).
      split; [exact L|]. split; [intros j Hj; apply P; lia|].
      split.
      * intros j Hj. destruct (Z.eq_dec j i) as [->|Hne].
        -- rewrite P by lia. exact E.
        -- apply C. lia.
      * intros j Hj. apply T. lia.
    + set (buf1 := set_byte (blit buf (ROOT_ENTRY_SIZE * i) (repeat 0 32))
                            (ROOT_ENTRY_SIZE * i) FILE_CLEAR).
      assert (L1 : length buf1 = length buf)
        by (unfold buf1; now rewrite length_set_byte, length_blit).
      assert (O1 : forall j, 0 <= j -> j <> i -> entry_at buf1 j = entry_at buf j).
      { intros j Hj Hne. unfold buf1.
        rewrite entry_at_set_byte_other by lia.
        apply entry_at_blit_other; try lia. apply repeat_length. }
      assert (F1 : FileName (entry_at buf1 i) 0 0 = FILE_CLEAR).
      { rewrite first_byte_entry_at. unfold buf1.
        apply byte_at_set_byte_same. rewrite length_blit.
        unfold ROOT_ENTRY_SIZE in *. lia. }
      specialize (IH (i + 1) buf1 true ltac:(lia)
                    ltac:(rewrite L1; unfold ROOT_ENTRY_SIZE in *; lia)).
      destruct (clear_tail n (i + 1) buf1 true) as [buf' m'].
      destruct IH as (L & P & C & T).
      split; [congruence|].
      split; [intros j Hj; rewrite P by lia; apply O1; lia|].
      split.
      * intros j Hj. destruct (Z.eq_dec j i) as [->|Hne].
        -- rewrite P by lia. exact F1.
        -- apply C. lia.
      * intros j Hj. rewrite T by lia. apply O1; lia.
Qed.

(** The compaction loop against the original sector [orig]: entries from
    [write_idx] on are still those of [orig] when an iteration starts. *)
Lemma compact_loop_spec orig ents n : forall r w cur m,
  0 <= w <= r -> ents = r + Z.of_nat n ->
  ROOT_ENTRY_SIZE * ents <= Z.of_nat (length cur) ->
  (forall j, w <= j -> entry_at cur j = entry_at orig j) ->
  let '(buf', _) := compact_loop n r w ents cur m in
  let '(l, b) := kept n r orig in
  length buf' = length cur /\
  (forall j, 0 <= j < w -> entry_at buf' j = entry_at cur j) /\
  (forall i, 0 <= i < Z.of_nat (length l) ->
     entry_at buf' (w + i) = entry_at orig (nth (Z.to_nat i) l 0)) /\
  (b = true -> forall j, w + Z.of_nat (length l) <= j < ents ->
     FileName (entry_at buf' j) 0 0 = FILE_CLEAR) /\
  (b = false -> forall j, w + Z.of_nat (length l) <= j ->
     entry_at buf' j = entry_at orig j).
Proof.
  induction n as [|n IH]; intros r w cur m Hw He Hfit Hs.
  - simpl. split; [reflexivity|]. split; [reflexivity|].
    split; [intros; lia|]. split; [intros; lia|].
    intros _ j Hj. apply Hs. lia.
  - cbn [compact_loop kept]. rewrite (Hs r) by lia.
    destruct (Z.eqb_spec (FileName (entry_at orig r) 0 0) FILE_CLEAR) as [Ec|Ec].
    { pose proof (clear_tail_spec (Z.to_nat (ents - w)) w cur m ltac:(lia)
                    ltac:(unfold ROOT_ENTRY_SIZE in *; lia)) as C.
      destruct (clear_tail (Z.to_nat (ents - w)) w cur m) as [buf' m'].
      destruct C as (L & P & C & T).
      split; [exact L|]. split; [exact P|].
      split; [simpl; intros; lia|].
      split; [|discriminate].
      intros _ j Hj. simpl in Hj. apply C. lia. }
    destruct (Z.eqb_spec (FileName (entry_at orig r) 0 0) FILE_ERASED) as [Ee|Ee].
    { specialize (IH (r + 1) w cur true ltac:(lia) ltac:(lia) Hfit Hs).
      destruct (compact_loop n (r + 1) w ents cur true) as [buf' m'].
      destruct (kept n (r + 1) orig) as [l b]. exact IH. }
    assert (Step : forall cur' m',
              length cur' = length cur ->
              (forall j, 0 <= j < w -> entry_at cur' j = entry_at cur j) ->
              entry_at cur' w = entry_at orig r ->
              (forall j, w + 1 <= j -> entry_at cur' j = entry_at orig j) ->
              let '(buf', _) := compact_loop n (r + 1) (w + 1) ents cur' m' in
              let '(l, b) := (let (l, b) := kept n (r + 1) orig in (r :: l, b)) in
              length buf' = length cur /\
              (forall j, 0 <= j < w -> entry_at buf' j = entry_at cur j) /\
              (forall i, 0 <= i < Z.of_nat (length l) ->
                 entry_at buf' (w + i) = entry_at orig (nth (Z.to_nat i) l 0)) /\
              (b = true -> forall j, w + Z.of_nat (length l) <= j < ents ->
                 FileName (entry_at buf' j) 0 0 = FILE_CLEAR) /\
              (b = false -> forall j, w + Z.of_nat (length l) <= j ->
                 entry_at buf' j = entry_at orig j)).
    { intros cur' m' L' P' W' S'.
      specialize (IH (r + 1) (w + 1) cur' m' ltac:(lia) ltac:(lia)
                    ltac:(rewrite L'; exact Hfit) S').
      destruct (compact_loop n (r + 1) (w + 1) ents cur' m') as [buf' m''].
      destruct (kept n (r + 1) orig) as [l b].
      destruct IH as (L & P & K & C & T).
      split; [congruence|].
      split; [intros j Hj; rewrite P by lia; apply P'; lia|].
      split.
      { intros i Hi. simpl length in Hi.
        destruct (Z.eq_dec i 0) as [->|Hne].
        - rewrite Z.add_0_r, P by lia. exact W'.
        - replace (w + i) with (w + 1 + (i - 1)) by lia.
          rewrite K by lia.
          replace (Z.to_nat i) with (S (Z.to_nat (i - 1))) by lia.
          reflexivity. }
      split.
      - intros Hb j Hj. simpl length in Hj. apply C; [exact Hb | lia].
      - intros Hb j Hj. simpl length in Hj. apply T; [exact Hb | lia]. }
    destruct (Z.eqb_spec w r) as [Ewr|Ewr]; simpl negb; cbv iota.
    + apply Step; auto.
      * subst w. apply Hs. lia.
      * intros j Hj. apply Hs. lia.
    + apply Step.
      * apply length_blit.
      * intros j Hj. apply entry_at_blit_other; try lia. apply length_entry_at.
      * apply entry_at_blit_same;
          [lia | unfold ROOT_ENTRY_SIZE in *; lia | apply length_entry_at].
      * intros j Hj.
        rewrite entry_at_blit_other by (try apply length_entry_at; lia).
        apply Hs. lia.
Qed.

Lemma clear_tail_mono n : forall i buf,
  snd (clear_tail n i buf true) = true.
Proof.
  induction n as [|n IH]; intros i buf; [reflexivity|].
  cbn [clear_tail]. destruct (negb _); apply IH.
Qed.

Lemma clear_tail_unmodified n : forall i buf buf',
  clear_tail n i buf false = (buf', false) -> buf' = buf.
Proof.
  induction n as [|n IH]; intros i buf buf' H.
  - now injection H as <-.
  - cbn [clear_tail] in H. destruct (negb _).
    + pose proof (clear_tail_mono n (i + 1)
                    (set_byte (blit buf (ROOT_ENTRY_SIZE * i) (repeat 0 32))
                              (ROOT_ENTRY_SIZE * i) FILE_CLEAR)) as M.
      rewrite H in M. discriminate.
    + now apply IH in H.
Qed.

Lemma compact_loop_mono ents n : forall r w buf,
  snd (compact_loop n r w ents buf true) = true.
Proof.
  induction n as [|n IH]; intros r w buf; [reflexivity|].
  cbn [compact_loop].
  destruct (_ =? FILE_CLEAR); [apply clear_tail_mono|].
  destruct (_ =? FILE_ERASED); [apply IH|].
  destruct (negb _); apply IH.
Qed.

Lemma compact_loop_unmodified ents n : forall r w buf buf',
  compact_loop n r w ents buf false = (buf', false) -> buf' = buf.
Proof.
  induction n as [|n IH]; intros r w buf buf' H.
  - now injection H as <-.
  - cbn [compact_loop] in H.
    destruct (_ =? FILE_CLEAR); [now apply clear_tail_unmodified in H|].
    destruct (_ =? FILE_ERASED).
    { pose proof (compact_loop_mono ents n (r + 1) w buf) as M.
      rewrite H in M. discriminate. }
    destruct (negb _).
    + pose proof (compact_loop_mono ents n (r + 1) (w + 1)
                    (blit buf (ROOT_ENTRY_SIZE * w) (entry_at buf r))) as M.
      rewrite H in M. discriminate.
    + now apply IH in H.
Qed.

(** X16.  The compaction of one directory sector, on a device that does
    not fail.  It succeeds and touches no other sector.  The live entries
    before the end marker are moved to the front in their order.  When the
    sector holds an end marker, every slot after them is left free.  When
    it holds none, the slots after them keep what they held, so that the
    entries moved up stay behind as duplicates. *)
Theorem compaction_spec (lba : Z) (s : FAT32) :
  mounted s -> no_faults s ->
  let r := compact_directory_sector lba s in
  let before := sector512 (blocks (sd_card s) lba) in
  let after := sector512 (blocks (sd_card (snd r)) lba) in
  let ents := ents_per_sector s in
  let l := fst (kept ents 0 before) in
  let met_end := snd (kept ents 0 before) in
  fst r = true /\
  geometry (snd r) = geometry s /\
  (forall x, x <> lba -> blocks (sd_card (snd r)) x = blocks (sd_card s) x) /\
  (forall i, 0 <= i < Z.of_nat (length l) ->
     entry_at after i = entry_at before (nth (Z.to_nat i) l 0)) /\
  (met_end = true ->
   forall j, Z.of_nat (length l) <= j < Z.of_nat ents ->
     FileName (entry_at after j) 0 0 = FILE_CLEAR) /\
  (met_end = false ->
   forall j, Z.of_nat (length l) <= j -> entry_at after j = entry_at before j).
Proof.
  intros M NF. cbv zeta. unfold compact_directory_sector.
  pose proof (get_physical_block_facts lba s) as F. cbv zeta in F.
  destruct (get_physical_block lba s) as [ok s1]. cbn [fst snd] in F.
  destruct F as (G & B & Fl & T & _ & _ & _ & _ & _ & _ & Hh & _ & Hok).
  assert (N0 : next_transfer_ok s) by (apply NF; lia).
  rewrite (Hok N0) in *. specialize (Hh eq_refl). unfold holds_sector in Hh.
  assert (Ee : ents_per_sector s1 = ents_per_sector s).
  { unfold ents_per_sector. now injection G as _ _ _ -> _. }
  rewrite Ee.
  pose proof (ents_per_sector_bound s M) as Hb.
  assert (L : length (read_buffer s1) = 512%nat)
    by (rewrite Hh; apply length_sector512).
  pose proof (compact_loop_spec (read_buffer s1) (Z.of_nat (ents_per_sector s))
                (ents_per_sector s) 0 0 (read_buffer s1) false
                ltac:(lia) ltac:(lia)
                ltac:(rewrite L; unfold ROOT_ENTRY_SIZE; lia)
                ltac:(reflexivity)) as C.
  rewrite <- B, <- Hh.
  destruct (compact_loop (ents_per_sector s) 0 0 (Z.of_nat (ents_per_sector s))
              (read_buffer s1) false) as [buf' modified] eqn:Ec.
  destruct (kept (ents_per_sector s) 0 (read_buffer s1)) as [l b].
  cbn [fst snd]. destruct C as (L' & _ & K & Ce & Te).
  assert (Final : forall after,
            after = buf' ->
            (forall i, 0 <= i < Z.of_nat (length l) ->
               entry_at after i
               = entry_at (read_buffer s1) (nth (Z.to_nat i) l 0)) /\
            (b = true ->
             forall j, Z.of_nat (length l) <= j < Z.of_nat (ents_per_sector s) ->
               FileName (entry_at after j) 0 0 = FILE_CLEAR) /\
            (b = false ->
             forall j, Z.of_nat (length l) <= j ->
               entry_at after j = entry_at (read_buffer s1) j)).
  { intros after ->. split; [|split].
    - intros i Hi. rewrite <- (Z.add_0_l i) at 1. now apply K.
    - intros Hbt j Hj. apply Ce; [exact Hbt | lia].
    - intros Hbf j Hj. apply Te; [exact Hbf | lia]. }
  destruct modified.
  - unfold store_physical_block, blk_write.
    cbn [sd_card set_read_buffer set_sd_card].
    assert (N1 : fault (sd_card s1) (ticks (sd_card s1)) = false).
    { rewrite Fl, T. apply NF. lia. }
    rewrite N1. cbn [fst snd sd_card set_sd_card blocks tick with_block].
    split; [reflexivity|]. split; [exact G|].
    split.
    { intros x Hx. rewrite (proj2 (Z.eqb_neq _ _)) by assumption. now rewrite B. }
    apply Final. rewrite Z.eqb_refl, sector512_idem.
    apply sector512_fixed. congruence.
  - cbn [fst snd].
    split; [reflexivity|]. split; [exact G|].
    split; [intros; now rewrite B|].
    apply Final. rewrite (compact_loop_unmodified _ _ _ _ _ _ Ec).
    symmetry. exact Hh.
Qed.

Lemma compaction_spec_witness :
  mounted full_dir_volume /\ no_faults full_dir_volume /\
  fst (compact_directory_sector 2088 full_dir_volume) = true /\
  snd (kept 16 0 full_sector) = false /\
  entry_at (blocks (sd_card (snd (compact_directory_sector 2088 full_dir_volume)))
                   2088) 14
  = entry_at (blocks (sd_card (snd (compact_directory_sector 2088 full_dir_volume)))
                     2088) 15.
Proof.
  assert (M : mounted full_dir_volume).
  { unfold mounted. simpl. repeat split; try reflexivity; lia. }
  assert (N : no_faults full_dir_volume) by (intros n _; reflexivity).
  split; [exact M|]. split; [exact N|].
  split; [exact (proj1 (compaction_spec 2088 full_dir_volume M N))|].
  split; vm_compute; reflexivity.
Defined.

(* ------------------------------------------------------------------ *)
(** ** Formatting and mounting *)

Lemma blk_write_reliable lba data d :
  reliable d ->
  blk_write lba data d = (true, tick (with_block lba data d)) /\
  reliable (tick (with_block lba data d)).
Proof.
  intros R. unfold blk_write. rewrite (R (ticks d)) by lia.
  split; [reflexivity|]. intros n Hn. simpl in *. apply R. lia.
Qed.

Lemma sector512_zero : sector512 zero_sector = zero_sector.
Proof. reflexivity. Qed.

(** The loop that zeroes the rest of both FAT copies, on a reliable
    device. *)
Lemma zero_fats_reliable fat_start fat_size n : forall i d,
  reliable d -> 0 <= fat_start -> 0 <= i ->
  i + Z.of_nat n <= fat_size ->
  fat_start + fat_size + fat_size <= 4294967296 ->
  let r := zero_fats n i fat_start fat_size d in
  fst r = true /\ reliable (snd r) /\
  (forall l,
     (forall j, i <= j < i + Z.of_nat n ->
                l <> fat_start + j /\ l <> fat_start + fat_size + j) ->
     blocks (snd r) l = blocks d l) /\
  (forall j, i <= j < i + Z.of_nat n ->
     blocks (snd r) (fat_start + j) = zero_sector /\
     blocks (snd r) (fat_start + fat_size + j) = zero_sector).
Proof.
  induction n as [|n IH]; intros i d R Hs Hi Hf Hb.
  - simpl. repeat split; auto; intros; lia.
  - cbn [zero_fats].
    rewrite !to_u32_small by lia.
    destruct (blk_write_reliable (fat_start + i) zero_sector d R) as [E1 R1].
    rewrite E1. cbn [negb].
    destruct (blk_write_reliable (fat_start + fat_size + i) zero_sector _ R1)
      as [E2 R2].
    rewrite E2. cbn [negb].
    set (d2 := tick (with_block (fat_start + fat_size + i) zero_sector
                       (tick (with_block (fat_start + i) zero_sector d)))) in *.
    specialize (IH (i + 1) d2 R2 Hs ltac:(lia) ltac:(lia) Hb).
    cbv zeta in IH. destruct IH as (I1 & I2 & I3 & I4).
    assert (B2 : forall l, blocks d2 l =
              if l =? fat_start + fat_size + i then zero_sector
              else if l =? fat_start + i then zero_sector else blocks d l).
    { intros l. unfold d2. simpl. rewrite sector512_zero. reflexivity. }
    split; [exact I1|]. split; [exact I2|]. split.
    + intros l Hl. rewrite I3 by (intros j Hj; apply Hl; lia).
      rewrite B2. destruct (Hl i ltac:(lia)) as [N1 N2].
      now rewrite !(proj2 (Z.eqb_neq _ _)) by assumption.
    + intros j Hj. destruct (Z.eq_dec j i) as [->|Hne].
      * split.
        -- rewrite I3 by (intros k Hk; lia).
           rewrite B2. rewrite (proj2 (Z.eqb_neq _ _)) by lia.
           now rewrite Z.eqb_refl.
        -- rewrite I3 by (intros k Hk; lia).
           rewrite B2. now rewrite Z.eqb_refl.
      * apply I4. lia.
Qed.

Lemma zero_root_reliable data_start n : forall i d,
  reliable d -> 0 <= data_start -> 0 <= i ->
  data_start + i + Z.of_nat n <= 4294967296 ->
  let r := zero_root n i data_start d in
  fst r = true /\ reliable (snd r) /\
  (forall l, (l < data_start + i \/ data_start + i + Z.of_nat n <= l) ->
     blocks (snd r) l = blocks d l) /\
  (forall j, i <= j < i + Z.of_nat n ->
     blocks (snd r) (data_start + j) = zero_sector).
Proof.
  induction n as [|n IH]; intros i d R Hs Hi Hb.
  - simpl. repeat split; auto; intros; lia.
  - cbn [zero_root]. rewrite to_u32_small by lia.
    destruct (blk_write_reliable (data_start + i) zero_sector d R) as [E1 R1].
    rewrite E1. cbn [negb].
    set (d1 := tick (with_block (data_start + i) zero_sector d)) in *.
    specialize (IH (i + 1) d1 R1 Hs ltac:(lia) ltac:(lia)).
    cbv zeta in IH. destruct IH as (I1 & I2 & I3 & I4).
    assert (B1 : forall l, blocks d1 l =
              if l =? data_start + i then zero_sector else blocks d l).
    { intros l. unfold d1. simpl. rewrite sector512_zero. reflexivity. }
    split; [exact I1|]. split; [exact I2|]. split.
    + intros l Hl. rewrite I3 by lia. rewrite B1.
      now rewrite (proj2 (Z.eqb_neq _ _)) by lia.
    + intros j Hj. destruct (Z.eq_dec j i) as [->|Hne].
      * rewrite I3 by lia. rewrite B1. now rewrite Z.eqb_refl.
      * apply I4. lia.
Qed.

Lemma format_sectors_per_cluster_cases N :
  format_sectors_per_cluster N = 8 \/ format_sectors_per_cluster N = 16 \/
  format_sectors_per_cluster N = 32 \/ format_sectors_per_cluster N = 64.
Proof.
  unfold format_sectors_per_cluster.
  destruct (_ <? N); auto. destruct (_ <? N); auto. destruct (_ <? N); auto.
Qed.

Lemma format_fat_size_bounds N :
  1 <= format_fat_size N <= 4194305.
Proof.
  unfold format_fat_size.
  assert (Hd : 0 <= to_u32 (N - 32) < 4294967296)
    by (apply Z.mod_pos_bound; lia).
  set (ds := to_u32 (N - 32)) in *.
  set (spc := format_sectors_per_cluster N).
  assert (Hs : 8 <= spc <= 64)
    by (unfold spc; destruct (format_sectors_per_cluster_cases N) as [->|[->|[->| ->]]]; lia).
  assert (Hc : 0 <= ds / spc <= 536870911).
  { split; [apply Z.div_pos; lia|].
    apply Z.lt_succ_r. apply Z.div_lt_upper_bound; lia. }
  rewrite (to_u32_small ((ds / spc + 2) * 4)) by lia.
  rewrite to_u32_small by lia.
  split.
  - apply Z.div_le_lower_bound; lia.
  - apply Z.lt_succ_r. apply Z.div_lt_upper_bound; lia.
Qed.

Lemma length_mbr_sector N : length (mbr_sector N) = 512%nat.
Proof. unfold mbr_sector, mbr_image. now rewrite !length_blit. Qed.

Lemma length_boot_sector N l sn : length (boot_sector N l sn) = 512%nat.
Proof. unfold boot_sector, boot_image. now rewrite !length_blit. Qed.

Lemma length_fat_sector0 : length fat_sector0 = 512%nat.
Proof. reflexivity. Qed.

Lemma blocks_with_block lba data d l :
  blocks (tick (with_block lba data d)) l
  = if l =? lba then sector512 data else blocks d l.
Proof. reflexivity. Qed.

(** What [format_fat32] leaves on a reliable card. *)
Lemma format_fat32_blocks N label serial d :
  0 < N < 4294967296 -> reliable d ->
  let r := format_fat32 true N label serial d in
  let fs := format_fat_size N in
  let spc := format_sectors_per_cluster N in
  fst r = true /\ reliable (snd r) /\
  blocks (snd r) 0 = mbr_sector N /\
  blocks (snd r) 2048 = boot_sector N label serial /\
  blocks (snd r) 2049 = fsinfo_sector /\
  blocks (snd r) 2080 = fat_sector0 /\
  blocks (snd r) (2080 + fs) = fat_sector0 /\
  (forall j, 1 <= j < fs ->
     blocks (snd r) (2080 + j) = zero_sector /\
     blocks (snd r) (2080 + fs + j) = zero_sector) /\
  (forall i, 0 <= i < spc -> blocks (snd r) (2080 + 2 * fs + i) = zero_sector) /\
  (forall l, l <> 0 -> l <> 2048 -> l <> 2049 ->
     (l < 2080 \/ 2080 + 2 * fs + spc <= l) ->
     blocks (snd r) l = blocks d l).
Proof.
  intros HN R. cbv zeta.
  pose proof (format_fat_size_bounds N) as Hfs.
  assert (Hs : 8 <= format_sectors_per_cluster N <= 64)
    by (destruct (format_sectors_per_cluster_cases N) as [->|[->|[->| ->]]]; lia).
  unfold format_fat32. cbn [negb].
  rewrite (proj2 (Z.eqb_neq N 0)) by lia.
  set (fs := format_fat_size N) in *.
  set (spc := format_sectors_per_cluster N) in *.
  unfold partition_start.
  rewrite (to_u32_small (2 * fs)) by lia.
  rewrite !to_u32_small by lia.
  replace (2048 + 32) with 2080 by reflexivity.
  replace (2048 + 1) with 2049 by reflexivity.
  unfold then_write.
  destruct (blk_write_reliable 0 (mbr_sector N) d R) as [E1 R1].
  rewrite E1. cbn [fst snd]. set (d1 := tick (with_block 0 (mbr_sector N) d)) in *.
  destruct (blk_write_reliable 2048 (boot_sector N label serial) d1 R1) as [E2 R2].
  rewrite E2. cbn [fst snd].
  set (d2 := tick (with_block 2048 (boot_sector N label serial) d1)) in *.
  destruct (blk_write_reliable 2049 fsinfo_sector d2 R2) as [E3 R3].
  rewrite E3. cbn [fst snd]. set (d3 := tick (with_block 2049 fsinfo_sector d2)) in *.
  destruct (blk_write_reliable 2080 fat_sector0 d3 R3) as [E4 R4].
  rewrite E4. cbn [fst snd]. set (d4 := tick (with_block 2080 fat_sector0 d3)) in *.
  destruct (blk_write_reliable (2080 + fs) fat_sector0 d4 R4) as [E5 R5].
  rewrite E5. cbn [fst snd].
  set (d5 := tick (with_block (2080 + fs) fat_sector0 d4)) in *.
  pose proof (zero_fats_reliable 2080 fs (Z.to_nat (fs - 1)) 1 d5 R5
                ltac:(lia) ltac:(lia) ltac:(lia) ltac:(lia)) as F.
  cbv zeta in F. destruct F as (F1 & F2 & F3 & F4).
  rewrite F1. set (d6 := snd (zero_fats (Z.to_nat (fs - 1)) 1 2080 fs d5)) in *.
  pose proof (zero_root_reliable (2080 + 2 * fs) (Z.to_nat spc) 0 d6 F2
                ltac:(lia) ltac:(lia) ltac:(lia)) as Z0.
  cbv zeta in Z0. destruct Z0 as (Z1 & Z2 & Z3 & Z4).
  set (d7 := snd (zero_root (Z.to_nat spc) 0 (2080 + 2 * fs) d6)) in *.
  assert (B5 : forall l, blocks d5 l =
            if l =? 2080 + fs then fat_sector0
            else if l =? 2080 then fat_sector0
            else if l =? 2049 then fsinfo_sector
            else if l =? 2048 then boot_sector N label serial
            else if l =? 0 then mbr_sector N
            else blocks d l).
  { intros l. unfold d5, d4, d3, d2, d1. rewrite !blocks_with_block.
    rewrite (sector512_fixed fat_sector0) by reflexivity.
    rewrite (sector512_fixed fsinfo_sector) by reflexivity.
    rewrite (sector512_fixed (boot_sector N label serial))
      by apply length_boot_sector.
    rewrite (sector512_fixed (mbr_sector N)) by apply length_mbr_sector.
    reflexivity. }
  assert (Low : forall l, l < 2080 + 1 \/ l = 2080 + fs ->
            blocks d7 l = blocks d5 l).
  { intros l Hl. rewrite Z3 by lia. apply F3. intros j Hj. lia. }
  split; [exact Z1|]. split; [exact Z2|].
  split; [rewrite Low, B5 by lia; now decide_eqbs|].
  split; [rewrite Low, B5 by lia; now decide_eqbs|].
  split; [rewrite Low, B5 by lia; now decide_eqbs|].
  split; [rewrite Low, B5 by lia; now decide_eqbs|].
  split; [rewrite Low, B5 by lia; now decide_eqbs|].
  split.
  { intros j Hj. destruct (F4 j ltac:(lia)) as [A B].
    split; rewrite Z3 by lia; assumption. }
  split.
  { intros i Hi. apply Z4. lia. }
  intros l N0 N1 N2 Hl. rewrite Z3 by lia. rewrite F3 by (intros j Hj; lia).
  rewrite B5. now rewrite !(proj2 (Z.eqb_neq l _)) by lia.
Qed.

Lemma le32_join buf off v :
  0 <= v < 4294967296 ->
  byte_at buf off = Z.land v 255 ->
  byte_at buf (off + 1) = Z.land (Z.shiftr v 8) 255 ->
  byte_at buf (off + 2) = Z.land (Z.shiftr v 16) 255 ->
  byte_at buf (off + 3) = Z.land (Z.shiftr v 24) 255 ->
  le32 buf off = v.
Proof.
  intros Hv H0 H1 H2 H3. unfold le32. rewrite H0, H1, H2, H3.
  now apply join_split32.
Qed.

(** The partition table [format_fat32] writes, as [read_master_block]
    reads it. *)
Lemma mbr_image_fields x :
  has_signature (mbr_image x) = true /\
  looks_like_bpb (mbr_image x) = false /\
  find_fat32_partition 4 0x1BE (mbr_image x) = 2048.
Proof. repeat split; vm_compute; reflexivity. Qed.

(** The boot sector [format_fat32] writes, as [read_master_block] reads
    it. *)
Lemma boot_image_fields spc x fs serial label :
  length label = 11%nat ->
  0 <= x < 4294967296 -> 0 <= fs < 4294967296 ->
  let b := boot_image spc x fs serial label in
  has_signature b = true /\
  bytes_per_sector b = 512 /\
  sectors_per_cluster b = Z.land spc 255 /\
  reserved_sectors b = 32 /\
  fat_count b = 2 /\
  root_entries b = 0 /\
  total_sectors_16 b = 0 /\
  fat_size_16 b = 0 /\
  total_sectors_32 b = x /\
  fat_size_32 b = fs /\
  root_cluster b = 2.
Proof.
  intros HL Hx Hf.
  do 12 (destruct label as [|? label]; try discriminate HL).
  cbv zeta.
  split; [vm_compute; reflexivity|].
  split; [vm_compute; reflexivity|].
  split; [vm_compute; reflexivity|].
  split; [vm_compute; reflexivity|].
  split; [vm_compute; reflexivity|].
  split; [vm_compute; reflexivity|].
  split; [vm_compute; reflexivity|].
  split; [vm_compute; reflexivity|].
  split; [apply le32_join; [exact Hx | vm_compute; reflexivity ..]|].
  split; [apply le32_join; [exact Hf | vm_compute; reflexivity ..]|].
  vm_compute; reflexivity.
Qed.

Lemma get_physical_block_reliable lba s :
  reliable (sd_card s) ->
  get_physical_block lba s
  = (true, set_read_buffer (sector512 (blocks (sd_card s) lba))
             (set_sd_card (tick (sd_card s)) s)) /\
  reliable (tick (sd_card s)).
Proof.
  intros R. unfold get_physical_block, blk_read.
  rewrite (R (ticks (sd_card s))) by lia. split; [reflexivity|].
  intros n Hn. simpl in *. apply R. lia.
Qed.

Lemma byte_at_zero_sector k : byte_at zero_sector k = 0.
Proof.
  unfold byte_at, zero_sector.
  destruct (Nat.lt_ge_cases (Z.to_nat k) 512) as [L|L].
  - apply nth_repeat_lt. exact L.
  - apply nth_overflow. now rewrite repeat_length.
Qed.

Lemma le32_zero_sector off : le32 zero_sector off = 0.
Proof. unfold le32. now rewrite !byte_at_zero_sector. Qed.

Lemma byte_at_fat_sector0 k : 12 <= k -> byte_at fat_sector0 k = 0.
Proof.
  intros Hk. unfold byte_at, fat_sector0.
  rewrite app_nth2 by (simpl; lia).
  destruct (Nat.lt_ge_cases (Z.to_nat k - 12) 500) as [L|L].
  - apply nth_repeat_lt. exact L.
  - apply nth_overflow. now rewrite repeat_length.
Qed.

Lemma le32_fat_sector0 off : 12 <= off -> le32 fat_sector0 off = 0.
Proof. intros H. unfold le32. now rewrite !byte_at_fat_sector0 by lia. Qed.

(** The object [init] builds on a card that [format_fat32] has just
    formatted. *)
Lemma init_formatted N label serial d :
  0 < N < 4294967296 -> reliable d ->
  let d' := snd (format_fat32 true N label serial d) in
  let fs := format_fat_size N in
  let spc := format_sectors_per_cluster N in
  let x := to_u32 (N - partition_start) in
  init true (FAT32_new d')
  = (true,
     mkFAT (tick (tick d')) true fs x 512 spc 2080
           (to_u16 (2080 + 2 * fs))
           (to_u16 (to_u32 (x - (32 + 2 * fs)) / spc + 1))
           2 (32 + 2 * fs) 2
           (boot_sector N label serial) 0xFFFFFFFF false zero_sector
           ReadHandler0 WriteHandler0 0).
Proof.
  intros HN R. cbv zeta.
  destruct (format_fat32_blocks N label serial d HN R)
    as (_ & R' & B0 & B1 & _).
  set (d' := snd (format_fat32 true N label serial d)) in *.
  pose proof (format_fat_size_bounds N) as Hfs.
  assert (Hx : 0 <= to_u32 (N - partition_start) < 4294967296)
    by (apply Z.mod_pos_bound; lia).
  destruct (mbr_image_fields (to_u32 (N - partition_start))) as (M1 & M2 & M3).
  pose proof (boot_image_fields (format_sectors_per_cluster N)
                (to_u32 (N - partition_start)) (format_fat_size N) serial
                (label11 label) (length_pad_spaces 11 _) Hx ltac:(lia)) as F.
  cbv zeta in F. fold (boot_sector N label serial) in F.
  fold (mbr_sector N) in M1, M2, M3.
  destruct F as (F1 & F2 & F3 & F4 & F5 & F6 & F7 & F8 & F9 & F10 & F11).
  assert (Hspc : Z.land (format_sectors_per_cluster N) 255
                 = format_sectors_per_cluster N).
  { destruct (format_sectors_per_cluster_cases N) as [->|[->|[->| ->]]];
      reflexivity. }
  unfold init, read_master_block. cbn [negb].
  destruct (get_physical_block_reliable 0 (FAT32_new d') R') as [E1 R1].
  rewrite E1. cbn [sd_card FAT32_new read_buffer set_read_buffer set_sd_card].
  rewrite B0, (sector512_fixed _ (length_mbr_sector N)), M1, M2, M3.
  cbn [negb].
  match goal with
  | |- context [get_physical_block 2048 ?s] =>
      destruct (get_physical_block_reliable 2048 s R1) as [E2 R2]; rewrite E2
  end.
  cbn [sd_card read_buffer set_read_buffer set_sd_card blocks tick].
  rewrite B1, (sector512_fixed _ (length_boot_sector N label serial)), F1.
  cbn [negb]. f_equal.
  unfold load_geometry.
  rewrite F2, F3, F4, F5, F6, F7, F8, F9, F10, F11, Hspc.
  cbn [negb Z.eqb].
  set (fs := format_fat_size N) in *.
  set (spc := format_sectors_per_cluster N) in *.
  set (x := to_u32 (N - partition_start)) in *.
  assert (A1 : to_u16 2048 = 2048) by reflexivity.
  assert (A2 : to_u16 (2048 + 32) = 2080) by reflexivity.
  assert (A3 : to_u32 (to_u32 (0 * 32) + to_u32 (512 - 1)) / 512 = 0)
    by reflexivity.
  assert (A4 : to_u32 (32 + to_u32 (2 * fs) + 0) = 32 + 2 * fs).
  { rewrite (to_u32_small (2 * fs)) by lia.
    replace (32 + 2 * fs + 0) with (32 + 2 * fs) by lia.
    apply to_u32_small. lia. }
  rewrite A1, A2, A3, A4.
  replace (2048 + (32 + 2 * fs)) with (2080 + 2 * fs) by lia.
  reflexivity.
Qed.

(** A directory whose first sector is blank lists as empty. *)
Lemma list_directory_blank cap fuel s :
  reliable (sd_card s) -> 0 < cluster_size s -> (0 < ents_per_sector s)%nat ->
  let cluster := if negb (current_dir_cluster_ s =? 0)
                 then current_dir_cluster_ s else root_dir_first_cluster s in
  cluster < EOC_MIN ->
  blocks (sd_card s) (cluster_lba s cluster 0) = zero_sector ->
  exists s', list_directory cap (S fuel) s = Some (ERROR_IDLE, [], s').
Proof.
  intros R Hc He. cbv zeta. intros Hv Hz. unfold list_directory.
  set (cluster := if negb (current_dir_cluster_ s =? 0)
                  then current_dir_cluster_ s else root_dir_first_cluster s) in *.
  cbn [list_chain]. rewrite (proj2 (Z.ltb_lt _ _) Hv).
  destruct (Z.to_nat (cluster_size s)) as [|n] eqn:En; [lia|].
  cbn [list_sectors].
  destruct (get_physical_block_reliable (cluster_lba s cluster 0) s R) as [E _].
  rewrite E, Hz, sector512_zero.
  change (ents_per_sector (set_read_buffer zero_sector
                             (set_sd_card (tick (sd_card s)) s)))
    with (ents_per_sector s).
  destruct (ents_per_sector s) as [|k]; [lia|].
  cbn [list_entries read_buffer set_read_buffer].
  rewrite first_byte_entry_at, byte_at_zero_sector.
  change (0 =? FILE_CLEAR) with true. cbv iota.
  eexists. reflexivity.
Qed.

(** X19.  Formatting then mounting.  On a card that does not fail,
    [format_fat32] succeeds, and [init] on the formatted card succeeds and
    finds the layout that was written: 512-byte sectors, the cluster size
    chosen from the card size, the FAT at sector 2080, the data region
    after two FAT copies, the root directory in cluster 2.  The volume is
    healthy, cluster 2 is an end of chain and every other entry of the
    first FAT copy is free.  [data_base] and [last_cluster] are kept
    modulo 65536; when the data region starts below sector 65536 the root
    directory lists as empty. *)
Theorem format_then_mount (N : Z) (label : list Z) (serial : Z) (d : BlockDev) :
  0 < N < 4294967296 -> reliable d ->
  let r := format_fat32 true N label serial d in
  let m := init true (FAT32_new (snd r)) in
  let s := snd m in
  let fs := format_fat_size N in
  let spc := format_sectors_per_cluster N in
  fst r = true /\ fst m = true /\ healthy s /\
  sector_size s = 512 /\ cluster_size s = spc /\ sectors_per_fat s = fs /\
  sectors_in_partition s = (N - 2048) mod 4294967296 /\
  fat_base s = 2080 /\ first_data_sector s = 32 + 2 * fs /\
  data_base s = (2080 + 2 * fs) mod 65536 /\
  root_dir_first_cluster s = 2 /\ current_dir_cluster_ s = 2 /\
  last_cluster s
  = ((((N - 2048) mod 4294967296 - (32 + 2 * fs)) mod 4294967296) / spc + 1)
    mod 65536 /\
  disk_fat s 2 = 0x0FFFFFFF /\
  (forall c, 3 <= c < 128 * fs -> disk_fat s c = CLUSTER_FREE) /\
  (2080 + 2 * fs < 65536 ->
   forall cap fuel, exists s',
     list_directory cap (S fuel) s = Some (ERROR_IDLE, [], s')).
Proof.
  intros HN R. cbv zeta.
  rewrite (init_formatted N label serial d HN R).
  destruct (format_fat32_blocks N label serial d HN R)
    as (Ok & R' & _ & _ & _ & B4 & _ & B6 & B7 & _).
  set (d' := snd (format_fat32 true N label serial d)) in *.
  pose proof (format_fat_size_bounds N) as Hfs.
  assert (Hs : 8 <= format_sectors_per_cluster N <= 64)
    by (destruct (format_sectors_per_cluster_cases N) as [->|[->|[->| ->]]]; lia).
  set (fs := format_fat_size N) in *.
  set (spc := format_sectors_per_cluster N) in *.
  cbn [fst snd].
  set (s := mkFAT (tick (tick d')) true fs (to_u32 (N - partition_start)) 512 spc
                  2080 (to_u16 (2080 + 2 * fs))
                  (to_u16 (to_u32 (to_u32 (N - partition_start) - (32 + 2 * fs))
                           / spc + 1))
                  2 (32 + 2 * fs) 2 (boot_sector N label serial) 4294967295
                  false zero_sector ReadHandler0 WriteHandler0 0).
  assert (Rs : reliable (sd_card s)).
  { intros n Hn. apply R'. simpl in Hn. lia. }
  assert (Bs : forall l, blocks (sd_card s) l = blocks d' l) by reflexivity.
  split; [exact Ok|]. split; [reflexivity|].
  split.
  { split; [|split].
    - unfold mounted. simpl. repeat split; try reflexivity; lia.
    - intros H. discriminate H.
    - exact Rs. }
  split; [reflexivity|]. split; [reflexivity|]. split; [reflexivity|].
  split; [reflexivity|]. split; [reflexivity|]. split; [reflexivity|].
  split; [reflexivity|]. split; [reflexivity|]. split; [reflexivity|].
  split; [reflexivity|].
  split.
  { unfold disk_fat, disk_fat_raw.
    change (fat_base s) with 2080. change (sector_size s) with 512.
    change (2 * 4 / 512) with 0. change (2 * 4 mod 512) with 8.
    rewrite Bs, Z.add_0_r, B4. reflexivity. }
  split.
  { intros c Hc. unfold disk_fat, disk_fat_raw.
    change (fat_base s) with 2080. change (sector_size s) with 512.
    rewrite Bs.
    assert (Hj : 0 <= c * 4 / 512 < fs).
    { split; [apply Z.div_pos; lia|].
      apply Z.div_lt_upper_bound; lia. }
    assert (Ho : 0 <= (c * 4) mod 512 < 512) by (apply Z.mod_pos_bound; lia).
    destruct (Z.eq_dec (c * 4 / 512) 0) as [E0|E0].
    - rewrite E0, Z.add_0_r, B4.
      rewrite (sector512_fixed _ length_fat_sector0).
      rewrite le32_fat_sector0; [reflexivity|].
      pose proof (Z.div_mod (c * 4) 512 ltac:(lia)). lia.
    - destruct (B6 (c * 4 / 512) ltac:(lia)) as [Bz _].
      rewrite Bz, sector512_zero, le32_zero_sector. reflexivity. }
  intros Hd cap fuel.
  apply list_directory_blank.
  - exact Rs.
  - change (cluster_size s) with spc. lia.
  - change (ents_per_sector s) with 16%nat. lia.
  - reflexivity.
  - change (current_dir_cluster_ s) with 2. cbn [negb Z.eqb].
    unfold cluster_lba. change (data_base s) with (to_u16 (2080 + 2 * fs)).
    change (cluster_size s) with spc.
    rewrite to_u16_small by lia.
    replace (2080 + 2 * fs + (2 - 2) * spc + 0) with (2080 + 2 * fs + 0) by lia.
    rewrite to_u32_small by lia. rewrite Bs. apply B7. lia.
Qed.

Lemma format_then_mount_witness :
  0 < 4096 < 4294967296 /\ reliable blank_card /\
  snd (init true (FAT32_new
         (snd (format_fat32 true 4096 (str "PICO_SD") 12345 blank_card))))
  = set_sd_card
      (sd_card (snd (init true (FAT32_new
         (snd (format_fat32 true 4096 (str "PICO_SD") 12345 blank_card))))))
      (set_read_buffer
         (read_buffer (snd (init true (FAT32_new
            (snd (format_fat32 true 4096 (str "PICO_SD") 12345 blank_card))))))
         fresh_volume) /\
  fst (init true (FAT32_new
         (snd (format_fat32 true 4096 (str "PICO_SD") 12345 blank_card))))
  = true.
Proof.
  assert (HN : 0 < 4096 < 4294967296) by lia.
  assert (R : reliable blank_card) by (intros n _; reflexivity).
  split; [exact HN|]. split; [exact R|].
  split; [vm_compute; reflexivity|].
  exact (proj1 (proj2 (format_then_mount 4096 (str "PICO_SD") 12345
                         blank_card HN R))).
Defined.

(** The outcome of [init] in the model, where a division by zero
    yields 0. *)
Lemma init_outcome (s : FAT32) :
  init false s = (false, s) /\
  blocks (sd_card (snd (init true s))) = blocks (sd_card s) /\
  (fst (init true s) = false -> geometry (snd (init true s)) = geometry s) /\
  (fst (init true s) = true -> initialized (snd (init true s)) = true /\
     current_dir_cluster_ (snd (init true s))
     = root_dir_first_cluster (snd (init true s))) /\
  (reliable (sd_card s) ->
   fst (init true s)
   = has_signature (sector512 (blocks (sd_card s) 0))
     && has_signature (sector512 (blocks (sd_card s) (bpb_lba_of s)))).
Proof.
  split; [reflexivity|].
  unfold init, read_master_block, bpb_lba_of. cbn [negb].
  pose proof (get_physical_block_facts 0 s) as F1. cbv zeta in F1.
  assert (Q1 : reliable (sd_card s) ->
               get_physical_block 0 s
               = (true, set_read_buffer (sector512 (blocks (sd_card s) 0))
                          (set_sd_card (tick (sd_card s)) s)))
    by (intros R; apply get_physical_block_reliable, R).
  destruct (get_physical_block 0 s) as [ok1 s1]. cbn [fst snd] in F1.
  destruct F1 as (G1 & B1 & _ & _ & _ & _ & _ & _ & _ & _ & H1 & _).
  destruct ok1.
  2:{ cbn [fst snd]. repeat split; auto; try discriminate.
      intros R. specialize (Q1 R). discriminate Q1. }
  specialize (H1 eq_refl). unfold holds_sector in H1.
  assert (E0 : read_buffer s1 = sector512 (blocks (sd_card s) 0)) by congruence.
  rewrite E0.
  destruct (has_signature (sector512 (blocks (sd_card s) 0))) eqn:S0; cbn [negb].
  2:{ cbn [fst snd]. repeat split; auto; discriminate. }
  set (lba := if looks_like_bpb (sector512 (blocks (sd_card s) 0)) then 0
              else find_fat32_partition 4 446 (sector512 (blocks (sd_card s) 0))).
  pose proof (get_physical_block_facts lba s1) as F2. cbv zeta in F2.
  assert (Q2 : reliable (sd_card s) ->
               get_physical_block lba s1
               = (true, set_read_buffer (sector512 (blocks (sd_card s1) lba))
                          (set_sd_card (tick (sd_card s1)) s1))).
  { intros R. apply get_physical_block_reliable.
    specialize (Q1 R). injection Q1 as ->.
    intros n Hn. simpl in *. apply R. lia. }
  destruct (get_physical_block lba s1) as [ok2 s2]. cbn [fst snd] in F2.
  destruct F2 as (G2 & B2 & _ & _ & _ & _ & _ & _ & _ & _ & H2 & _).
  destruct ok2.
  2:{ cbn [fst snd]. split; [congruence|]. split; [intros _; congruence|].
      split; [discriminate|].
      intros R. specialize (Q2 R). discriminate Q2. }
  specialize (H2 eq_refl). unfold holds_sector in H2.
  assert (E2 : read_buffer s2 = sector512 (blocks (sd_card s) lba)) by congruence.
  rewrite E2.
  destruct (has_signature (sector512 (blocks (sd_card s) lba))); cbn [negb fst snd].
  - split; [simpl; congruence|]. split; [discriminate|].
    split; [intros _; split; reflexivity|]. reflexivity.
  - split; [congruence|]. split; [intros _; congruence|].
    split; [discriminate|]. reflexivity.
Qed.

(** X20.  What [init] checks.  It never writes.  Without an initialised
    card it fails at once; when it fails the geometry and the
    [initialized] flag are as before.  On a card that does not fail it
    succeeds only when sector 0 and the sector taken for the boot sector
    both end in 0x55 0xAA, and it does succeed then, provided the two
    divisors read from the boot sector (bytes per sector, sectors per
    cluster) are not 0: neither the jump, the partition type nor any
    other field of the boot sector is checked, and with no FAT32
    partition in the table sector 0 itself is read as the boot sector. *)
Theorem init_checks (s : FAT32) :
  init false s = (false, s) /\
  blocks (sd_card (snd (init true s))) = blocks (sd_card s) /\
  (fst (init true s) = false -> geometry (snd (init true s)) = geometry s) /\
  (fst (init true s) = true -> initialized (snd (init true s)) = true /\
     current_dir_cluster_ (snd (init true s))
     = root_dir_first_cluster (snd (init true s))) /\
  (reliable (sd_card s) ->
   let b0 := sector512 (blocks (sd_card s) 0) in
   let b := sector512 (blocks (sd_card s) (bpb_lba_of s)) in
   (fst (init true s) = true ->
    has_signature b0 = true /\ has_signature b = true) /\
   (has_signature b0 = true -> has_signature b = true ->
    bytes_per_sector b <> 0 -> sectors_per_cluster b <> 0 ->
    fst (init true s) = true)).
Proof.
  destruct (init_outcome s) as (H1 & H2 & H3 & H4 & H5).
  split; [exact H1|]. split; [exact H2|]. split; [exact H3|].
  split; [exact H4|].
  intros R. cbv zeta. rewrite (H5 R). split.
  - intros E. apply andb_true_iff in E. exact E.
  - intros -> -> _ _. reflexivity.
Qed.

Lemma init_checks_witness :
  reliable signed_card /\
  fst (init true (FAT32_new signed_card)) = true /\
  looks_like_bpb (blocks signed_card 0) = false /\
  find_fat32_partition 4 0x1BE (blocks signed_card 0) = 0 /\
  sectors_per_fat (snd (init true (FAT32_new signed_card))) = 0.
Proof.
  assert (R : reliable (sd_card (FAT32_new signed_card)))
    by (intros n _; reflexivity).
  split; [exact R|]. split.
  - apply (proj2 (proj2 (proj2 (proj2 (proj2
             (init_checks (FAT32_new signed_card))))) R)).
    + reflexivity.
    + reflexivity.
    + discriminate.
    + discriminate.
  - repeat split; reflexivity.
Defined.
